(** * GoblinTerminal: command execution and quest validation engine

    A shallow embedding of [pkg/docker/manager.go] (the container manager:
    directory tracking, validation probes, environment restoration) and of
    the quest state machine of the [ui] package ([Model], [Update],
    [checkWinCondition]), together with the properties of the engine's
    specification that were checked against it.

    Go values are modelled as follows: [string] is a byte string (Rocq
    [string], one [ascii] per byte); [int] is [Z]; [error] is
    [option string] ([None] is [nil], [Some msg] an error whose [Error()]
    text is [msg]); a slice is a [list]; a run-time panic is [None] in the
    [Exec] monad.  The container runtime (docker / podman) is not part of the
    program: it is a parameter [runtime] that maps an argument vector and the
    state of the outside world to what the spawned process produced and the
    state it left behind. *)

From Stdlib Require Import String Ascii List ZArith Bool Lia DecimalString.
Import ListNotations.

Open Scope string_scope.
Open Scope Z_scope.

(* ================================================================= *)
(** ** The [strings] and [fmt] functions the program calls *)

Module Strings.

(** The line feed, ['\n']. *)
Definition LF : string := String (ascii_of_nat 10) EmptyString.

(** [s[n:]] for [n <= len(s)]. *)
Fixpoint drop (n : nat) (s : string) : string :=
  match n, s with
  | O, _ => s
  | S _, EmptyString => EmptyString
  | S k, String _ t => drop k t
  end.

(** [s[:n]] for [n <= len(s)]. *)
Fixpoint take (n : nat) (s : string) : string :=
  match n, s with
  | O, _ => EmptyString
  | S _, EmptyString => EmptyString
  | S k, String c t => String c (take k t)
  end.

Fixpoint rev_append (s acc : string) : string :=
  match s with
  | EmptyString => acc
  | String c t => rev_append t (String c acc)
  end.

Definition rev (s : string) : string := rev_append s EmptyString.

(** [strings.HasPrefix(s, prefix)]. *)
Definition HasPrefix (s p : string) : bool := String.prefix p s.

(** [strings.HasSuffix(s, suffix)]. *)
Definition HasSuffix (s suf : string) : bool :=
  (String.length suf <=? String.length s)%nat
  && String.eqb (drop (String.length s - String.length suf) s) suf.

(** [strings.TrimSuffix(s, suffix)]: removes ONE trailing occurrence of
    [suffix], if there is one. *)
Definition TrimSuffix (s suf : string) : string :=
  if HasSuffix s suf
  then take (String.length s - String.length suf) s
  else s.

(** [strings.Contains(s, substr)]. *)
Fixpoint Contains (s sub : string) : bool :=
  String.prefix sub s
  || match s with
     | EmptyString => false
     | String _ t => Contains t sub
     end.

(** [strings.Split(s, sep)] for a non-empty separator (the program only
    splits on ["\n"]).  [skip] counts the bytes of a separator that was
    just matched and still has to be passed over; [cur] is the current
    piece, reversed. *)
Fixpoint split_aux (sep : string) (skip : nat) (cur : string) (s : string)
  : list string :=
  match s with
  | EmptyString => [rev cur]
  | String c t =>
      match skip with
      | S k => split_aux sep k cur t
      | O =>
          if String.prefix sep s
          then rev cur :: split_aux sep (String.length sep - 1) EmptyString t
          else split_aux sep O (String c cur) t
      end
  end.

Definition Split (s sep : string) : list string :=
  split_aux sep O EmptyString s.

(** White space as [strings.TrimSpace] sees it.  Go decodes the string as
    UTF-8 and asks [unicode.IsSpace] of every rune: the six ASCII spaces
    (TAB, LF, VT, FF, CR, SPACE), U+0085 and U+00A0, and the runes with
    the White_Space property above Latin-1 (U+1680, U+2000..U+200A,
    U+2028, U+2029, U+202F, U+205F, U+3000).  On bytes that is one of the
    following sequences. *)
Definition asciiSpace (c : ascii) : bool :=
  let n := nat_of_ascii c in
  ((9 <=? n) && (n <=? 13) || (n =? 32))%nat.

(** Length in bytes of the white-space rune that [s] starts with, [0] when
    it starts with none. *)
Definition leading_space (s : string) : nat :=
  match s with
  | EmptyString => 0%nat
  | String c1 t1 =>
      if asciiSpace c1 then 1%nat
      else
        match nat_of_ascii c1, t1 with
        | 194%nat, String c2 _ =>           (* C2 85, C2 A0 *)
            let b := nat_of_ascii c2 in
            if ((b =? 133) || (b =? 160))%nat then 2%nat else 0%nat
        | 225%nat, String c2 (String c3 _) => (* E1 9A 80 *)
            if ((nat_of_ascii c2 =? 154) && (nat_of_ascii c3 =? 128))%nat
            then 3%nat else 0%nat
        | 226%nat, String c2 (String c3 _) => (* E2 80 80..8A, A8, A9, AF; E2 81 9F *)
            let b := nat_of_ascii c2 in
            let d := nat_of_ascii c3 in
            if ((b =? 128)
                && ((128 <=? d) && (d <=? 138)
                    || (d =? 168) || (d =? 169) || (d =? 175)))%nat
            then 3%nat
            else if ((b =? 129) && (d =? 159))%nat then 3%nat else 0%nat
        | 227%nat, String c2 (String c3 _) => (* E3 80 80 *)
            if ((nat_of_ascii c2 =? 128) && (nat_of_ascii c3 =? 128))%nat
            then 3%nat else 0%nat
        | _, _ => 0%nat
        end
  end.

(** The same, read from the end of the string: [r] is the string
    reversed, so its first [k] bytes are the last [k] bytes of the string.
    [utf8.DecodeLastRuneInString] walks back to the nearest byte that
    starts a rune and accepts it when the rune ends exactly at the end. *)
Definition trailing_space (r : string) : nat :=
  match r with
  | EmptyString => 0%nat
  | String c1 _ =>
      if asciiSpace c1 then 1%nat
      else if (leading_space (rev (take 2 r)) =? 2)%nat then 2%nat
      else if (leading_space (rev (take 3 r)) =? 3)%nat then 3%nat
      else 0%nat
  end.

Fixpoint trim_with (tok : string -> nat) (fuel : nat) (s : string) : string :=
  match fuel with
  | O => s
  | S k =>
      match tok s with
      | O => s
      | n => trim_with tok k (drop n s)
      end
  end.

Definition TrimLeft (s : string) : string :=
  trim_with leading_space (String.length s) s.

Definition TrimRight (s : string) : string :=
  rev (trim_with trailing_space (String.length s) (rev s)).

(** [strings.TrimSpace(s)]. *)
Definition TrimSpace (s : string) : string := TrimRight (TrimLeft s).

(** [%d] of [fmt.Sprintf]. *)
Definition Itoa (z : Z) : string := NilZero.string_of_int (Z.to_int z).

End Strings.

Import Strings.

(** Go's [error]: [None] is [nil]. *)
Definition error : Type := option string.

(** Go's [int] is 64 bits wide here; [add_int] is [+] with its wrap-around. *)
Definition add_int (a b : Z) : Z := (a + b + 2 ^ 63) mod 2 ^ 64 - 2 ^ 63.

(* ================================================================= *)
(** ** Package [game]: quests and the saved state *)

Module game.

(** [WinConditionType] is a string type; these are its constants. *)
Definition WinConditionType : Type := string.
Definition DirExists : WinConditionType := "directory_exists".
Definition FileExists : WinConditionType := "file_exists".
Definition FileContains : WinConditionType := "file_content_contains".
Definition CommandOut : WinConditionType := "command_output_matches".
Definition UserOutputMatch : WinConditionType := "user_output_matches".
Definition UserOutputContains : WinConditionType := "user_output_contains".
Definition CurrentDirMatch : WinConditionType := "current_working_directory".
Definition Custom : WinConditionType := "custom_check".

Record WinCondition : Type := {
  Type_ : WinConditionType;
  Target : string;
  Content : string;
  Command : string;
  Expected : string
}.

Record Quest : Type := {
  ID : Z;
  Title : string;
  IntroText : string;
  Objective : string;
  WinCondition_ : WinCondition;
  SuccessText : string;
  XPReward : Z;
  Environment : string;
  SetupCommands : list string
}.

Record GameState : Type := {
  CurrentQuestID : Z;
  MsgLog : list string
}.

End game.

Import game.

(* ================================================================= *)
(** ** The outside world and the [Exec] monad *)

(** What a finished [exec.Cmd] shows to the program: the error of
    [cmd.Run()] ([nil] when the process exited with status 0), what it wrote
    to stdout and to stderr, and the two interleaved as [CombinedOutput]
    returns them. *)
Record ExecResult : Type := {
  run_err : error;
  stdout : string;
  stderr : string;
  combined : string
}.

(** [docker.Manager].  The program holds one manager behind a pointer that
    every copy of the UI model shares, so it lives in the store below. *)
Record Manager : Type := {
  ImageName : string;
  ContainerName : string;
  GatewayName : string;
  NetworkName : string;
  Runtime : string;
  CurrentDir : string
}.

Definition with_CurrentDir (d : string) (m : Manager) : Manager :=
  {| ImageName := ImageName m; ContainerName := ContainerName m;
     GatewayName := GatewayName m; NetworkName := NetworkName m;
     Runtime := Runtime m; CurrentDir := d |}.

Section Engine.

(** The state of everything outside the process (containers and their file
    systems), and the container runtime binary: the process it spawns for
    an argument vector answers with an [ExecResult] and leaves a new
    outside state. *)
Variable World : Type.
Variable runtime : string -> list string -> World -> ExecResult * World.

(** [lipgloss]'s rendering of the quest-complete header (ANSI styling). *)
Variable Render : string -> string.

(** [Update] ends one of its cases with [return m, m.startQuest(...)], where
    the call writes to [m] through its pointer receiver.  Go leaves open
    whether the operand [m] is read before or after the call; this is the
    compiler's choice: [true] when the returned model shows the writes. *)
Variable call_then_read : bool.

(** The store: the shared manager, the outside world, the save file
    ([None] when there is none that can be read; [writable] tells whether
    [os.Create] on its path succeeds), and a log of the argument vectors
    handed to the runtime, oldest first.  The log is ghost state: the
    program never reads it. *)
Record Sys : Type := {
  mgr : Manager;
  world : World;
  saved : option GameState;
  writable : bool;
  calls : list (string * list string)
}.

(** State passing with panics: [None] is a run-time panic. *)
Definition Exec (A : Type) : Type := Sys -> option (A * Sys).

Definition ret {A : Type} (a : A) : Exec A := fun s => Some (a, s).

Definition bind {A B : Type} (c : Exec A) (f : A -> Exec B) : Exec B :=
  fun s => match c s with
           | Some (a, s') => f a s'
           | None => None
           end.

Definition panic {A : Type} : Exec A := fun _ => None.

Notation "x <- c ;; k" := (bind c (fun x => k))
  (at level 61, c at next level, right associativity).
Notation "c ;;; k" := (bind c (fun _ => k))
  (at level 61, right associativity).

Definition get_mgr : Exec Manager := fun s => Some (mgr s, s).

Definition set_CurrentDir (d : string) : Exec unit :=
  fun s => Some (tt, {| mgr := with_CurrentDir d (mgr s); world := world s;
                        saved := saved s; writable := writable s;
                        calls := calls s |}).

(** [exec.Command(bin, args...)] followed by [Run] or [CombinedOutput]. *)
Definition exec_Command (bin : string) (args : list string) : Exec ExecResult :=
  fun s => let rw := runtime bin args (world s) in
           Some (fst rw, {| mgr := mgr s; world := snd rw;
                            saved := saved s; writable := writable s;
                            calls := (calls s ++ [(bin, args)])%list |}).

(** [game.SaveState]: [os.Create] then encode. *)
Definition SaveState (st : GameState) : Exec error :=
  fun s => if writable s
           then Some (None, {| mgr := mgr s; world := world s;
                               saved := Some st; writable := writable s;
                               calls := calls s |})
           else Some (Some "open save.json: permission denied", s).

(** [game.LoadState]. *)
Definition LoadState : Exec (GameState * error) :=
  fun s => match saved s with
           | Some st => Some ((st, None), s)
           | None => Some (({| CurrentQuestID := 0; MsgLog := [] |},
                            Some "open save.json: no such file or directory"), s)
           end.

(* =============================================================== *)
(** ** [pkg/docker/manager.go] *)

Definition home : string := "/home/player".

(** The probe a directory change runs:
    [fmt.Sprintf("cd %s && cd %s && pwd", m.CurrentDir, target)]. *)
Definition cd_probe (cur target : string) : string :=
  "cd " ++ cur ++ " && cd " ++ target ++ " && pwd".

(** The test that sends a command to the directory-change branch. *)
Definition is_cd (trimmedCmd : string) : bool :=
  HasPrefix trimmedCmd "cd " || String.eqb trimmedCmd "cd".

Definition cd_target (trimmedCmd : string) : string :=
  if (3 <? String.length trimmedCmd)%nat
  then TrimSpace (drop 3 trimmedCmd)
  else home.

(** [Manager.ExecuteCommand].  In the second branch the program also arms
    [time.AfterFunc(5*time.Second, ...)] to kill the spawned process; time
    is not modelled, and whatever the kill does to the process is part of
    the [runtime]'s answer. *)
Definition ExecuteCommand (command : string) : Exec (string * error) :=
  let trimmedCmd := TrimSpace command in
  if is_cd trimmedCmd then
    let target := cd_target trimmedCmd in
    m <- get_mgr ;;
    let fullCmd := cd_probe (CurrentDir m) target in
    r <- exec_Command (Runtime m)
           ["exec"; ContainerName m; "bash"; "-c"; fullCmd] ;;
    match run_err r with
    | Some _ =>
        let errStr := if String.eqb (stderr r) EmptyString
                      then "No such file or directory"
                      else stderr r in
        ret (EmptyString, Some errStr)
    | None =>
        let newDir := TrimSpace (stdout r) in
        (if negb (String.eqb newDir EmptyString)
         then set_CurrentDir newDir
         else ret tt) ;;;
        ret (EmptyString, None)
    end
  else
    m <- get_mgr ;;
    r <- exec_Command (Runtime m)
           ["exec"; "-w"; CurrentDir m; ContainerName m; "bash"; "-c"; command] ;;
    match run_err r with
    | Some e =>
        if negb (String.eqb (stderr r) EmptyString)
        then ret (EmptyString, Some (stderr r))
        else ret (EmptyString, Some e)
    | None => ret (stdout r, None)
    end.

(** [Manager.ExecuteValidation]: both branches return a [nil] error. *)
Definition ExecuteValidation (command : string) : Exec (string * error) :=
  m <- get_mgr ;;
  r <- exec_Command (Runtime m)
         ["exec"; "-w"; "/home/player"; ContainerName m; "bash"; "-c"; command] ;;
  match run_err r with
  | Some _ => ret (stdout r, None)
  | None => ret (stdout r, None)
  end.

(** [Manager.RunAsRoot]. *)
Definition RunAsRoot (command : string) : Exec error :=
  m <- get_mgr ;;
  r <- exec_Command (Runtime m)
         ["exec"; "-u"; "0"; ContainerName m; "bash"; "-c"; command] ;;
  match run_err r with
  | Some e => ret (Some (e ++ ": " ++ combined r))
  | None => ret None
  end.

(** An [if ... { return err }] block followed by the rest of the function. *)
Notation "'check' c 'orelse' k" :=
  (bind c (fun e => match e with
                    | Some msg => ret (Some msg)
                    | None => k
                    end))
  (at level 61, c at next level, right associativity).

(** [Manager.RestoreEnvironment]. *)
Definition RestoreEnvironment (questID : Z) : Exec error :=
  check (if 10 <? questID then
           err <- RunAsRoot "id glitch" ;;
           match err with
           | Some _ =>
               err' <- RunAsRoot "useradd glitch" ;;
               match err' with
               | Some e => ret (Some ("failed to restore glitch user: " ++ e))
               | None => ret None
               end
           | None => ret None
           end
         else ret None)
  orelse
  check (if 16 <? questID then
           oe <- ExecuteValidation "groups glitch" ;;
           if negb (Contains (fst oe) "sudo") then
             err <- RunAsRoot "usermod -aG sudo glitch" ;;
             match err with
             | Some e => ret (Some ("failed to restore glitch sudo access: " ++ e))
             | None => ret None
             end
           else ret None
         else ret None)
  orelse
  (if 11 <? questID then
     oe <- ExecuteValidation "test -d /home/player/.safe_house" ;;
     match snd oe with
     | None => RunAsRoot "chown glitch /home/player/.safe_house" ;;; ret tt
     | Some _ => ret tt
     end
   else ret tt) ;;;
  (if 12 <? questID then
     oe <- ExecuteValidation "test -d /home/player/.safe_house" ;;
     match snd oe with
     | None => RunAsRoot "chmod 700 /home/player/.safe_house" ;;; ret tt
     | Some _ => ret tt
     end
   else ret tt) ;;;
  ret None.

(** The four blocks of [RestoreEnvironment], one per rule, named so that
    they can be reasoned about one at a time; [RestoreEnvironment] is their
    sequence, the first two returning early on an error. *)
Definition restore_glitch_user (questID : Z) : Exec error :=
  if 10 <? questID then
    err <- RunAsRoot "id glitch" ;;
    match err with
    | Some _ =>
        err' <- RunAsRoot "useradd glitch" ;;
        match err' with
        | Some e => ret (Some ("failed to restore glitch user: " ++ e))
        | None => ret None
        end
    | None => ret None
    end
  else ret None.

Definition restore_sudo_access (questID : Z) : Exec error :=
  if 16 <? questID then
    oe <- ExecuteValidation "groups glitch" ;;
    if negb (Contains (fst oe) "sudo") then
      err <- RunAsRoot "usermod -aG sudo glitch" ;;
      match err with
      | Some e => ret (Some ("failed to restore glitch sudo access: " ++ e))
      | None => ret None
      end
    else ret None
  else ret None.

Definition restore_ownership (questID : Z) : Exec unit :=
  if 11 <? questID then
    oe <- ExecuteValidation "test -d /home/player/.safe_house" ;;
    match snd oe with
    | None => RunAsRoot "chown glitch /home/player/.safe_house" ;;; ret tt
    | Some _ => ret tt
    end
  else ret tt.

Definition restore_permissions (questID : Z) : Exec unit :=
  if 12 <? questID then
    oe <- ExecuteValidation "test -d /home/player/.safe_house" ;;
    match snd oe with
    | None => RunAsRoot "chmod 700 /home/player/.safe_house" ;;; ret tt
    | Some _ => ret tt
    end
  else ret tt.

(* =============================================================== *)
(** ** Package [ui]: the quest state machine *)

(** [Model], without the fields that only serve the line editor and the
    layout ([input], [history], [historyIdx], [width], [height],
    [viewportReady]); [manager] is the pointer to the manager of the
    store. *)
Record Model : Type := {
  quests : list Quest;
  currentQuestIdx : Z;
  gameStarted : bool;
  ready : bool;
  output : list string;
  lastOutput : string;
  glitchText : string
}.

Definition append_output (ls : list string) (m : Model) : Model :=
  {| quests := quests m; currentQuestIdx := currentQuestIdx m;
     gameStarted := gameStarted m; ready := ready m;
     output := (output m ++ ls)%list; lastOutput := lastOutput m;
     glitchText := glitchText m |}.

Definition set_lastOutput (o : string) (m : Model) : Model :=
  {| quests := quests m; currentQuestIdx := currentQuestIdx m;
     gameStarted := gameStarted m; ready := ready m;
     output := output m; lastOutput := o; glitchText := glitchText m |}.

Definition set_glitchText (g : string) (m : Model) : Model :=
  {| quests := quests m; currentQuestIdx := currentQuestIdx m;
     gameStarted := gameStarted m; ready := ready m;
     output := output m; lastOutput := lastOutput m; glitchText := g |}.

Definition set_currentQuestIdx (i : Z) (m : Model) : Model :=
  {| quests := quests m; currentQuestIdx := i;
     gameStarted := gameStarted m; ready := ready m;
     output := output m; lastOutput := lastOutput m;
     glitchText := glitchText m |}.

Definition set_started (m : Model) : Model :=
  {| quests := quests m; currentQuestIdx := currentQuestIdx m;
     gameStarted := true; ready := true;
     output := output m; lastOutput := lastOutput m;
     glitchText := glitchText m |}.

(** [len(qs)] and [qs[i]]; indexing out of range panics. *)
Definition len {A : Type} (l : list A) : Z := Z.of_nat (List.length l).

Definition index {A : Type} (l : list A) (i : Z) : Exec A :=
  if i <? 0 then panic
  else match nth_error l (Z.to_nat i) with
       | Some a => ret a
       | None => panic
       end.

(** The messages [Update] has a case for, but for [tea.WindowSizeMsg] and
    [tea.KeyMsg], which never touch the quest cursor or the manager;
    [otherMsg] is any message that falls through the switch. *)
Inductive Msg : Type :=
| containerReadyMsg (err : error)
| commandResultMsg (out : string) (err : error)
| questCheckMsg (idx : Z) (passed : bool)
| otherMsg.

(** A [tea.Cmd] is a closure; it is represented by what it captured.
    [CmdExec] is the closure of the Enter key (run the command line),
    [CmdCheck] the one [checkWinCondition] returns (it captured the quest
    and the model), [CmdSetup] the one of [performQuestSetup]. *)
Inductive Cmd : Type :=
| CmdNil
| CmdQuit
| CmdExec (command : string)
| CmdCheck (q : Quest) (m : Model)
| CmdSetup (q : Quest).

(** [NewModel]. *)
Definition NewModel (qs : list Quest) (startQuestID : Z) : Model :=
  let initialText := if 0 <? len qs
                     then "Loading content..."
                     else "Initializing Goblin Terminal..." in
  let startQuestID := if startQuestID <? 0 then 0 else startQuestID in
  let startQuestID := if len qs <=? startQuestID
                      then len qs - 1 else startQuestID in
  {| quests := qs; currentQuestIdx := startQuestID;
     gameStarted := false; ready := false;
     output := [initialText]; lastOutput := EmptyString;
     glitchText := "<'.'> ..." |}.

(** How [main] picks the index it hands to [NewModel]: the saved cursor if
    the save file can be read, overridden by a positive [-quest] flag. *)
Definition main_NewModel (qs : list Quest) (questFlag : Z) : Exec Model :=
  se <- LoadState ;;
  let startQuestIdx := match snd se with
                       | None => CurrentQuestID (fst se)
                       | Some _ => 0
                       end in
  let startQuestIdx := if 0 <? questFlag then questFlag - 1
                       else startQuestIdx in
  ret (NewModel qs startQuestIdx).

(** [Model.performQuestSetup]. *)
Definition performQuestSetup (q : Quest) : Cmd :=
  if len (SetupCommands q) =? 0 then CmdNil else CmdSetup q.

Definition quest_header (q : Quest) : string :=
  "--- QUEST " ++ Itoa (ID q) ++ ": " ++ Title q ++ " ---".

Definition all_done : string := "You did it! All systems normal. <^.^>".

(** [Model.startQuest]: it writes to the model through its pointer
    receiver; the model returned here is the model after those writes. *)
Definition startQuest (m : Model) (idx : Z) : Exec (Model * Cmd) :=
  if len (quests m) <=? idx then ret (set_glitchText all_done m, CmdNil)
  else
    let m := set_currentQuestIdx idx m in
    q <- index (quests m) idx ;;
    let m := set_glitchText (IntroText q) m in
    let m := append_output [quest_header q] m in
    ret (m, performQuestSetup q).

(** [Model.checkWinCondition]: picks the current quest and returns the
    closure that evaluates it. *)
Definition checkWinCondition (m : Model) : Exec Cmd :=
  if len (quests m) <=? currentQuestIdx m then ret CmdNil
  else
    q <- index (quests m) (currentQuestIdx m) ;;
    ret (CmdCheck q m).

Definition DQ : string := String (ascii_of_nat 34) EmptyString.

(** The body of that closure: the [switch] on the condition type, which
    computes [checkPassed]. *)
Definition checkPassed (q : Quest) (m : Model) : Exec bool :=
  let wc := WinCondition_ q in
  if String.eqb (Type_ wc) CommandOut then
    oe <- ExecuteValidation (Command wc) ;;
    ret (String.eqb (TrimSpace (fst oe)) (Expected wc))
  else if String.eqb (Type_ wc) DirExists then
    let cmd := "test -d " ++ Target wc ++ " && echo yes" in
    oe <- ExecuteValidation cmd ;;
    ret (String.eqb (TrimSpace (fst oe)) "yes")
  else if String.eqb (Type_ wc) FileExists then
    let cmd := "test -f " ++ Target wc ++ " && echo yes" in
    oe <- ExecuteValidation cmd ;;
    ret (String.eqb (TrimSpace (fst oe)) "yes")
  else if String.eqb (Type_ wc) FileContains then
    let cmd := "grep -q " ++ DQ ++ Content wc ++ DQ ++ " " ++ Target wc
               ++ " && echo yes" in
    oe <- ExecuteValidation cmd ;;
    ret (String.eqb (TrimSpace (fst oe)) "yes")
  else if String.eqb (Type_ wc) UserOutputMatch then
    ret (String.eqb (TrimSpace (lastOutput m)) (TrimSpace (Expected wc)))
  else if String.eqb (Type_ wc) UserOutputContains then
    ret (Contains (lastOutput m) (Expected wc))
  else if String.eqb (Type_ wc) CurrentDirMatch then
    mg <- get_mgr ;;
    let targetDir := Target wc in
    let targetDir := if negb (HasPrefix targetDir "/")
                     then "/home/player/" ++ targetDir
                     else targetDir in
    let targetDir := TrimSuffix targetDir "/" in
    let currentDir := TrimSuffix (CurrentDir mg) "/" in
    ret (String.eqb currentDir targetDir)
  else ret false.

(** The loop of the setup closure: every command through
    [ExecuteValidation], results dropped. *)
Fixpoint run_setup (cmds : list string) : Exec unit :=
  match cmds with
  | [] => ret tt
  | c :: rest => ExecuteValidation c ;;; run_setup rest
  end.

(** Running a command closure gives the message it sends, if any.
    [tea.Quit] ends the program: no message reaches [Update]. *)
Definition runCmd (c : Cmd) : Exec (option Msg) :=
  match c with
  | CmdNil => ret None
  | CmdQuit => ret None
  | CmdExec command =>
      oe <- ExecuteCommand command ;;
      ret (Some (commandResultMsg (fst oe) (snd oe)))
  | CmdCheck q m =>
      passed <- checkPassed q m ;;
      ret (Some (questCheckMsg (currentQuestIdx m) passed))
  | CmdSetup q => run_setup (SetupCommands q) ;;; ret None
  end.

(** The lines of a command's output as the transcript shows them: split
    on line feeds, an empty last line dropped ([Split] never returns an
    empty slice; the default of [List.last] is never used). *)
Definition display_lines (out : string) : list string :=
  let lines := Split out LF in
  if (0 <? len lines) && String.eqb (List.last lines "x") EmptyString
  then List.removelast lines
  else lines.

(** [Model.Update]. *)
Definition Update (m : Model) (msg : Msg) : Exec (Model * Cmd) :=
  match msg with
  | containerReadyMsg (Some e) =>
      ret (append_output ["Error starting environment: " ++ e] m, CmdQuit)
  | containerReadyMsg None =>
      let m := set_started m in
      let m := append_output ["Environment ready."] m in
      err <- RestoreEnvironment (currentQuestIdx m) ;;
      let m := match err with
               | Some e =>
                   append_output ["Warning: State restoration issue: " ++ e] m
               | None => m
               end in
      m <- (if 0 <? currentQuestIdx m then
              q <- index (quests m) (currentQuestIdx m) ;;
              ret (append_output
                     ["Resuming from Quest " ++ Itoa (ID q) ++ "..."] m)
            else ret m) ;;
      let m := append_output [EmptyString] m in
      if 0 <? len (quests m) then
        mc <- startQuest m (currentQuestIdx m) ;;
        ret (if call_then_read then fst mc else m, snd mc)
      else ret (m, CmdNil)
  | commandResultMsg out err =>
      let m := match err with
               | Some e => append_output ["Error: " ++ e] m
               | None => set_lastOutput out (append_output (display_lines out) m)
               end in
      c <- checkWinCondition m ;;
      ret (m, c)
  | questCheckMsg idx passed =>
      if passed then
        completedQuest <- index (quests m) idx ;;
        let m := append_output [EmptyString] m in
        let m := append_output
                   [Render (">>> QUEST COMPLETE! +"
                            ++ Itoa (XPReward completedQuest) ++ " XP <<<")] m in
        let m := append_output (Split (SuccessText completedQuest) LF) m in
        let m := append_output [EmptyString] m in
        let nextIdx := add_int idx 1 in
        SaveState {| CurrentQuestID := nextIdx; MsgLog := [] |} ;;;
        if nextIdx <? len (quests m) then
          q <- index (quests m) nextIdx ;;
          let m := set_glitchText
                     ("(Next: " ++ Title q ++ ")" ++ LF ++ IntroText q) m in
          let m := set_currentQuestIdx nextIdx m in
          let m := append_output [quest_header q] m in
          ret (m, performQuestSetup q)
        else
          let m := set_glitchText all_done m in
          let m := set_currentQuestIdx nextIdx m in
          ret (m, CmdNil)
      else ret (m, CmdNil)
  | otherMsg => ret (m, CmdNil)
  end.

(** The event loop runs a command closure and hands its message, if it
    sent one, to [Update]. *)
Definition deliver (m : Model) (c : Cmd) : Exec (Model * Cmd) :=
  om <- runCmd c ;;
  match om with
  | Some msg => Update m msg
  | None => ret (m, CmdNil)
  end.

(** One command line from Enter to quiescence, with one command in flight
    at a time: run it, show the result, evaluate the current quest, apply
    the verdict, run the next quest's setup. *)
Definition user_command (command : string) (m : Model) : Exec Model :=
  mc1 <- deliver m (CmdExec command) ;;
  mc2 <- deliver (fst mc1) (snd mc1) ;;
  mc3 <- deliver (fst mc2) (snd mc2) ;;
  ret (fst mc3).

Fixpoint user_commands (cs : list string) (m : Model) : Exec Model :=
  match cs with
  | [] => ret m
  | c :: rest => m' <- user_command c m ;; user_commands rest m'
  end.

(** Start of a process: [main] builds the model from the save file, the
    containers come up, and [Update] receives [containerReadyMsg{nil}]. *)
Definition resume (qs : list Quest) (questFlag : Z) : Exec (Model * Cmd) :=
  m <- main_NewModel qs questFlag ;;
  Update m (containerReadyMsg None).

End Engine.

Arguments Sys World : clear implicits.
Arguments Exec World A : clear implicits.
Arguments ret {World A} a _.
Arguments bind {World A B} c f _.
Arguments panic {World A} _.
Arguments get_mgr {World} _.
Arguments set_CurrentDir {World} d _.
Arguments exec_Command {World} runtime bin args _.
Arguments SaveState {World} st _.
Arguments LoadState {World} _.
Arguments ExecuteCommand {World} runtime command _.
Arguments ExecuteValidation {World} runtime command _.
Arguments RunAsRoot {World} runtime command _.
Arguments RestoreEnvironment {World} runtime questID _.
Arguments restore_glitch_user {World} runtime questID _.
Arguments restore_sudo_access {World} runtime questID _.
Arguments restore_ownership {World} runtime questID _.
Arguments restore_permissions {World} runtime questID _.
Arguments index {World A} l i _.
Arguments main_NewModel {World} qs questFlag _.
Arguments startQuest {World} m idx _.
Arguments checkWinCondition {World} m _.
Arguments checkPassed {World} runtime q m _.
Arguments run_setup {World} runtime cmds _.
Arguments runCmd {World} runtime c _.
Arguments Update {World} runtime Render call_then_read m msg _.
Arguments deliver {World} runtime Render call_then_read m c _.
Arguments user_command {World} runtime Render call_then_read command m _.
Arguments user_commands {World} runtime Render call_then_read cs m _.
Arguments resume {World} runtime Render call_then_read qs questFlag _.
Arguments mgr {World} _.
Arguments world {World} _.
Arguments saved {World} _.
Arguments writable {World} _.
Arguments calls {World} _.

(* ================================================================= *)
(** ** Concrete runtimes, used to run the engine on examples *)

Definition ok_result (out : string) : ExecResult :=
  {| run_err := None; stdout := out; stderr := EmptyString; combined := out |}.

Definition failed_result (status out err : string) : ExecResult :=
  {| run_err := Some status; stdout := out; stderr := err;
     combined := out ++ err |}.

(** A runtime that answers from a table keyed by the shell command (the last
    argument of the vector), and fails with bash's status 127 for a command
    that is not in the table.  It has no state. *)
Fixpoint lookup (tbl : list (string * ExecResult)) (c : string) : option ExecResult :=
  match tbl with
  | [] => None
  | (k, r) :: rest => if String.eqb k c then Some r else lookup rest c
  end.

Definition scripted (tbl : list (string * ExecResult))
  (bin : string) (args : list string) (w : unit) : ExecResult * unit :=
  match lookup tbl (List.last args EmptyString) with
  | Some r => (r, w)
  | None => (failed_result "exit status 127" EmptyString
               "bash: command not found", w)
  end.

Definition the_manager : Manager :=
  {| ImageName := "goblin-terminal:latest"; ContainerName := "goblin-game";
     GatewayName := "goblin-game_gateway"; NetworkName := "goblin_net";
     Runtime := "docker"; CurrentDir := "/home/player" |}.

(** The store of a process that has just started its containers. *)
Definition fresh {World : Type} (w : World) (sv : option GameState) : Sys World :=
  {| mgr := the_manager; world := w; saved := sv; writable := true;
     calls := [] |}.

(** The same store with the manager's tracked directory replaced. *)
Definition relocate {World : Type} (d : string) (s : Sys World) : Sys World :=
  {| mgr := with_CurrentDir d (mgr s); world := world s; saved := saved s;
     writable := writable s; calls := calls s |}.

(** The argument vectors of the three ways the manager enters the player
    container. *)
Definition plain_exec (m : Manager) (c : string) : string * list string :=
  (Runtime m, ["exec"; ContainerName m; "bash"; "-c"; c]).

Definition home_exec (m : Manager) (c : string) : string * list string :=
  (Runtime m, ["exec"; "-w"; "/home/player"; ContainerName m; "bash"; "-c"; c]).

Definition root_exec (m : Manager) (c : string) : string * list string :=
  (Runtime m, ["exec"; "-u"; "0"; ContainerName m; "bash"; "-c"; c]).

Definition spawn {World : Type}
  (runtime : string -> list string -> World -> ExecResult * World)
  (call : string * list string) (w : World) : ExecResult * World :=
  runtime (fst call) (snd call) w.

(** The store after one process has been spawned. *)
Definition after_call {World : Type}
  (runtime : string -> list string -> World -> ExecResult * World)
  (s : Sys World) (call : string * list string) : Sys World :=
  {| mgr := mgr s; world := snd (spawn runtime call (world s));
     saved := saved s; writable := writable s;
     calls := (calls s ++ [call])%list |}.

(** Quests for the examples. *)
Definition condition (kind : WinConditionType) (target content command expected : string)
  : WinCondition :=
  {| Type_ := kind; Target := target; Content := content;
     Command := command; Expected := expected |}.

Definition quest (id : Z) (title : string) (wc : WinCondition) : Quest :=
  {| ID := id; Title := title; IntroText := "intro"; Objective := title;
     WinCondition_ := wc; SuccessText := "done"; XPReward := 10;
     Environment := "local"; SetupCommands := [] |}.

Definition quest_enter_hut : Quest :=
  quest 1 "Enter the hut"
    (condition CurrentDirMatch "hut" EmptyString EmptyString EmptyString).

Definition quest_enter_hut_slashes : Quest :=
  quest 1 "Enter the hut"
    (condition CurrentDirMatch "hut//" EmptyString EmptyString EmptyString).

Definition quest_build_hut : Quest :=
  quest 1 "Build a hut"
    (condition DirExists "hut" EmptyString EmptyString EmptyString).

Definition quest_count : Quest :=
  quest 1 "No goblins left"
    (condition CommandOut EmptyString EmptyString "grep -c goblin notes.txt" "0").

Definition quest_map : Quest :=
  quest 1 "Draw a map"
    (condition FileExists "map.txt" EmptyString EmptyString EmptyString).

Definition quest_passwd : Quest :=
  quest 2 "Read the user list"
    (condition UserOutputContains EmptyString EmptyString EmptyString "root:x:0:0").

Definition passwd_line : string := "root:x:0:0:root:/root:/bin/bash" ++ LF.

(** A container in which [map.txt] exists, [/etc/passwd] can be read and
    there is no directory [nowhere]. *)
Definition passwd_world : string -> list string -> unit -> ExecResult * unit :=
  scripted
    [("cat /etc/passwd", ok_result passwd_line);
     ("test -f map.txt && echo yes", ok_result ("yes" ++ LF));
     ("cd /home/player && cd nowhere && pwd",
      failed_result "exit status 1" EmptyString
        "bash: line 1: cd: nowhere: No such file or directory")].

(** The store with a new outside world and a new log. *)
Definition moved {World : Type} (s : Sys World) (w : World)
  (l : list (string * list string)) : Sys World :=
  {| mgr := mgr s; world := w; saved := saved s; writable := writable s;
     calls := l |}.

(** A game of [n] quests numbered as the quest file numbers them, from 1:
    the quest at index [i] has the ID [i + 1].  And the two-quest game of
    the examples. *)
Definition numbered (n : nat) : list Quest :=
  List.map (fun i => quest (Z.of_nat i) ("Quest " ++ Itoa (Z.of_nat i))
                       (condition DirExists "hut" EmptyString EmptyString
                          EmptyString))
    (List.seq 1 n).

Definition map_then_passwd : list Quest := [quest_map; quest_passwd].

(** No styling. *)
Definition plain (text : string) : string := text.

(** A small container for the seven commands of [RestoreEnvironment]: is
    there a user [glitch], is it in group [sudo], is there a directory
    [/home/player/.safe_house], does [glitch] own it, is its mode 700. *)
Record Container : Type := {
  glitch : bool;
  glitch_sudo : bool;
  safe_house : bool;
  safe_house_owned : bool;
  safe_house_700 : bool
}.

Definition exit1 (err : string) : ExecResult :=
  failed_result "exit status 1" EmptyString err.

Definition sim_root (c : string) (w : Container) : ExecResult * Container :=
  if String.eqb c "id glitch" then
    if glitch w then (ok_result "uid=1001(glitch) gid=1001(glitch)", w)
    else (exit1 "id: glitch: no such user", w)
  else if String.eqb c "useradd glitch" then
    if glitch w then (exit1 "useradd: user 'glitch' already exists", w)
    else (ok_result EmptyString,
          {| glitch := true; glitch_sudo := false; safe_house := safe_house w;
             safe_house_owned := false; safe_house_700 := safe_house_700 w |})
  else if String.eqb c "usermod -aG sudo glitch" then
    if glitch w then
      (ok_result EmptyString,
       {| glitch := true; glitch_sudo := true; safe_house := safe_house w;
          safe_house_owned := safe_house_owned w;
          safe_house_700 := safe_house_700 w |})
    else (exit1 "usermod: user 'glitch' does not exist", w)
  else if String.eqb c "chown glitch /home/player/.safe_house" then
    if glitch w && safe_house w then
      (ok_result EmptyString,
       {| glitch := glitch w; glitch_sudo := glitch_sudo w;
          safe_house := safe_house w; safe_house_owned := true;
          safe_house_700 := safe_house_700 w |})
    else (exit1 "chown: cannot change owner", w)
  else if String.eqb c "chmod 700 /home/player/.safe_house" then
    if safe_house w then
      (ok_result EmptyString,
       {| glitch := glitch w; glitch_sudo := glitch_sudo w;
          safe_house := safe_house w; safe_house_owned := safe_house_owned w;
          safe_house_700 := true |})
    else (exit1 "chmod: cannot access '/home/player/.safe_house'", w)
  else (failed_result "exit status 127" EmptyString "bash: command not found", w).

Definition sim_player (c : string) (w : Container) : ExecResult * Container :=
  if String.eqb c "groups glitch" then
    if glitch w then
      (ok_result (if glitch_sudo w then "glitch : glitch sudo"
                  else "glitch : glitch"), w)
    else (exit1 "groups: 'glitch': no such user", w)
  else if String.eqb c "test -d /home/player/.safe_house" then
    if safe_house w then (ok_result EmptyString, w)
    else (exit1 EmptyString, w)
  else (failed_result "exit status 127" EmptyString "bash: command not found", w).

Definition sim (bin : string) (args : list string) (w : Container)
  : ExecResult * Container :=
  match args with
  | [a1; a2; a3; _; a5; a6; c] =>
      if String.eqb a1 "exec" && String.eqb a5 "bash" && String.eqb a6 "-c" then
        if String.eqb a2 "-u" && String.eqb a3 "0" then sim_root c w
        else if String.eqb a2 "-w" && String.eqb a3 "/home/player"
             then sim_player c w
             else (failed_result "exit status 125" EmptyString "unknown flag", w)
      else (failed_result "exit status 125" EmptyString "unknown command", w)
  | _ => (failed_result "exit status 125" EmptyString "unknown command", w)
  end.

(** *** The specification's reading of [CurrentDirMatches]

    The target made absolute (a name that does not start with [/] is taken
    relative to the player's home), then "trailing separators stripped" on
    both sides. *)
Definition absolute_target (target : string) : string :=
  if HasPrefix target "/" then target else "/home/player/" ++ target.

Fixpoint drop_slashes (r : string) : string :=
  match r with
  | String c t => if Ascii.eqb c "/"%char then drop_slashes t else r
  | EmptyString => r
  end.

Definition strip_trailing_separators (s : string) : string :=
  rev (drop_slashes (rev s)).

Definition spec_CurrentDirMatches (target cwd : string) : bool :=
  String.eqb (strip_trailing_separators (absolute_target target))
             (strip_trailing_separators cwd).

(** *** What a container must do for reconciliation to make sense

    The standard behaviour of the commands [RestoreEnvironment] issues, as
    far as it is used: the three checks read without writing; [useradd]
    creates a missing user and [usermod] adds an existing one to the group;
    [chown] and [chmod] touch neither, and applying them again, in either
    order, changes nothing more. *)
Section Container_behaviour.

Context {World : Type}.
Variable runtime : string -> list string -> World -> ExecResult * World.
Variable m : Manager.

Definition as_root (c : string) (w : World) : ExecResult * World :=
  spawn runtime (root_exec m c) w.

Definition at_home (c : string) (w : World) : ExecResult * World :=
  spawn runtime (home_exec m c) w.

Definition has_glitch (w : World) : bool :=
  match run_err (fst (as_root "id glitch" w)) with
  | None => true
  | Some _ => false
  end.

Definition is_sudoer (w : World) : bool :=
  Contains (stdout (fst (at_home "groups glitch" w))) "sudo".

Definition chown_ (w : World) : World :=
  snd (as_root "chown glitch /home/player/.safe_house" w).

Definition chmod_ (w : World) : World :=
  snd (as_root "chmod 700 /home/player/.safe_house" w).

Record HealthyContainer : Prop := {
  id_reads : forall w, snd (as_root "id glitch" w) = w;
  groups_reads : forall w, snd (at_home "groups glitch" w) = w;
  test_reads : forall w, snd (at_home "test -d /home/player/.safe_house" w) = w;
  useradd_creates : forall w,
    has_glitch w = false ->
    run_err (fst (as_root "useradd glitch" w)) = None
    /\ has_glitch (snd (as_root "useradd glitch" w)) = true;
  usermod_adds : forall w,
    has_glitch w = true ->
    run_err (fst (as_root "usermod -aG sudo glitch" w)) = None
    /\ has_glitch (snd (as_root "usermod -aG sudo glitch" w)) = true
    /\ is_sudoer (snd (as_root "usermod -aG sudo glitch" w)) = true;
  chown_keeps_user : forall w, has_glitch (chown_ w) = has_glitch w;
  chown_keeps_group : forall w, is_sudoer (chown_ w) = is_sudoer w;
  chmod_keeps_user : forall w, has_glitch (chmod_ w) = has_glitch w;
  chmod_keeps_group : forall w, is_sudoer (chmod_ w) = is_sudoer w;
  chown_again : forall w, chown_ (chown_ w) = chown_ w;
  chmod_again : forall w, chmod_ (chmod_ w) = chmod_ w;
  chown_chmod : forall w, chown_ (chmod_ w) = chmod_ (chown_ w)
}.

(** The world [RestoreEnvironment questID] leaves, and the processes it
    spawns, in a healthy container. *)
Definition reconciled (questID : Z) (w : World) : World :=
  let w1 := if (10 <? questID) && negb (has_glitch w)
            then snd (as_root "useradd glitch" w) else w in
  let w2 := if (16 <? questID) && negb (is_sudoer w1)
            then snd (as_root "usermod -aG sudo glitch" w1) else w1 in
  let w3 := if 11 <? questID then chown_ w2 else w2 in
  if 12 <? questID then chmod_ w3 else w3.

Definition reconcile_calls (questID : Z) (w : World)
  : list (string * list string) :=
  let w1 := if (10 <? questID) && negb (has_glitch w)
            then snd (as_root "useradd glitch" w) else w in
  ((if 10 <? questID
    then root_exec m "id glitch"
         :: (if has_glitch w then [] else [root_exec m "useradd glitch"])
    else [])
   ++ (if 16 <? questID
       then home_exec m "groups glitch"
            :: (if is_sudoer w1 then []
                else [root_exec m "usermod -aG sudo glitch"])
       else [])
   ++ (if 11 <? questID
       then [home_exec m "test -d /home/player/.safe_house";
             root_exec m "chown glitch /home/player/.safe_house"]
       else [])
   ++ (if 12 <? questID
       then [home_exec m "test -d /home/player/.safe_house";
             root_exec m "chmod 700 /home/player/.safe_house"]
       else []))%list.

End Container_behaviour.

(** What a second run does in the world a first run has left: only the
    checks and the two repeatable fixes. *)
Definition second_run (mg : Manager) (questID : Z) : list (string * list string) :=
  ((if 10 <? questID then [root_exec mg "id glitch"] else [])
   ++ (if 16 <? questID then [home_exec mg "groups glitch"] else [])
   ++ (if 11 <? questID
       then [home_exec mg "test -d /home/player/.safe_house";
             root_exec mg "chown glitch /home/player/.safe_house"]
       else [])
   ++ (if 12 <? questID
       then [home_exec mg "test -d /home/player/.safe_house";
             root_exec mg "chmod 700 /home/player/.safe_house"]
       else []))%list.

(** A container restarted after quest 12: the user [glitch] is there, the
    directory [.safe_house] came back with the bind mount, its owner and
    mode are not what quests 11 and 12 had made them. *)
Definition restarted : Container :=
  {| glitch := true; glitch_sudo := false; safe_house := true;
     safe_house_owned := false; safe_house_700 := false |}.

(** A fresh container: no user [glitch] yet. *)
Definition pristine : Container :=
  {| glitch := false; glitch_sudo := false; safe_house := true;
     safe_house_owned := false; safe_house_700 := false |}.

Definition save_at (c : Z) : option GameState :=
  Some {| CurrentQuestID := c; MsgLog := [] |}.

(* ================================================================= *)
(** ** The rest of [pkg/docker/manager.go]: runtime binding and topology *)

Section Topology.

Context {World : Type}.
Variable runtime : string -> list string -> World -> ExecResult * World.

(** The host functions the manager calls, as the outside world answers
    them: [exec.LookPath] (is the error [nil]), [os.UserHomeDir],
    [os.MkdirAll] and [os.Chmod] with their permission bits, [os.Stat]
    followed by [os.IsNotExist], [os.RemoveAll], and [filepath.Join]. *)
Variable LookPath : string -> World -> bool.
Variable UserHomeDir : World -> string * error.
Variable MkdirAll : string -> Z -> World -> error * World.
Variable Chmod : string -> Z -> World -> error * World.
Variable Stat_IsNotExist : string -> World -> bool.
Variable RemoveAll : string -> World -> error * World.
Variable Join : list string -> string.

Notation "x <- c ;; k" := (bind c (fun x => k))
  (at level 61, c at next level, right associativity).
Notation "c ;;; k" := (bind c (fun _ => k))
  (at level 61, right associativity).

(** A host call that reads the outside world, and one that changes it. *)
Definition host_read {A : Type} (f : World -> A) : Exec World A :=
  fun s => Some (f (world s), s).

Definition host_write {A : Type} (f : World -> A * World) : Exec World A :=
  fun s => Some (fst (f (world s)), moved s (snd (f (world s))) (calls s)).

(** [NewManager]: the manager or the error, and the line it prints. *)
Definition NewManager (imageName containerName : string) (w : World)
  : (option Manager * error) * list string :=
  let make := fun rt =>
    Some {| ImageName := imageName; ContainerName := containerName;
            GatewayName := containerName ++ "_gateway";
            NetworkName := "goblin_net"; Runtime := rt;
            CurrentDir := "/home/player" |} in
  if LookPath "podman" w then
    ((make "podman", None), ["Container Manager: Using Podman runtime." ++ LF])
  else if negb (LookPath "docker" w) then
    ((None, Some "neither podman nor docker found in PATH"), [])
  else
    ((make "docker", None), ["Container Manager: Using Docker runtime." ++ LF]).

(** [Manager.BuildImage]. *)
Definition BuildImage : Exec World error :=
  m <- get_mgr ;;
  r <- exec_Command runtime (Runtime m) ["build"; "-t"; ImageName m; "."] ;;
  match run_err r with
  | Some e => ret (Some ("failed to build image: " ++ e ++ LF
                         ++ "Output: " ++ combined r))
  | None => ret None
  end.

(** [Manager.EnsureNetwork]. *)
Definition EnsureNetwork : Exec World error :=
  m <- get_mgr ;;
  r <- exec_Command runtime (Runtime m) ["network"; "inspect"; NetworkName m] ;;
  match run_err r with
  | None => ret None
  | Some _ =>
      r' <- exec_Command runtime (Runtime m)
              ["network"; "create"; "--subnet=10.10.10.0/24"; NetworkName m] ;;
      match run_err r' with
      | Some e => ret (Some ("failed to create network: " ++ e ++ LF
                             ++ "Output: " ++ combined r'))
      | None => ret None
      end
  end.

(** [Manager.StopContainer]: both errors are dropped. *)
Definition StopContainer : Exec World error :=
  m <- get_mgr ;;
  exec_Command runtime (Runtime m) ["rm"; "-f"; ContainerName m] ;;;
  exec_Command runtime (Runtime m) ["rm"; "-f"; GatewayName m] ;;;
  ret None.

Definition storage_path (homeDir : string) : string :=
  Join [homeDir; ".local"; "share"; "goblin-terminal"; "fs"].

Definition gateway_args (m : Manager) : list string :=
  ["run"; "-d"; "--rm";
   "--name"; GatewayName m;
   "--network"; NetworkName m;
   "--ip"; "10.10.10.2";
   "--hostname"; "gateway";
   "--user"; "0";
   ImageName m;
   "bash"; "-c"; "ssh-keygen -A && /usr/sbin/sshd -D"].

Definition player_args (m : Manager) (localPath : string) : list string :=
  ["run"; "-d"; "--rm"; "--init";
   "--cap-add=NET_RAW";
   "--name"; ContainerName m;
   "--network"; NetworkName m;
   "--ip"; "10.10.10.3";
   "--hostname"; "goblin";
   "-v"; localPath ++ ":/home/player:z";
   ImageName m].

(** [Manager.StartContainer]. *)
Definition StartContainer : Exec World error :=
  StopContainer ;;;
  err <- EnsureNetwork ;;
  match err with
  | Some e => ret (Some e)
  | None =>
      m <- get_mgr ;;
      g <- exec_Command runtime (Runtime m) (gateway_args m) ;;
      match run_err g with
      | Some e => ret (Some ("failed to start gateway: " ++ e ++ LF
                             ++ "Output: " ++ combined g))
      | None =>
          hd <- host_read UserHomeDir ;;
          match snd hd with
          | Some e => ret (Some ("failed to get user home dir: " ++ e))
          | None =>
              let localPath := storage_path (fst hd) in
              e1 <- host_write (MkdirAll localPath 493) ;;
              match e1 with
              | Some e =>
                  ret (Some ("failed to create local storage directory: " ++ e))
              | None =>
                  e2 <- host_write (Chmod localPath 511) ;;
                  match e2 with
                  | Some e =>
                      ret (Some ("failed to chmod local storage directory: " ++ e))
                  | None =>
                      p <- exec_Command runtime (Runtime m)
                             (player_args m localPath) ;;
                      match run_err p with
                      | Some e =>
                          ret (Some ("failed to start container: " ++ e ++ LF
                                     ++ "Output: " ++ combined p))
                      | None => set_CurrentDir "/home/player" ;;; ret None
                      end
                  end
              end
          end
      end
  end.

Definition cleaner_args (m : Manager) (localPath : string) : list string :=
  ["run"; "--rm";
   "-u"; "0";
   "-v"; localPath ++ ":/clean_target:z";
   ImageName m;
   "chmod"; "-R"; "777"; "/clean_target"].

(** [Manager.ResetStorage]: the error, and the warning it prints when the
    permission fix fails. *)
Definition ResetStorage : Exec World (error * list string) :=
  StopContainer ;;;
  hd <- host_read UserHomeDir ;;
  match snd hd with
  | Some e => ret (Some ("failed to get user home dir: " ++ e), [])
  | None =>
      let localPath := storage_path (fst hd) in
      missing <- host_read (Stat_IsNotExist localPath) ;;
      if missing then ret (None, [])
      else
        m <- get_mgr ;;
        r <- exec_Command runtime (Runtime m) (cleaner_args m localPath) ;;
        let printed :=
          match run_err r with
          | Some e => ["Warning: failed to fix permissions via docker: " ++ e
                       ++ LF ++ "Output: " ++ combined r ++ LF]
          | None => []
          end in
        e3 <- host_write (RemoveAll localPath) ;;
        match e3 with
        | Some e => ret (Some ("failed to remove storage directory: " ++ e),
                         printed)
        | None => ret (None, printed)
        end
  end.

(** The closure [Model.Init] returns: build, start, report. *)
Definition Init_run : Exec World Msg :=
  e1 <- BuildImage ;;
  match e1 with
  | Some e => ret (containerReadyMsg (Some e))
  | None =>
      e2 <- StartContainer ;;
      match e2 with
      | Some e => ret (containerReadyMsg (Some e))
      | None => ret (containerReadyMsg None)
      end
  end.

End Topology.

Arguments host_read {World A} f _.
Arguments host_write {World A} f _.
Arguments NewManager {World} LookPath imageName containerName w.
Arguments BuildImage {World} runtime _.
Arguments EnsureNetwork {World} runtime _.
Arguments StopContainer {World} runtime _.
Arguments StartContainer {World} runtime UserHomeDir MkdirAll Chmod Join _.
Arguments ResetStorage {World} runtime UserHomeDir Stat_IsNotExist RemoveAll Join _.
Arguments Init_run {World} runtime UserHomeDir MkdirAll Chmod Join _.

(* ================================================================= *)
(** ** The rest of [Update]: the keyboard *)

(** [strings.Replace(s, old, new, 1)]: the first occurrence of [old], if
    there is one, replaced by [new]. *)
Fixpoint Replace1 (s old new : string) : string :=
  if String.prefix old s then new ++ drop (String.length old) s
  else match s with
       | EmptyString => EmptyString
       | String c t => String c (Replace1 t old new)
       end.

(** The path as the prompt shows it. *)
Definition displayPath (currentDir : string) : string :=
  if HasPrefix currentDir "/home/player"
  then Replace1 currentDir "/home/player" "~"
  else currentDir.

(** [%5d]: right-justified in five columns. *)
Fixpoint spaces (n : nat) : string :=
  match n with
  | O => EmptyString
  | S k => String " "%char (spaces k)
  end.

Definition pad5 (z : Z) : string :=
  spaces (5 - String.length (Itoa z)) ++ Itoa z.

(** The lines of the built-in [history]: [i] is the index of the first
    entry of [hs]. *)
Fixpoint history_lines (i : Z) (hs : list string) : list string :=
  match hs with
  | [] => []
  | h :: rest => (pad5 (add_int i 1) ++ "  " ++ h) :: history_lines (i + 1) rest
  end.

(** The model with the fields of the line editor. *)
Record Terminal : Type := {
  model : Model;
  input : string;
  history : list string;
  historyIdx : Z
}.

(** The keys [Update] tells apart; [KeyRunes] carries [string(msg.Runes)],
    the typed runes in UTF-8. *)
Inductive Key : Type :=
| KeyCtrlC | KeyEsc | KeyEnter | KeyUp | KeyDown | KeyBackspace
| KeyRunes (text : string) | KeySpace | KeyOther.

(** What the key handler returns: one of the closures of [Cmd], or the
    [tea.Sequence] of [exit] (quit after half a second, then stop the
    containers). *)
Inductive KeyCmd : Type :=
| Run (c : Cmd)
| ExitSequence.

Section Keyboard.

Context {World : Type}.
Variable runtime : string -> list string -> World -> ExecResult * World.

Notation "x <- c ;; k" := (bind c (fun x => k))
  (at level 61, c at next level, right associativity).
Notation "c ;;; k" := (bind c (fun _ => k))
  (at level 61, right associativity).

Definition with_model (m : Model) (t : Terminal) : Terminal :=
  {| model := m; input := input t; history := history t;
     historyIdx := historyIdx t |}.

Definition with_input (i : string) (t : Terminal) : Terminal :=
  {| model := model t; input := i; history := history t;
     historyIdx := historyIdx t |}.

(** The [tea.KeyMsg] case of [Model.Update]. *)
Definition UpdateKey (t : Terminal) (k : Key) : Exec World (Terminal * KeyCmd) :=
  if negb (ready (model t)) then
    match k with
    | KeyCtrlC | KeyEsc => ret (t, Run CmdQuit)
    | _ => ret (t, Run CmdNil)
    end
  else
    match k with
    | KeyCtrlC | KeyEsc =>
        StopContainer runtime ;;;
        ret (t, Run CmdQuit)
    | KeyEnter =>
        let cmdText := TrimSpace (input t) in
        mg <- get_mgr ;;
        let m := append_output
                   ["player@goblin:" ++ displayPath (CurrentDir mg) ++ "$ "
                    ++ cmdText] (model t) in
        let hist := if negb (String.eqb cmdText EmptyString)
                    then (history t ++ [cmdText])%list else history t in
        let hidx := if negb (String.eqb cmdText EmptyString)
                    then len hist else historyIdx t in
        let t1 := {| model := m; input := EmptyString; history := hist;
                     historyIdx := hidx |} in
        if String.eqb cmdText "exit" then
          ret (with_model (append_output ["Shutting down simulation..."] m) t1,
               ExitSequence)
        else if String.eqb cmdText EmptyString then ret (t1, Run CmdNil)
        else if String.eqb cmdText "help" then
          ret (with_model
                 (append_output ["To quit the game, type 'exit'."] m) t1,
               Run CmdNil)
        else if String.eqb cmdText "history" then
          ret (with_model (append_output (history_lines 0 hist) m) t1,
               Run CmdNil)
        else ret (t1, Run (CmdExec cmdText))
    | KeyUp =>
        if 0 <? historyIdx t then
          let i := add_int (historyIdx t) (-1) in
          if (0 <=? i) && (i <? len (history t)) then
            h <- index (history t) i ;;
            ret ({| model := model t; input := h; history := history t;
                    historyIdx := i |}, Run CmdNil)
          else ret ({| model := model t; input := input t;
                       history := history t; historyIdx := i |}, Run CmdNil)
        else ret (t, Run CmdNil)
    | KeyDown =>
        if historyIdx t <? len (history t) then
          let i := add_int (historyIdx t) 1 in
          if i =? len (history t) then
            ret ({| model := model t; input := EmptyString;
                    history := history t; historyIdx := i |}, Run CmdNil)
          else
            h <- index (history t) i ;;
            ret ({| model := model t; input := h; history := history t;
                    historyIdx := i |}, Run CmdNil)
        else ret (t, Run CmdNil)
    | KeyBackspace =>
        if (0 <? String.length (input t))%nat
        then ret (with_input (take (String.length (input t) - 1) (input t)) t,
                  Run CmdNil)
        else ret (t, Run CmdNil)
    | KeyRunes text => ret (with_input (input t ++ text) t, Run CmdNil)
    | KeySpace => ret (with_input (input t ++ " ") t, Run CmdNil)
    | KeyOther => ret (t, Run CmdNil)
    end.

(** A run of key presses, the commands they return left aside. *)
Fixpoint press (ks : list Key) (t : Terminal) : Exec World Terminal :=
  match ks with
  | [] => ret t
  | k :: rest => tc <- UpdateKey t k ;; press rest (fst tc)
  end.

End Keyboard.

Arguments UpdateKey {World} runtime t k _.
Arguments press {World} runtime ks t _.

(** The terminal a process starts with. *)
Definition NewTerminal (qs : list Quest) (startQuestID : Z) : Terminal :=
  {| model := NewModel qs startQuestID; input := EmptyString;
     history := []; historyIdx := 0 |}.

(** Two managers that differ at most in the tracked directory. *)
Definition same_binding (a b : Manager) : Prop :=
  ImageName a = ImageName b /\ ContainerName a = ContainerName b
  /\ GatewayName a = GatewayName b /\ NetworkName a = NetworkName b
  /\ Runtime a = Runtime b.

(** The cursor in the save file, if there is one. *)
Definition saved_cursor {World : Type} (s : Sys World) : option Z :=
  option_map CurrentQuestID (saved s).

(** [strings.Join(elems, sep)]. *)
Fixpoint Join (elems : list string) (sep : string) : string :=
  match elems with
  | [] => EmptyString
  | [e] => e
  | e :: rest => e ++ sep ++ Join rest sep
  end.

(** [leading_space], with the lead byte tested instead of matched. *)
Definition leading_space_tests (s : string) : nat :=
  match s with
  | EmptyString => 0%nat
  | String c1 t1 =>
      if asciiSpace c1 then 1%nat
      else
        let n := nat_of_ascii c1 in
        if (n =? 194)%nat then
          match t1 with
          | String c2 _ =>
              if ((nat_of_ascii c2 =? 133) || (nat_of_ascii c2 =? 160))%nat
              then 2%nat else 0%nat
          | EmptyString => 0%nat
          end
        else if (n =? 225)%nat then
          match t1 with
          | String c2 (String c3 _) =>
              if ((nat_of_ascii c2 =? 154) && (nat_of_ascii c3 =? 128))%nat
              then 3%nat else 0%nat
          | _ => 0%nat
          end
        else if (n =? 226)%nat then
          match t1 with
          | String c2 (String c3 _) =>
              if ((nat_of_ascii c2 =? 128)
                  && ((128 <=? nat_of_ascii c3) && (nat_of_ascii c3 <=? 138)
                      || (nat_of_ascii c3 =? 168) || (nat_of_ascii c3 =? 169)
                      || (nat_of_ascii c3 =? 175)))%nat
              then 3%nat
              else if ((nat_of_ascii c2 =? 129) && (nat_of_ascii c3 =? 159))%nat
                   then 3%nat else 0%nat
          | _ => 0%nat
          end
        else if (n =? 227)%nat then
          match t1 with
          | String c2 (String c3 _) =>
              if ((nat_of_ascii c2 =? 128) && (nat_of_ascii c3 =? 128))%nat
              then 3%nat else 0%nat
          | _ => 0%nat
          end
        else 0%nat
  end.

(** The argument vectors of the topology. *)
Definition inspect_call (m : Manager) : string * list string :=
  (Runtime m, ["network"; "inspect"; NetworkName m]).

Definition create_call (m : Manager) : string * list string :=
  (Runtime m, ["network"; "create"; "--subnet=10.10.10.0/24"; NetworkName m]).

Definition rm_player_call (m : Manager) : string * list string :=
  (Runtime m, ["rm"; "-f"; ContainerName m]).

Definition rm_gateway_call (m : Manager) : string * list string :=
  (Runtime m, ["rm"; "-f"; GatewayName m]).

Definition build_call (m : Manager) : string * list string :=
  (Runtime m, ["build"; "-t"; ImageName m; "."]).

(** A runtime that knows one thing, whether the network exists: [inspect]
    succeeds when it does, [create] makes it or fails when it is there. *)
Definition network_sim (bin : string) (args : list string) (exists_ : bool)
  : ExecResult * bool :=
  match args with
  | [a1; a2; _] =>
      if String.eqb a1 "network" && String.eqb a2 "inspect" then
        if exists_ then (ok_result "[]", true)
        else (exit1 "Error: network not found", false)
      else (failed_result "exit status 125" EmptyString "unknown command", exists_)
  | [a1; a2; _; _] =>
      if String.eqb a1 "network" && String.eqb a2 "create" then
        if exists_ then (exit1 "Error: network already exists", true)
        else (ok_result "goblin_net", true)
      else (failed_result "exit status 125" EmptyString "unknown command", exists_)
  | _ => (failed_result "exit status 125" EmptyString "unknown command", exists_)
  end.

(** A terminal whose containers are up, with [typed] in the input line and
    [hs] in the history, the index at its end. *)
Definition ready_terminal (typed : string) (hs : list string) : Terminal :=
  {| model := set_started (NewModel map_then_passwd 0); input := typed;
     history := hs; historyIdx := len hs |}.

(** A quest whose condition has the type [Custom]. *)
Definition quest_custom : Quest :=
  quest 3 "Something else"
    (condition Custom EmptyString EmptyString EmptyString EmptyString).

(** A host for the examples: the home directory is known, nothing is ever
    missing, removing succeeds, and paths are joined with a slash. *)
Definition host_home (w : unit) : string * error := ("/home/u", None).

Definition host_missing (path : string) (w : unit) : bool := false.

Definition host_remove (path : string) (w : unit) : error * unit := (None, w).

Definition host_join (elems : list string) : string := Join elems "/".

(** A container in which there is no user [glitch] and none can be made:
    [id glitch] fails, and so does [useradd glitch]. *)
Definition locked_passwd : string -> list string -> unit -> ExecResult * unit :=
  scripted
    [("id glitch", exit1 "id: 'glitch': no such user");
     ("useradd glitch",
      exit1 "useradd: cannot lock /etc/passwd; try again later.")].

(* ================================================================= *)
(** ** Properties *)

Ltac exec_simpl :=
  cbv beta iota delta
    [bind ret get_mgr set_CurrentDir exec_Command panic spawn
     plain_exec home_exec root_exec fst snd] in *;
  cbn [mgr world saved writable calls with_CurrentDir relocate
       ImageName ContainerName GatewayName NetworkName Runtime CurrentDir
       fst snd] in *.

Section Properties.

Context {World : Type}.
Variable runtime : string -> list string -> World -> ExecResult * World.
Variable Render : string -> string.
Variable call_then_read : bool.

Set Default Proof Using "Type".

(** *** Directory changes *)

(** What [ExecuteCommand] does with a directory-change command, in full:
    one process, the probe, run without a working directory of its own. *)
Lemma ExecuteCommand_cd_eq (command : string) (s : Sys World) :
  is_cd (TrimSpace command) = true ->
  let D := CurrentDir (mgr s) in
  let call := plain_exec (mgr s)
                (cd_probe D (cd_target (TrimSpace command))) in
  let r := fst (spawn runtime call (world s)) in
  let w' := snd (spawn runtime call (world s)) in
  let newDir := TrimSpace (stdout r) in
  ExecuteCommand runtime command s =
  Some ((EmptyString,
         match run_err r with
         | Some _ => Some (if String.eqb (stderr r) EmptyString
                           then "No such file or directory" else stderr r)
         | None => None
         end),
        {| mgr := match run_err r with
                  | Some _ => mgr s
                  | None => if String.eqb newDir EmptyString then mgr s
                            else with_CurrentDir newDir (mgr s)
                  end;
           world := w'; saved := saved s; writable := writable s;
           calls := (calls s ++ [call])%list |}).
Proof.
  intros Hcd. unfold ExecuteCommand. rewrite Hcd. exec_simpl.
  destruct (runtime _ _ (world s)) as [r w'] eqn:E. cbn [fst snd].
  destruct (run_err r) as [e|]; [reflexivity|].
  destruct (String.eqb (TrimSpace (stdout r)) EmptyString); reflexivity.
Qed.

(** C1 (as amended).  For a directory-change command run from tracked
    directory [D], the manager runs the one probe
    [cd D && cd target && pwd] and returns empty output.  If the probe
    succeeds, no error is returned and the tracked directory becomes what
    the probe printed, trimmed of white space, provided that is not empty;
    a probe that succeeds without printing anything leaves the tracked
    directory at [D].  If the probe fails, the tracked directory stays
    exactly [D] and the error carries the captured stderr, or
    ["No such file or directory"] when stderr is empty. *)
Theorem cd_tracks_probe_output (command : string) (s : Sys World) :
  is_cd (TrimSpace command) = true ->
  let D := CurrentDir (mgr s) in
  let call := plain_exec (mgr s)
                (cd_probe D (cd_target (TrimSpace command))) in
  let r := fst (spawn runtime call (world s)) in
  let printed := TrimSpace (stdout r) in
  exists err s',
    ExecuteCommand runtime command s = Some ((EmptyString, err), s')
    /\ calls s' = (calls s ++ [call])%list
    /\ (run_err r = None ->
        err = None /\
        CurrentDir (mgr s') =
          if String.eqb printed EmptyString then D else printed)
    /\ (run_err r <> None ->
        CurrentDir (mgr s') = D /\
        err = Some (if String.eqb (stderr r) EmptyString
                    then "No such file or directory" else stderr r)).
Proof.
  intros Hcd D call r printed.
  pose proof (ExecuteCommand_cd_eq command s Hcd) as E. cbv zeta in E.
  fold D call r printed in E.
  eexists; eexists; split; [exact E|]. cbn [calls mgr].
  split; [reflexivity|]. split.
  - intros Hok. rewrite Hok. split; [reflexivity|].
    destruct (String.eqb printed EmptyString); reflexivity.
  - intros Hne. destruct (run_err r) as [e|]; [|congruence].
    split; reflexivity.
Qed.


(** *** The two privileged entries *)

Lemma ExecuteValidation_eq (c : string) (s : Sys World) :
  ExecuteValidation runtime c s =
  Some ((stdout (fst (spawn runtime (home_exec (mgr s) c) (world s))), None),
        after_call runtime s (home_exec (mgr s) c)).
Proof.
  unfold ExecuteValidation, after_call. exec_simpl.
  destruct (runtime _ _ (world s)) as [r w']. cbn [fst snd].
  destruct (run_err r); reflexivity.
Qed.

Lemma RunAsRoot_eq (c : string) (s : Sys World) :
  RunAsRoot runtime c s =
  Some (match run_err (fst (spawn runtime (root_exec (mgr s) c) (world s))) with
        | Some e =>
            Some (e ++ ": "
                  ++ combined (fst (spawn runtime (root_exec (mgr s) c) (world s))))
        | None => None
        end,
        after_call runtime s (root_exec (mgr s) c)).
Proof.
  unfold RunAsRoot, after_call. exec_simpl.
  destruct (runtime _ _ (world s)) as [r w']. cbn [fst snd].
  destruct (run_err r); reflexivity.
Qed.

Lemma after_call_relocate (d : string) (s : Sys World) (c : string) :
  after_call runtime (relocate d s) (home_exec (mgr (relocate d s)) c)
  = relocate d (after_call runtime s (home_exec (mgr s) c)).
Proof. reflexivity. Qed.

(** *** Win conditions *)

(** The four kinds that are decided by a probe: the probe's command and the
    text its trimmed output is compared with. *)
Lemma checkPassed_probe (q : Quest) (m : Model) (s : Sys World)
  (cmd expected : string) :
  let wc := WinCondition_ q in
  (Type_ wc = CommandOut /\ cmd = Command wc /\ expected = Expected wc)
  \/ (Type_ wc = DirExists
      /\ cmd = "test -d " ++ Target wc ++ " && echo yes" /\ expected = "yes")
  \/ (Type_ wc = FileExists
      /\ cmd = "test -f " ++ Target wc ++ " && echo yes" /\ expected = "yes")
  \/ (Type_ wc = FileContains
      /\ cmd = "grep -q " ++ DQ ++ Content wc ++ DQ ++ " " ++ Target wc
               ++ " && echo yes"
      /\ expected = "yes") ->
  checkPassed runtime q m s =
  Some (String.eqb
          (TrimSpace (stdout (fst (spawn runtime (home_exec (mgr s) cmd) (world s)))))
          expected,
        after_call runtime s (home_exec (mgr s) cmd)).
Proof.
  intros wc H. unfold checkPassed. fold wc.
  destruct H as [(T & -> & ->)|[(T & -> & ->)|[(T & -> & ->)|(T & -> & ->)]]];
    rewrite T; cbn [String.eqb Ascii.eqb Bool.eqb CommandOut DirExists FileExists
                    FileContains];
    unfold bind; rewrite ExecuteValidation_eq; reflexivity.
Qed.

(** The kinds that are decided without the container. *)
Lemma checkPassed_pure (q : Quest) (m : Model) (s : Sys World) :
  let wc := WinCondition_ q in
  Type_ wc <> CommandOut -> Type_ wc <> DirExists ->
  Type_ wc <> FileExists -> Type_ wc <> FileContains ->
  checkPassed runtime q m s =
  Some (if String.eqb (Type_ wc) UserOutputMatch then
          String.eqb (TrimSpace (lastOutput m)) (TrimSpace (Expected wc))
        else if String.eqb (Type_ wc) UserOutputContains then
          Contains (lastOutput m) (Expected wc)
        else if String.eqb (Type_ wc) CurrentDirMatch then
          String.eqb (TrimSuffix (CurrentDir (mgr s)) "/")
                     (TrimSuffix (if negb (HasPrefix (Target wc) "/")
                                  then "/home/player/" ++ Target wc
                                  else Target wc) "/")
        else false,
        s).
Proof.
  intros wc H1 H2 H3 H4. unfold checkPassed. fold wc.
  apply String.eqb_neq in H1, H2, H3, H4. rewrite H1, H2, H3, H4.
  destruct (String.eqb (Type_ wc) UserOutputMatch); [reflexivity|].
  destruct (String.eqb (Type_ wc) UserOutputContains); [reflexivity|].
  destruct (String.eqb (Type_ wc) CurrentDirMatch); reflexivity.
Qed.

Lemma kind_cases (t : string) :
  t = CommandOut \/ t = DirExists \/ t = FileExists \/ t = FileContains
  \/ (t <> CommandOut /\ t <> DirExists /\ t <> FileExists /\ t <> FileContains).
Proof.
  destruct (String.eqb_spec t CommandOut); [auto|].
  destruct (String.eqb_spec t DirExists); [auto|].
  destruct (String.eqb_spec t FileExists); [auto|].
  destruct (String.eqb_spec t FileContains); [auto 6|].
  do 4 right. auto.
Qed.

(** C8 (as amended).  A [CurrentDirMatch] condition passes if and only if
    the target, made absolute against [/home/player] when it does not start
    with [/], and the tracked working directory are equal once ONE trailing
    [/] (if present) has been removed from each; the evaluation spawns no
    process and leaves the store as it was. *)
Theorem CurrentDirMatch_verdict (q : Quest) (m : Model) (s : Sys World) :
  Type_ (WinCondition_ q) = CurrentDirMatch ->
  exists passed,
    checkPassed runtime q m s = Some (passed, s)
    /\ (passed = true <->
        TrimSuffix (absolute_target (Target (WinCondition_ q))) "/"
        = TrimSuffix (CurrentDir (mgr s)) "/").
Proof.
  intros T. eexists. split.
  - apply checkPassed_pure; rewrite T; discriminate.
  - rewrite T. cbn [String.eqb Ascii.eqb Bool.eqb CurrentDirMatch
                    UserOutputMatch UserOutputContains].
    unfold absolute_target.
    destruct (HasPrefix (Target (WinCondition_ q)) "/"); cbn [negb];
      rewrite String.eqb_eq; split; congruence.
Qed.

(** C2.  For a quest whose condition is not [CurrentDirMatch],
    [UserOutputMatch] or [UserOutputContains], two evaluations that differ
    only in the tracked working directory give the same verdict (and the
    same message to the state machine), and leave the same outside world:
    every probe runs with [-w /home/player]. *)
Theorem verdict_ignores_tracked_directory
  (q : Quest) (m : Model) (s : Sys World) (d : string) :
  Type_ (WinCondition_ q) <> CurrentDirMatch ->
  Type_ (WinCondition_ q) <> UserOutputMatch ->
  Type_ (WinCondition_ q) <> UserOutputContains ->
  exists passed s',
    checkPassed runtime q m s = Some (passed, s')
    /\ checkPassed runtime q m (relocate d s) = Some (passed, relocate d s')
    /\ runCmd runtime (CmdCheck q m) s
       = Some (Some (questCheckMsg (currentQuestIdx m) passed), s')
    /\ runCmd runtime (CmdCheck q m) (relocate d s)
       = Some (Some (questCheckMsg (currentQuestIdx m) passed), relocate d s')
    /\ world (relocate d s') = world s'.
Proof.
  intros N1 N2 N3.
  assert (P : exists passed s',
             checkPassed runtime q m s = Some (passed, s')
             /\ checkPassed runtime q m (relocate d s)
                = Some (passed, relocate d s')).
  { destruct (kind_cases (Type_ (WinCondition_ q)))
      as [T|[T|[T|[T|(T1 & T2 & T3 & T4)]]]].
    1-4: eexists; eexists; split;
      [ eapply checkPassed_probe; eauto 10
      | erewrite checkPassed_probe by eauto 10; reflexivity ].
    eexists; eexists; split; [apply checkPassed_pure; assumption|].
    rewrite checkPassed_pure by assumption.
    apply String.eqb_neq in N1, N2, N3. rewrite N1, N2, N3. reflexivity. }
  destruct P as (passed & s' & E1 & E2).
  exists passed, s'. repeat split; try assumption.
  - unfold runCmd, bind. rewrite E1. reflexivity.
  - unfold runCmd, bind. rewrite E2. reflexivity.
Qed.

(** C3 (as amended).  A validation probe never propagates an execution
    error: [ExecuteValidation] always returns a [nil] error next to the
    captured stdout, and evaluating a quest always ends with a verdict.  The
    verdict of the four probe kinds is computed from the captured stdout
    alone, whatever the exit status: it is [true] exactly when the trimmed
    stdout equals the expected text (["yes"], or the quest's expected output
    for [CommandOut]); so a probe that prints nothing gives verdict [false]
    whenever the expected text is not empty. *)
Theorem validation_never_errors :
  (forall c s, exists out s',
      ExecuteValidation runtime c s = Some ((out, None), s'))
  /\ (forall q m s, exists passed s',
         runCmd runtime (CmdCheck q m) s
         = Some (Some (questCheckMsg (currentQuestIdx m) passed), s'))
  /\ (forall q m s,
         let wc := WinCondition_ q in
         Type_ wc = CommandOut \/ Type_ wc = DirExists
         \/ Type_ wc = FileExists \/ Type_ wc = FileContains ->
         exists cmd s',
           checkPassed runtime q m s =
           Some (String.eqb
                   (TrimSpace
                      (stdout (fst (spawn runtime (home_exec (mgr s) cmd)
                                      (world s)))))
                   (if String.eqb (Type_ wc) CommandOut
                    then Expected wc else "yes"),
                 s'))
  /\ (forall q m s,
         let wc := WinCondition_ q in
         Type_ wc = DirExists \/ Type_ wc = FileExists
         \/ Type_ wc = FileContains
         \/ (Type_ wc = CommandOut /\ Expected wc <> EmptyString) ->
         (forall c, TrimSpace
                      (stdout (fst (spawn runtime (home_exec (mgr s) c)
                                      (world s)))) = EmptyString) ->
         exists s', checkPassed runtime q m s = Some (false, s')).
Proof.
  assert (P3 : forall q m s,
             let wc := WinCondition_ q in
             Type_ wc = CommandOut \/ Type_ wc = DirExists
             \/ Type_ wc = FileExists \/ Type_ wc = FileContains ->
             exists cmd s',
               checkPassed runtime q m s =
               Some (String.eqb
                       (TrimSpace
                          (stdout (fst (spawn runtime (home_exec (mgr s) cmd)
                                          (world s)))))
                       (if String.eqb (Type_ wc) CommandOut
                        then Expected wc else "yes"),
                     s')).
  { intros q m s wc [T|[T|[T|T]]]; eexists; eexists;
      rewrite T; cbn [String.eqb Ascii.eqb Bool.eqb CommandOut DirExists
                      FileExists FileContains];
      eapply checkPassed_probe; eauto 10. }
  split; [|split; [|split; [exact P3|]]].
  - intros c s. rewrite ExecuteValidation_eq. eauto.
  - intros q m s. unfold runCmd, bind.
    destruct (kind_cases (Type_ (WinCondition_ q)))
      as [T|[T|[T|[T|(T1 & T2 & T3 & T4)]]]].
    1-4: destruct (P3 q m s) as (cmd & s' & E); [cbv zeta; auto 6|];
      rewrite E; unfold ret; eauto.
    rewrite checkPassed_pure by assumption. unfold ret. eauto.
  - intros q m s wc K Hblank.
    destruct (P3 q m s) as (cmd & s' & E);
      [fold wc; destruct K as [T|[T|[T|(T & _)]]]; auto 6|].
    exists s'. rewrite E. f_equal. f_equal. rewrite Hblank. fold wc.
    destruct K as [T|[T|[T|(T & Hne)]]]; rewrite T;
      cbn [String.eqb Ascii.eqb Bool.eqb CommandOut DirExists FileExists
           FileContains]; try reflexivity.
    destruct (Expected wc); [congruence|reflexivity].
Qed.

(** What a finished command leaves for the evaluator: a command that
    succeeded replaces [lastOutput] by its output; a command that failed
    leaves [lastOutput] as it was.  In both cases the quest at the cursor,
    if there is one, is then evaluated against that model. *)
Lemma commandResult_then_check (m : Model) (out : string) (err : error)
  (s : Sys World) :
  0 <= currentQuestIdx m ->
  exists m' c,
    Update runtime Render call_then_read m (commandResultMsg out err) s = Some ((m', c), s)
    /\ quests m' = quests m
    /\ currentQuestIdx m' = currentQuestIdx m
    /\ lastOutput m' = match err with
                       | None => out
                       | Some _ => lastOutput m
                       end
    /\ ((len (quests m) <= currentQuestIdx m /\ c = CmdNil)
        \/ (currentQuestIdx m < len (quests m) /\
            exists q, nth_error (quests m) (Z.to_nat (currentQuestIdx m)) = Some q
                      /\ c = CmdCheck q m')).
Proof.
  intros Hpos.
  set (m' := match err with
             | Some e => append_output ["Error: " ++ e] m
             | None => set_lastOutput out (append_output (display_lines out) m)
             end).
  assert (Q : quests m' = quests m) by (subst m'; destruct err; reflexivity).
  assert (I : currentQuestIdx m' = currentQuestIdx m)
    by (subst m'; destruct err; reflexivity).
  assert (L : lastOutput m' = match err with None => out | Some _ => lastOutput m end)
    by (subst m'; destruct err; reflexivity).
  unfold Update. fold m'. unfold bind, checkWinCondition. rewrite Q, I.
  destruct (Z.leb_spec (len (quests m)) (currentQuestIdx m)) as [Hge|Hlt].
  - exists m', CmdNil. cbn. repeat split; auto.
  - unfold bind, index.
    destruct (Z.ltb_spec (currentQuestIdx m) 0) as [Hneg|_]; [lia|].
    destruct (nth_error (quests m) (Z.to_nat (currentQuestIdx m))) as [q|] eqn:E.
    + exists m', (CmdCheck q m'). cbn. repeat split; auto.
      right. split; [assumption|]. exists q. auto.
    + exfalso. apply nth_error_None in E. unfold len in Hlt. lia.
Qed.

(** *** The quest cursor *)

Lemma add_int_small (a b : Z) :
  - 2 ^ 63 <= a + b < 2 ^ 63 -> add_int a b = a + b.
Proof.
  intros H. unfold add_int. rewrite Z.mod_small; lia.
Qed.

Lemma index_in_range {A : Type} (l : list A) (i : Z) (s : Sys World) :
  0 <= i < len l ->
  exists a, nth_error l (Z.to_nat i) = Some a /\ index l i s = Some (a, s).
Proof.
  intros [H0 H1]. unfold index.
  destruct (Z.ltb_spec i 0) as [Hneg|_]; [lia|].
  destruct (nth_error l (Z.to_nat i)) as [a|] eqn:E.
  - exists a. split; reflexivity.
  - exfalso. apply nth_error_None in E. unfold len in H1. lia.
Qed.

Lemma ExecuteCommand_total (command : string) (s : Sys World) :
  exists out err s', ExecuteCommand runtime command s = Some ((out, err), s').
Proof.
  unfold ExecuteCommand. destruct (is_cd (TrimSpace command)); exec_simpl;
    destruct (runtime _ _ (world s)) as [r w']; cbn [fst snd];
    destruct (run_err r).
  - eauto.
  - destruct (negb (String.eqb (TrimSpace (stdout r)) EmptyString)); eauto.
  - destruct (negb (String.eqb (stderr r) EmptyString)); eauto.
  - eauto.
Qed.

Lemma runCmd_check_total (q : Quest) (m : Model) (s : Sys World) :
  exists passed s',
    checkPassed runtime q m s = Some (passed, s')
    /\ runCmd runtime (CmdCheck q m) s
       = Some (Some (questCheckMsg (currentQuestIdx m) passed), s').
Proof.
  assert (P : exists passed s', checkPassed runtime q m s = Some (passed, s')).
  { destruct (kind_cases (Type_ (WinCondition_ q)))
      as [T|[T|[T|[T|(T1 & T2 & T3 & T4)]]]].
    1-4: eexists; eexists; eapply checkPassed_probe; eauto 10.
    eexists; eexists; apply checkPassed_pure; assumption. }
  destruct P as (passed & s' & E). exists passed, s'. split; [assumption|].
  unfold runCmd, bind. rewrite E. reflexivity.
Qed.

Lemma run_setup_total (cmds : list string) (s : Sys World) :
  exists s', run_setup runtime cmds s = Some (tt, s').
Proof.
  revert s. induction cmds as [|c rest IH]; intros s; cbn [run_setup].
  - unfold ret. eauto.
  - unfold bind. rewrite ExecuteValidation_eq. apply IH.
Qed.

(** A verdict for quest [idx]: [false] changes nothing; [true] moves the
    cursor to [idx + 1] and writes that cursor to the save file. *)
Lemma questCheck_false (m : Model) (idx : Z) (s : Sys World) :
  Update runtime Render call_then_read m (questCheckMsg idx false) s = Some ((m, CmdNil), s).
Proof. reflexivity. Qed.

Lemma questCheck_true (m : Model) (idx : Z) (s : Sys World) :
  0 <= idx < len (quests m) -> len (quests m) < 2 ^ 63 ->
  exists m' c s',
    Update runtime Render call_then_read m (questCheckMsg idx true) s = Some ((m', c), s')
    /\ currentQuestIdx m' = idx + 1
    /\ quests m' = quests m
    /\ (c = CmdNil \/ exists q, c = CmdSetup q)
    /\ saved s' = (if writable s
                   then Some {| CurrentQuestID := idx + 1; MsgLog := [] |}
                   else saved s)
    /\ mgr s' = mgr s /\ world s' = world s /\ calls s' = calls s
    /\ writable s' = writable s.
Proof.
  intros Hidx Hlen. unfold Update.
  destruct (index_in_range (quests m) idx s Hidx) as (q0 & _ & E0).
  unfold bind at 1. rewrite E0. cbv zeta.
  rewrite add_int_small by lia.
  unfold bind at 1. unfold SaveState.
  set (m4 := append_output [EmptyString] _).
  assert (Q4 : quests m4 = quests m) by reflexivity.
  assert (Fin : forall st : Sys World,
             exists m' c s',
               (if idx + 1 <? len (quests m4)
                then bind (index (quests m4) (idx + 1))
                       (fun q : Quest =>
                          ret (append_output [quest_header q]
                                 (set_currentQuestIdx (idx + 1)
                                    (set_glitchText
                                       ("(Next: " ++ Title q ++ ")" ++ LF
                                        ++ IntroText q) m4)),
                               performQuestSetup q))
                else ret (set_currentQuestIdx (idx + 1)
                            (set_glitchText all_done m4), CmdNil)) st
               = Some ((m', c), s')
               /\ currentQuestIdx m' = idx + 1
               /\ quests m' = quests m
               /\ (c = CmdNil \/ exists q, c = CmdSetup q)
               /\ s' = st).
  { intros st. rewrite Q4.
    destruct (Z.ltb_spec (idx + 1) (len (quests m))) as [Hlt|Hge].
    - destruct (index_in_range (quests m) (idx + 1) st) as (q1 & _ & E1);
        [lia|].
      unfold bind. rewrite E1. unfold ret, performQuestSetup.
      eexists; eexists; eexists. split; [reflexivity|].
      repeat split; auto.
      destruct (len (SetupCommands q1) =? 0); eauto.
    - unfold ret. eexists; eexists; eexists. split; [reflexivity|].
      repeat split; auto. }
  destruct (writable s) eqn:W.
  - destruct (Fin {| mgr := mgr s; world := world s;
                     saved := Some {| CurrentQuestID := idx + 1; MsgLog := [] |};
                     writable := true; calls := calls s |})
      as (m' & c & s' & E & I & Q & C & ->).
    exists m', c. eexists. split; [exact E|].
    cbn [saved mgr world calls writable]. repeat split; auto.
  - destruct (Fin s) as (m' & c & s' & E & I & Q & C & ->).
    exists m', c, s. split; [exact E|]. rewrite W. repeat split; auto.
Qed.

Lemma deliver_quiet (m : Model) (c : Cmd) (s : Sys World) :
  c = CmdNil \/ (exists q, c = CmdSetup q) ->
  exists s', deliver runtime Render call_then_read m c s = Some ((m, CmdNil), s').
Proof.
  intros [->|(q & ->)]; unfold deliver, runCmd, bind.
  - unfold ret. eauto.
  - destruct (run_setup_total (SetupCommands q) s) as (s' & E). rewrite E.
    unfold ret. eauto.
Qed.

(** One command line moves the cursor by zero or by one, and never changes
    the quest list. *)
Lemma user_command_step (command : string) (m : Model) (s : Sys World) :
  0 <= currentQuestIdx m -> len (quests m) < 2 ^ 63 ->
  exists m' s',
    user_command runtime Render call_then_read command m s = Some (m', s')
    /\ quests m' = quests m
    /\ (currentQuestIdx m' = currentQuestIdx m
        \/ currentQuestIdx m' = currentQuestIdx m + 1).
Proof.
  intros Hpos Hlen. unfold user_command.
  destruct (ExecuteCommand_total command s) as (out & err & s1 & E1).
  unfold bind at 1. unfold deliver at 1. unfold bind at 1.
  unfold runCmd at 1. unfold bind at 1. rewrite E1. unfold ret at 1.
  cbn [fst snd].
  destruct (commandResult_then_check m out err s1 Hpos)
    as (m1 & c1 & U1 & Q1 & I1 & _ & C1).
  rewrite U1. cbn [fst snd].
  destruct C1 as [(Hge & ->)|(Hlt & q & Hq & ->)].
  - destruct (deliver_quiet m1 CmdNil s1) as (s2 & D2); [auto|].
    unfold bind at 1. rewrite D2. cbn [fst snd].
    destruct (deliver_quiet m1 CmdNil s2) as (s3 & D3); [auto|].
    unfold bind at 1. rewrite D3. cbn [fst snd]. unfold ret.
    exists m1, s3. auto.
  - destruct (runCmd_check_total q m1 s1) as (passed & s2 & _ & R2).
    unfold bind at 1. unfold deliver at 1. unfold bind at 1. rewrite R2.
    destruct passed.
    + destruct (questCheck_true m1 (currentQuestIdx m1) s2)
        as (m2 & c2 & s3 & U2 & I2 & Q2 & C2 & _); [rewrite Q1; lia|rewrite Q1; lia|].
      rewrite U2. cbn [fst snd].
      destruct (deliver_quiet m2 c2 s3 C2) as (s4 & D3).
      unfold bind at 1. rewrite D3. cbn [fst snd]. unfold ret.
      exists m2, s4. split; [reflexivity|]. split; [congruence|]. right. lia.
    + rewrite questCheck_false. cbn [fst snd].
      destruct (deliver_quiet m1 CmdNil s2) as (s3 & D3); [auto|].
      unfold bind at 1. rewrite D3. cbn [fst snd]. unfold ret.
      exists m1, s3. auto.
Qed.

Lemma user_commands_monotone (cs : list string) (m : Model) (s : Sys World) :
  0 <= currentQuestIdx m -> len (quests m) < 2 ^ 63 ->
  exists m' s',
    user_commands runtime Render call_then_read cs m s = Some (m', s')
    /\ quests m' = quests m
    /\ currentQuestIdx m <= currentQuestIdx m'.
Proof.
  revert m s. induction cs as [|c rest IH]; intros m s Hpos Hlen;
    cbn [user_commands].
  - unfold ret. exists m, s. split; [reflexivity|]. split; [reflexivity|lia].
  - destruct (user_command_step c m s Hpos Hlen) as (m1 & s1 & E1 & Q1 & I1).
    unfold bind. rewrite E1.
    destruct (IH m1 s1) as (m2 & s2 & E2 & Q2 & I2); [lia|rewrite Q1; lia|].
    exists m2, s2. split; [assumption|]. split; [congruence|lia].
Qed.

(** Where a process starts: the saved cursor, clamped into the index range
    of the quest list. *)
Lemma main_NewModel_cursor (qs : list Quest) (sv : GameState) (s : Sys World) :
  saved s = Some sv ->
  exists m,
    main_NewModel qs 0 s = Some (m, s)
    /\ quests m = qs
    /\ currentQuestIdx m =
       (let c := if CurrentQuestID sv <? 0 then 0 else CurrentQuestID sv in
        if len qs <=? c then len qs - 1 else c).
Proof.
  intros Hs. unfold main_NewModel, bind, LoadState. rewrite Hs.
  cbn [snd fst]. unfold ret. eexists. split; [reflexivity|].
  split; reflexivity.
Qed.

(** *** Environment restoration *)

Lemma RestoreEnvironment_blocks (questID : Z) (s : Sys World) :
  RestoreEnvironment runtime questID s =
  match restore_glitch_user runtime questID s with
  | Some (Some e, s1) => Some (Some e, s1)
  | Some (None, s1) =>
      match restore_sudo_access runtime questID s1 with
      | Some (Some e, s2) => Some (Some e, s2)
      | Some (None, s2) =>
          match restore_ownership runtime questID s2 with
          | Some (_, s3) =>
              match restore_permissions runtime questID s3 with
              | Some (_, s4) => Some (None, s4)
              | None => None
              end
          | None => None
          end
      | None => None
      end
  | None => None
  end.
Proof.
  change (RestoreEnvironment runtime questID s)
    with (bind (restore_glitch_user runtime questID)
            (fun e => match e with
                      | Some msg => ret (Some msg)
                      | None =>
                          bind (restore_sudo_access runtime questID)
                            (fun e' =>
                               match e' with
                               | Some msg => ret (Some msg)
                               | None =>
                                   bind (restore_ownership runtime questID)
                                     (fun _ =>
                                        bind (restore_permissions runtime questID)
                                          (fun _ => ret None))
                               end)
                      end) s).
  unfold bind, ret.
  destruct (restore_glitch_user runtime questID s) as [[[e|] s1]|];
    try reflexivity.
  destruct (restore_sudo_access runtime questID s1) as [[[e'|] s2]|];
    reflexivity.
Qed.

Lemma restore_glitch_user_eq (questID : Z) (s : Sys World) :
  let id := root_exec (mgr s) "id glitch" in
  let add := root_exec (mgr s) "useradd glitch" in
  restore_glitch_user runtime questID s =
  if 10 <? questID then
    match run_err (fst (spawn runtime id (world s))) with
    | None => Some (None, after_call runtime s id)
    | Some _ =>
        let r := fst (spawn runtime add (snd (spawn runtime id (world s)))) in
        Some (match run_err r with
              | Some e => Some ("failed to restore glitch user: "
                                ++ e ++ ": " ++ combined r)
              | None => None
              end,
              after_call runtime (after_call runtime s id) add)
    end
  else Some (None, s).
Proof.
  cbv zeta. unfold restore_glitch_user.
  destruct (10 <? questID); [|reflexivity].
  unfold bind. rewrite RunAsRoot_eq.
  destruct (run_err (fst (spawn runtime (root_exec (mgr s) "id glitch") (world s))));
    [|reflexivity].
  rewrite RunAsRoot_eq. cbn [mgr world after_call].
  destruct (run_err _); reflexivity.
Qed.

Lemma restore_sudo_access_eq (questID : Z) (s : Sys World) :
  let groups := home_exec (mgr s) "groups glitch" in
  let usermod := root_exec (mgr s) "usermod -aG sudo glitch" in
  restore_sudo_access runtime questID s =
  if 16 <? questID then
    if Contains (stdout (fst (spawn runtime groups (world s)))) "sudo"
    then Some (None, after_call runtime s groups)
    else
      let r := fst (spawn runtime usermod (snd (spawn runtime groups (world s)))) in
      Some (match run_err r with
            | Some e => Some ("failed to restore glitch sudo access: "
                              ++ e ++ ": " ++ combined r)
            | None => None
            end,
            after_call runtime (after_call runtime s groups) usermod)
  else Some (None, s).
Proof.
  cbv zeta. unfold restore_sudo_access.
  destruct (16 <? questID); [|reflexivity].
  unfold bind. rewrite ExecuteValidation_eq. cbn [fst].
  destruct (Contains _ "sudo"); cbn [negb]; [reflexivity|].
  rewrite RunAsRoot_eq. cbn [mgr world after_call].
  destruct (run_err _); reflexivity.
Qed.

Lemma restore_ownership_eq (questID : Z) (s : Sys World) :
  restore_ownership runtime questID s =
  if 11 <? questID then
    Some (tt, after_call runtime
                (after_call runtime s
                   (home_exec (mgr s) "test -d /home/player/.safe_house"))
                (root_exec (mgr s) "chown glitch /home/player/.safe_house"))
  else Some (tt, s).
Proof.
  unfold restore_ownership. destruct (11 <? questID); [|reflexivity].
  unfold bind. rewrite ExecuteValidation_eq. cbn [snd].
  rewrite RunAsRoot_eq. reflexivity.
Qed.

Lemma restore_permissions_eq (questID : Z) (s : Sys World) :
  restore_permissions runtime questID s =
  if 12 <? questID then
    Some (tt, after_call runtime
                (after_call runtime s
                   (home_exec (mgr s) "test -d /home/player/.safe_house"))
                (root_exec (mgr s) "chmod 700 /home/player/.safe_house"))
  else Some (tt, s).
Proof.
  unfold restore_permissions. destruct (12 <? questID); [|reflexivity].
  unfold bind. rewrite ExecuteValidation_eq. cbn [snd].
  rewrite RunAsRoot_eq. reflexivity.
Qed.

(** In a healthy container [RestoreEnvironment] never fails, leaves the
    world [reconciled] describes and spawns the processes of
    [reconcile_calls], in that order. *)
Lemma RestoreEnvironment_healthy (questID : Z) (s : Sys World) :
  HealthyContainer runtime (mgr s) ->
  RestoreEnvironment runtime questID s =
  Some (None,
        moved s (reconciled runtime (mgr s) questID (world s))
          (calls s ++ reconcile_calls runtime (mgr s) questID (world s))%list).
Proof.
  intros H. set (mg := mgr s) in *. set (w := world s).
  (* the user *)
  assert (B1 : exists w1 c1,
             restore_glitch_user runtime questID s
             = Some (None, moved s w1 (calls s ++ c1)%list)
             /\ w1 = (if (10 <? questID) && negb (has_glitch runtime mg w)
                      then snd (as_root runtime mg "useradd glitch" w) else w)
             /\ c1 = (if 10 <? questID
                      then root_exec mg "id glitch"
                           :: (if has_glitch runtime mg w then []
                               else [root_exec mg "useradd glitch"])
                      else [])
             /\ ((10 <? questID) = true -> has_glitch runtime mg w1 = true)).
  { rewrite restore_glitch_user_eq. cbv zeta. fold mg w.
    destruct (10 <? questID); cbn [andb].
    - pose proof (id_reads _ _ H w) as Hid. unfold as_root in Hid.
      destruct (has_glitch runtime mg w) eqn:G; cbn [negb];
        unfold has_glitch, as_root in G;
        destruct (run_err (fst (spawn runtime (root_exec mg "id glitch") w)))
          eqn:Eid; try discriminate.
      + eexists; eexists. split; [|split; [reflexivity|split; [reflexivity|]]].
        * unfold after_call, moved. fold mg w. rewrite Hid. reflexivity.
        * intros _. unfold has_glitch, as_root. rewrite Eid. reflexivity.
      + assert (G' : has_glitch runtime mg w = false)
          by (unfold has_glitch, as_root; rewrite Eid; reflexivity).
        destruct (useradd_creates _ _ H w G') as [Hok Hafter].
        unfold as_root in Hok. rewrite Hid, Hok.
        eexists; eexists. split; [|split; [reflexivity|split; [reflexivity|]]].
        * unfold after_call, moved. cbn [mgr world calls saved writable].
          fold mg w. rewrite Hid, <- app_assoc. reflexivity.
        * intros _. exact Hafter.
    - eexists; eexists. split; [|split; [reflexivity|split; [reflexivity|]]].
      + unfold moved. rewrite app_nil_r. destruct s; reflexivity.
      + discriminate. }
  destruct B1 as (w1 & c1 & E1 & Hw1 & Hc1 & G1).
  (* the group *)
  assert (B2 : exists w2 c2,
             restore_sudo_access runtime questID (moved s w1 (calls s ++ c1)%list)
             = Some (None, moved s w2 ((calls s ++ c1) ++ c2)%list)
             /\ w2 = (if (16 <? questID) && negb (is_sudoer runtime mg w1)
                      then snd (as_root runtime mg "usermod -aG sudo glitch" w1)
                      else w1)
             /\ c2 = (if 16 <? questID
                      then home_exec mg "groups glitch"
                           :: (if is_sudoer runtime mg w1 then []
                               else [root_exec mg "usermod -aG sudo glitch"])
                      else [])).
  { rewrite restore_sudo_access_eq. cbv zeta. cbn [mgr world moved]. fold mg.
    destruct (Z.ltb_spec 16 questID) as [H16|H16]; cbn [andb].
    - pose proof (groups_reads _ _ H w1) as Hg. unfold at_home in Hg.
      assert (G : has_glitch runtime mg w1 = true)
        by (apply G1; apply Z.ltb_lt; lia).
      unfold is_sudoer, at_home.
      destruct (Contains (stdout (fst (spawn runtime
                                         (home_exec mg "groups glitch") w1)))
                  "sudo") eqn:S; cbn [negb].
      + eexists; eexists. split; [|split; reflexivity].
        unfold after_call, moved. cbn [mgr world calls saved writable].
        fold mg. rewrite Hg. reflexivity.
      + destruct (usermod_adds _ _ H w1 G) as (Hok & _ & _).
        unfold as_root in Hok. rewrite Hg, Hok.
        eexists; eexists. split; [|split; reflexivity].
        unfold after_call, moved. cbn [mgr world calls saved writable].
        fold mg. rewrite Hg, <- (app_assoc (calls s ++ c1)%list). reflexivity.
    - eexists; eexists. split; [|split; reflexivity].
      unfold moved. cbn [mgr world calls saved writable].
      rewrite app_nil_r. reflexivity. }
  destruct B2 as (w2 & c2 & E2 & Hw2 & Hc2).
  pose proof (test_reads _ _ H) as Ht. unfold at_home in Ht. fold mg in Ht.
  rewrite RestoreEnvironment_blocks, E1, E2.
  rewrite restore_ownership_eq. cbn [mgr world moved]. fold mg.
  unfold reconciled, reconcile_calls. fold mg w.
  rewrite <- Hw1, <- Hw2, <- Hc1.
  destruct (11 <? questID); rewrite restore_permissions_eq;
    destruct (12 <? questID);
    unfold after_call, moved, chmod_, chown_, as_root;
    cbn [mgr world calls saved writable]; fold mg;
    repeat rewrite Ht; rewrite Hc2;
    repeat rewrite <- app_assoc; cbn [app]; try rewrite app_nil_r;
    reflexivity.
Qed.

Lemma reconciled_has_user (questID : Z) (mg : Manager) (w : World) :
  HealthyContainer runtime mg -> 10 < questID ->
  has_glitch runtime mg (reconciled runtime mg questID w) = true.
Proof.
  intros H Hq. unfold reconciled.
  replace (10 <? questID) with true by (symmetry; apply Z.ltb_lt; lia).
  cbn [andb].
  set (w1 := if negb (has_glitch runtime mg w) then _ else w).
  assert (G1 : has_glitch runtime mg w1 = true).
  { subst w1. destruct (has_glitch runtime mg w) eqn:G; cbn [negb];
      [assumption|apply (useradd_creates _ _ H); assumption]. }
  set (w2 := if (16 <? questID) && _ then _ else w1).
  assert (G2 : has_glitch runtime mg w2 = true).
  { subst w2. destruct ((16 <? questID) && negb (is_sudoer runtime mg w1));
      [apply (usermod_adds _ _ H); assumption|assumption]. }
  destruct (11 <? questID), (12 <? questID);
    rewrite ?(chmod_keeps_user _ _ H), ?(chown_keeps_user _ _ H); assumption.
Qed.

Lemma reconciled_in_group (questID : Z) (mg : Manager) (w : World) :
  HealthyContainer runtime mg -> 16 < questID ->
  is_sudoer runtime mg (reconciled runtime mg questID w) = true.
Proof.
  intros H Hq. unfold reconciled.
  replace (10 <? questID) with true by (symmetry; apply Z.ltb_lt; lia).
  replace (16 <? questID) with true by (symmetry; apply Z.ltb_lt; lia).
  cbn [andb].
  set (w1 := if negb (has_glitch runtime mg w) then _ else w).
  assert (G1 : has_glitch runtime mg w1 = true).
  { subst w1. destruct (has_glitch runtime mg w) eqn:G; cbn [negb];
      [assumption|apply (useradd_creates _ _ H); assumption]. }
  set (w2 := if negb (is_sudoer runtime mg w1) then _ else w1).
  assert (S2 : is_sudoer runtime mg w2 = true).
  { subst w2. destruct (is_sudoer runtime mg w1) eqn:S; cbn [negb];
      [assumption|apply (usermod_adds _ _ H); assumption]. }
  destruct (11 <? questID), (12 <? questID);
    rewrite ?(chmod_keeps_group _ _ H), ?(chown_keeps_group _ _ H); assumption.
Qed.

Lemma reconciled_again (questID : Z) (mg : Manager) (w : World) :
  HealthyContainer runtime mg ->
  let w' := reconciled runtime mg questID w in
  reconciled runtime mg questID w' = w'
  /\ reconcile_calls runtime mg questID w' = second_run mg questID.
Proof.
  intros H w'.
  assert (G : (10 <? questID) && negb (has_glitch runtime mg w') = false).
  { destruct (Z.ltb_spec 10 questID) as [Hq|Hq]; [|reflexivity].
    subst w'. rewrite (reconciled_has_user questID mg w H Hq). reflexivity. }
  assert (S : (16 <? questID) && negb (is_sudoer runtime mg w') = false).
  { destruct (Z.ltb_spec 16 questID) as [Hq|Hq]; [|reflexivity].
    subst w'. rewrite (reconciled_in_group questID mg w H Hq). reflexivity. }
  split.
  - unfold reconciled at 1. rewrite G, S.
    subst w'. unfold reconciled.
    set (w2 := if (16 <? questID) && _ then _ else _).
    destruct (11 <? questID), (12 <? questID);
      rewrite ?(chown_chmod _ _ H), ?(chown_again _ _ H), ?(chmod_again _ _ H);
      reflexivity.
  - unfold reconcile_calls, second_run. rewrite G.
    destruct (10 <? questID) eqn:E10; destruct (16 <? questID) eqn:E16;
      cbn [andb negb] in G, S;
      try (apply negb_false_iff in G; rewrite G);
      try (apply negb_false_iff in S; rewrite S);
      reflexivity.
Qed.

Lemma reconciled_fixes_hold (questID : Z) (mg : Manager) (w : World) :
  HealthyContainer runtime mg ->
  let w' := reconciled runtime mg questID w in
  ((11 <? questID) = true -> chown_ runtime mg w' = w')
  /\ ((12 <? questID) = true -> chmod_ runtime mg w' = w').
Proof.
  intros H w'. subst w'. unfold reconciled.
  set (w2 := if (16 <? questID) && _ then _ else _).
  split; intros Hq.
  - rewrite Hq. destruct (12 <? questID);
      rewrite ?(chown_chmod _ _ H), ?(chown_again _ _ H); reflexivity.
  - rewrite Hq. apply (chmod_again _ _ H).
Qed.

(** C6 (as amended).  In a container in which the commands of the
    reconciler behave as they should ([HealthyContainer]: the three checks
    only read, [useradd] creates a missing user, [usermod] adds an existing
    user to the group, [chown] and [chmod] leave users and groups alone, are
    repeatable and commute), for every quest cursor: a first run of
    [RestoreEnvironment] returns no error; a second run right after it
    returns no error either, leaves the outside world exactly as the first
    run left it, and spawns nothing but the checks and the [chown] and
    [chmod], which it does run again and each of which leaves that world as
    it is: it never runs [useradd] (or [usermod]) again. *)
Theorem RestoreEnvironment_idempotent (questID : Z) (s : Sys World) :
  HealthyContainer runtime (mgr s) ->
  exists s1 s2,
    RestoreEnvironment runtime questID s = Some (None, s1)
    /\ RestoreEnvironment runtime questID s1 = Some (None, s2)
    /\ world s2 = world s1
    /\ calls s2 = (calls s1 ++ second_run (mgr s) questID)%list
    /\ ~ In (root_exec (mgr s) "useradd glitch") (second_run (mgr s) questID)
    /\ ~ In (root_exec (mgr s) "usermod -aG sudo glitch")
            (second_run (mgr s) questID)
    /\ Forall (fun call => snd (spawn runtime call (world s1)) = world s1)
         (second_run (mgr s) questID).
Proof.
  intros H.
  pose proof (RestoreEnvironment_healthy questID s H) as E1.
  set (s1 := moved s _ _) in E1.
  assert (H1 : HealthyContainer runtime (mgr s1)) by exact H.
  pose proof (RestoreEnvironment_healthy questID s1 H1) as E2.
  destruct (reconciled_again questID (mgr s) (world s) H) as [Rw Rc].
  destruct (reconciled_fixes_hold questID (mgr s) (world s) H) as [Fo Fm].
  change (mgr s1) with (mgr s) in E2.
  change (world s1) with (reconciled runtime (mgr s) questID (world s)) in E2.
  rewrite Rw, Rc in E2.
  eexists; eexists. split; [exact E1|]. split; [exact E2|].
  split; [reflexivity|]. split; [reflexivity|].
  split; [|split].
  - unfold second_run, root_exec, home_exec. intros HIn.
    destruct (10 <? questID), (16 <? questID), (11 <? questID), (12 <? questID);
      cbn [app In] in HIn;
      repeat (destruct HIn as [HIn|HIn]; [congruence|]); exact HIn.
  - unfold second_run, root_exec, home_exec. intros HIn.
    destruct (10 <? questID), (16 <? questID), (11 <? questID), (12 <? questID);
      cbn [app In] in HIn;
      repeat (destruct HIn as [HIn|HIn]; [congruence|]); exact HIn.
  - change (world s1) with (reconciled runtime (mgr s) questID (world s)).
    pose proof (id_reads _ _ H) as Hi. pose proof (groups_reads _ _ H) as Hg.
    pose proof (test_reads _ _ H) as Ht.
    unfold chown_, chmod_ in Fo, Fm. unfold as_root, at_home in *.
    unfold second_run.
    apply Forall_app; split; [|apply Forall_app; split;
                                [|apply Forall_app; split]].
    + destruct (10 <? questID); [|apply Forall_nil].
      apply Forall_cons; [apply Hi|apply Forall_nil].
    + destruct (16 <? questID); [|apply Forall_nil].
      apply Forall_cons; [apply Hg|apply Forall_nil].
    + destruct (11 <? questID); [|apply Forall_nil].
      apply Forall_cons; [apply Ht|].
      apply Forall_cons; [apply Fo; reflexivity|apply Forall_nil].
    + destruct (12 <? questID); [|apply Forall_nil].
      apply Forall_cons; [apply Ht|].
      apply Forall_cons; [apply Fm; reflexivity|apply Forall_nil].
Qed.

Lemma RestoreEnvironment_total (questID : Z) (s : Sys World) :
  exists e s', RestoreEnvironment runtime questID s = Some (e, s')
               /\ mgr s' = mgr s /\ saved s' = saved s
               /\ writable s' = writable s.
Proof.
  rewrite RestoreEnvironment_blocks, restore_glitch_user_eq. cbv zeta.
  assert (T : forall s1 : Sys World,
             mgr s1 = mgr s -> saved s1 = saved s -> writable s1 = writable s ->
             exists e s',
               match restore_sudo_access runtime questID s1 with
               | Some (Some e, s2) => Some (Some e, s2)
               | Some (None, s2) =>
                   match restore_ownership runtime questID s2 with
                   | Some (_, s3) =>
                       match restore_permissions runtime questID s3 with
                       | Some (_, s4) => Some (@None string, s4)
                       | None => None
                       end
                   | None => None
                   end
               | None => None
               end = Some (e, s')
               /\ mgr s' = mgr s /\ saved s' = saved s
               /\ writable s' = writable s).
  { intros s1 M S W. rewrite restore_sudo_access_eq. cbv zeta.
    assert (U : forall s2 : Sys World,
               mgr s2 = mgr s -> saved s2 = saved s -> writable s2 = writable s ->
               exists e s',
                 match restore_ownership runtime questID s2 with
                 | Some (_, s3) =>
                     match restore_permissions runtime questID s3 with
                     | Some (_, s4) => Some (@None string, s4)
                     | None => None
                     end
                 | None => None
                 end = Some (e, s')
                 /\ mgr s' = mgr s /\ saved s' = saved s
                 /\ writable s' = writable s).
    { intros s2 M2 S2 W2. rewrite restore_ownership_eq.
      destruct (11 <? questID); rewrite restore_permissions_eq;
        destruct (12 <? questID); eexists; eexists;
        (split; [reflexivity|]); cbn [mgr saved writable after_call]; auto. }
    destruct (16 <? questID); [|apply U; assumption].
    destruct (Contains _ "sudo"); [apply U; assumption|].
    destruct (run_err _); [|apply U; assumption].
    eexists; eexists. split; [reflexivity|].
    cbn [mgr saved writable after_call]. auto. }
  destruct (10 <? questID); [|apply T; reflexivity].
  destruct (run_err (fst (spawn runtime (root_exec (mgr s) "id glitch") (world s))));
    [|apply T; reflexivity].
  destruct (run_err _); [|apply T; reflexivity].
  eexists; eexists. split; [reflexivity|].
  cbn [mgr saved writable after_call]. auto.
Qed.

(** The handler of [containerReadyMsg{nil}] runs [RestoreEnvironment] on the
    cursor before it announces the quest at the cursor, and touches the
    store in no other way.  Past the first quest it announces the quest by
    its ID. *)
Lemma containerReady_restores_first (m : Model) (s : Sys World) :
  0 <= currentQuestIdx m < len (quests m) ->
  exists e s' q m' c,
    RestoreEnvironment runtime (currentQuestIdx m) s = Some (e, s')
    /\ nth_error (quests m) (Z.to_nat (currentQuestIdx m)) = Some q
    /\ Update runtime Render call_then_read m (containerReadyMsg None) s
       = Some ((m', c), s')
    /\ c = performQuestSetup q
    /\ currentQuestIdx m' = currentQuestIdx m
    /\ (0 < currentQuestIdx m ->
        In ("Resuming from Quest " ++ Itoa (ID q) ++ "...") (output m')).
Proof.
  intros Hr.
  destruct (RestoreEnvironment_total (currentQuestIdx m) s) as (e & s' & E & _).
  destruct (index_in_range (quests m) (currentQuestIdx m) s' Hr) as (q & Hq & Ei).
  exists e, s', q. unfold Update. cbv zeta.
  set (m1 := append_output ["Environment ready."] (set_started m)).
  change (currentQuestIdx m1) with (currentQuestIdx m).
  unfold bind at 1. rewrite E.
  set (m2 := match e with Some _ => _ | None => m1 end).
  assert (Q2 : quests m2 = quests m) by (subst m2; destruct e; reflexivity).
  assert (I2 : currentQuestIdx m2 = currentQuestIdx m)
    by (subst m2; destruct e; reflexivity).
  rewrite I2, Q2.
  assert (F : forall m3 : Model,
             quests m3 = quests m -> currentQuestIdx m3 = currentQuestIdx m ->
             exists m',
               (let m4 := append_output [EmptyString] m3 in
                if 0 <? len (quests m4)
                then bind (startQuest m4 (currentQuestIdx m4))
                       (fun mc => ret (if call_then_read then fst mc else m4,
                                       snd mc))
                else ret (m4, CmdNil)) s'
               = Some ((m', performQuestSetup q), s')
               /\ currentQuestIdx m' = currentQuestIdx m
               /\ (forall line, In line (output m3) -> In line (output m'))).
  { intros m3 Q3 I3. cbv zeta.
    change (quests (append_output [EmptyString] m3)) with (quests m3).
    change (currentQuestIdx (append_output [EmptyString] m3))
      with (currentQuestIdx m3).
    rewrite Q3, I3.
    replace (0 <? len (quests m)) with true by (symmetry; apply Z.ltb_lt; lia).
    unfold startQuest.
    change (quests (append_output [EmptyString] m3)) with (quests m3).
    rewrite Q3.
    replace (len (quests m) <=? currentQuestIdx m) with false
      by (symmetry; apply Z.leb_gt; lia).
    cbv zeta.
    change (quests (set_currentQuestIdx (currentQuestIdx m)
                      (append_output [EmptyString] m3))) with (quests m3).
    rewrite Q3. unfold bind. rewrite Ei. unfold ret. cbn [fst snd].
    eexists. split; [reflexivity|].
    split; [destruct call_then_read; [reflexivity|exact I3]|].
    intros line Hin. destruct call_then_read;
      cbn [output append_output set_glitchText set_currentQuestIdx];
      repeat (apply in_or_app; left); exact Hin. }
  destruct (Z.ltb_spec 0 (currentQuestIdx m)) as [Pos|NotPos].
  - destruct (F (append_output
                   ["Resuming from Quest " ++ Itoa (ID q) ++ "..."] m2))
      as (m' & EF & I & O); [exact Q2|exact I2|].
    exists m', (performQuestSetup q). split; [reflexivity|].
    split; [assumption|].
    split; [unfold bind at 1; unfold bind at 1; rewrite Ei; exact EF|].
    split; [reflexivity|]. split; [assumption|].
    intros _. apply O. cbn [output append_output].
    apply in_or_app. right. left. reflexivity.
  - destruct (F m2 Q2 I2) as (m' & EF & I & _).
    exists m', (performQuestSetup q). split; [reflexivity|].
    split; [assumption|]. split; [exact EF|].
    split; [reflexivity|]. split; [assumption|]. intros Pos. lia.
Qed.

Lemma restore_glitch_user_calls (questID : Z) (s : Sys World) :
  exists e s' pre,
    restore_glitch_user runtime questID s = Some (e, s')
    /\ mgr s' = mgr s
    /\ calls s' = (calls s ++ pre)%list
    /\ Forall (fun c => c = root_exec (mgr s) "id glitch"
                        \/ c = root_exec (mgr s) "useradd glitch") pre.
Proof.
  rewrite restore_glitch_user_eq. cbv zeta.
  destruct (10 <? questID).
  - destruct (run_err (fst (spawn runtime (root_exec (mgr s) "id glitch")
                              (world s)))).
    + eexists; eexists; exists [root_exec (mgr s) "id glitch";
                                root_exec (mgr s) "useradd glitch"].
      split; [reflexivity|]. cbn [mgr calls after_call].
      split; [reflexivity|]. split; [rewrite <- app_assoc; reflexivity|].
      apply Forall_cons; [left; reflexivity|].
      apply Forall_cons; [right; reflexivity|apply Forall_nil].
    + eexists; eexists; exists [root_exec (mgr s) "id glitch"].
      split; [reflexivity|]. cbn [mgr calls after_call].
      split; [reflexivity|]. split; [reflexivity|].
      apply Forall_cons; [left; reflexivity|apply Forall_nil].
  - eexists; eexists; exists []. split; [reflexivity|].
    split; [reflexivity|]. split; [rewrite app_nil_r; reflexivity|].
    apply Forall_nil.
Qed.

Lemma restore_sudo_access_calls (questID : Z) (s : Sys World) :
  exists e s' pre,
    restore_sudo_access runtime questID s = Some (e, s')
    /\ mgr s' = mgr s
    /\ calls s' = (calls s ++ pre)%list
    /\ Forall (fun c => c = home_exec (mgr s) "groups glitch"
                        \/ c = root_exec (mgr s) "usermod -aG sudo glitch") pre.
Proof.
  rewrite restore_sudo_access_eq. cbv zeta.
  destruct (16 <? questID).
  - destruct (Contains _ "sudo").
    + eexists; eexists; exists [home_exec (mgr s) "groups glitch"].
      split; [reflexivity|]. cbn [mgr calls after_call].
      split; [reflexivity|]. split; [reflexivity|].
      apply Forall_cons; [left; reflexivity|apply Forall_nil].
    + eexists; eexists; exists [home_exec (mgr s) "groups glitch";
                                root_exec (mgr s) "usermod -aG sudo glitch"].
      split; [reflexivity|]. cbn [mgr calls after_call].
      split; [reflexivity|]. split; [rewrite <- app_assoc; reflexivity|].
      apply Forall_cons; [left; reflexivity|].
      apply Forall_cons; [right; reflexivity|apply Forall_nil].
  - eexists; eexists; exists []. split; [reflexivity|].
    split; [reflexivity|]. split; [rewrite app_nil_r; reflexivity|].
    apply Forall_nil.
Qed.

(** What [RestoreEnvironment] spawns, for every value it is handed: first
    the checks of the user and of the group with the fix each may need
    ([id], [useradd], [groups], [usermod]); then, unless one of those fixes
    failed, the [chown] when the value is above 11 followed by the [chmod]
    when it is above 12, each behind a [test -d] whose answer it
    ignores. *)
Lemma RestoreEnvironment_trace (questID : Z) (s : Sys World) :
  let id := root_exec (mgr s) "id glitch" in
  let useradd := root_exec (mgr s) "useradd glitch" in
  let groups := home_exec (mgr s) "groups glitch" in
  let usermod := root_exec (mgr s) "usermod -aG sudo glitch" in
  let test := home_exec (mgr s) "test -d /home/player/.safe_house" in
  let chown := root_exec (mgr s) "chown glitch /home/player/.safe_house" in
  let chmod := root_exec (mgr s) "chmod 700 /home/player/.safe_house" in
  exists e s' pre,
    RestoreEnvironment runtime questID s = Some (e, s')
    /\ calls s' = (calls s ++ pre
                   ++ match e with
                      | None => (if 11 <? questID then [test; chown] else [])
                                ++ (if 12 <? questID then [test; chmod] else [])
                      | Some _ => []
                      end)%list
    /\ Forall (fun c => c = id \/ c = useradd \/ c = groups \/ c = usermod) pre.
Proof.
  cbv zeta. rewrite RestoreEnvironment_blocks.
  destruct (restore_glitch_user_calls questID s)
    as (e1 & s1 & pre1 & E1 & M1 & C1 & F1).
  rewrite E1.
  assert (F1' : Forall (fun c => c = root_exec (mgr s) "id glitch"
                                 \/ c = root_exec (mgr s) "useradd glitch"
                                 \/ c = home_exec (mgr s) "groups glitch"
                                 \/ c = root_exec (mgr s) "usermod -aG sudo glitch")
                  pre1).
  { eapply Forall_impl; [|exact F1]. intros c [H|H]; auto. }
  destruct e1 as [e1|].
  { exists (Some e1), s1, pre1. split; [reflexivity|].
    split; [rewrite C1, app_nil_r; reflexivity|exact F1']. }
  destruct (restore_sudo_access_calls questID s1)
    as (e2 & s2 & pre2 & E2 & M2 & C2 & F2).
  rewrite E2. rewrite M1 in F2.
  assert (F2' : Forall (fun c => c = root_exec (mgr s) "id glitch"
                                 \/ c = root_exec (mgr s) "useradd glitch"
                                 \/ c = home_exec (mgr s) "groups glitch"
                                 \/ c = root_exec (mgr s) "usermod -aG sudo glitch")
                  pre2).
  { eapply Forall_impl; [|exact F2]. intros c [H|H]; auto. }
  assert (F12 : Forall (fun c => c = root_exec (mgr s) "id glitch"
                                 \/ c = root_exec (mgr s) "useradd glitch"
                                 \/ c = home_exec (mgr s) "groups glitch"
                                 \/ c = root_exec (mgr s) "usermod -aG sudo glitch")
                  (pre1 ++ pre2)) by (apply Forall_app; split; assumption).
  destruct e2 as [e2|].
  { exists (Some e2), s2, (pre1 ++ pre2)%list. split; [reflexivity|].
    split; [rewrite C2, C1, app_nil_r, <- app_assoc; reflexivity|exact F12]. }
  rewrite restore_ownership_eq, M2, M1.
  destruct (11 <? questID).
  - rewrite restore_permissions_eq. cbn [mgr after_call]. rewrite M2, M1.
    destruct (12 <? questID).
    + eexists; eexists; exists (pre1 ++ pre2)%list. split; [reflexivity|].
      cbn [calls after_call]. rewrite C2, C1.
      split; [rewrite <- !app_assoc; reflexivity|exact F12].
    + eexists; eexists; exists (pre1 ++ pre2)%list. split; [reflexivity|].
      cbn [calls after_call]. rewrite C2, C1.
      split; [rewrite <- !app_assoc; reflexivity|exact F12].
  - rewrite restore_permissions_eq, M2, M1.
    destruct (12 <? questID).
    + eexists; eexists; exists (pre1 ++ pre2)%list. split; [reflexivity|].
      cbn [calls after_call]. rewrite C2, C1.
      split; [rewrite <- !app_assoc; reflexivity|exact F12].
    + eexists; eexists; exists (pre1 ++ pre2)%list. split; [reflexivity|].
      rewrite C2, C1.
      split; [rewrite app_nil_r, <- !app_assoc; reflexivity|exact F12].
Qed.

(** Handed 12, [RestoreEnvironment] spawns [id glitch], [useradd glitch]
    when that failed, and then, unless [useradd] failed too, the [test -d]
    and the [chown]: never the [chmod].  It returns an error exactly when
    both [id] and [useradd] failed. *)
Lemma RestoreEnvironment_at_12 (s : Sys World) :
  let id := root_exec (mgr s) "id glitch" in
  let useradd := root_exec (mgr s) "useradd glitch" in
  let test := home_exec (mgr s) "test -d /home/player/.safe_house" in
  let chown := root_exec (mgr s) "chown glitch /home/player/.safe_house" in
  let r_id := fst (spawn runtime id (world s)) in
  let r_add := fst (spawn runtime useradd (snd (spawn runtime id (world s)))) in
  exists e s',
    RestoreEnvironment runtime 12 s = Some (e, s')
    /\ calls s' = (calls s
                   ++ match run_err r_id with
                      | None => [id; test; chown]
                      | Some _ =>
                          match run_err r_add with
                          | None => [id; useradd; test; chown]
                          | Some _ => [id; useradd]
                          end
                      end)%list
    /\ (e = None <-> run_err r_id = None \/ run_err r_add = None).
Proof.
  cbv zeta.
  rewrite RestoreEnvironment_blocks, restore_glitch_user_eq. cbv zeta.
  change (10 <? 12) with true. cbv iota.
  destruct (run_err (fst (spawn runtime (root_exec (mgr s) "id glitch")
                             (world s)))) as [ei|].
  - destruct (run_err _) as [ea|].
    + eexists; eexists. split; [reflexivity|]. cbn [calls after_call].
      split; [rewrite <- app_assoc; reflexivity|].
      split; [discriminate|intros [H|H]; discriminate H].
    + rewrite restore_sudo_access_eq. cbv zeta.
      change (16 <? 12) with false. cbv iota beta.
      rewrite restore_ownership_eq. change (11 <? 12) with true. cbv iota beta.
      rewrite restore_permissions_eq. change (12 <? 12) with false.
      cbv iota beta.
      eexists; eexists. split; [reflexivity|]. cbn [calls after_call mgr].
      split; [repeat rewrite <- app_assoc; reflexivity|].
      split; [intros _; right; reflexivity|reflexivity].
  - rewrite restore_sudo_access_eq. cbv zeta.
    change (16 <? 12) with false. cbv iota beta.
    rewrite restore_ownership_eq. change (11 <? 12) with true. cbv iota beta.
    rewrite restore_permissions_eq. change (12 <? 12) with false.
    cbv iota beta.
    eexists; eexists. split; [reflexivity|]. cbn [calls after_call mgr].
    split; [repeat rewrite <- app_assoc; reflexivity|].
    split; [intros _; left; reflexivity|reflexivity].
Qed.

(** The start of a process with the cursor at 12, for every runtime: the
    handler of [containerReadyMsg] hands the cursor, an index that counts
    from 0, to [RestoreEnvironment], announces the quest at the cursor by
    its ID and returns that quest's setup; the processes spawned are those
    of [RestoreEnvironment 12], and the [chmod] is not among them. *)
Lemma resume_at_cursor_12 (m : Model) (s : Sys World) :
  currentQuestIdx m = 12 -> 12 < len (quests m) ->
  exists e s' q m' c new,
    RestoreEnvironment runtime 12 s = Some (e, s')
    /\ nth_error (quests m) 12 = Some q
    /\ Update runtime Render call_then_read m (containerReadyMsg None) s
       = Some ((m', c), s')
    /\ c = performQuestSetup q
    /\ In ("Resuming from Quest " ++ Itoa (ID q) ++ "...") (output m')
    /\ calls s' = (calls s ++ new)%list
    /\ ~ In (root_exec (mgr s) "chmod 700 /home/player/.safe_house") new.
Proof.
  intros Hc Hl.
  destruct (containerReady_restores_first m s)
    as (e & s' & q & m' & c & E & Hq & U & L & _ & O); [lia|].
  rewrite Hc in E, Hq.
  destruct (RestoreEnvironment_at_12 s) as (e0 & s0 & E0 & C0 & _).
  cbv zeta in C0. rewrite E in E0. inversion E0; subst e0 s0.
  eexists e, s', q, m', c, _.
  split; [exact E|]. split; [exact Hq|]. split; [exact U|].
  split; [exact L|]. split; [apply O; lia|]. split; [exact C0|].
  unfold root_exec, home_exec.
  destruct (run_err _); [destruct (run_err _)|]; cbn [In]; intros HIn;
    repeat (destruct HIn as [HIn|HIn]; [congruence|]); exact HIn.
Qed.


(** C4 (as amended).  Within a run the quest cursor never decreases.  Every
    command line, handled to the end with one command in flight, leaves the
    cursor where it was or moves it up by exactly one, and never changes the
    quest list; what is evaluated after a command is the quest at the
    cursor and no other, so a quest that was passed is not evaluated again
    in that run; a [false] verdict for the current quest changes nothing, a
    [true] verdict moves the cursor up by exactly one and writes the new
    cursor to the save file.  A process that starts from a save file starts
    at the saved cursor when that is an index of the quest list; a saved
    cursor beyond the last index (completing the last quest saves the
    number of quests) is clamped to the last index. *)
Theorem quest_cursor_monotonic (m : Model) (s : Sys World) :
  0 <= currentQuestIdx m -> len (quests m) < 2 ^ 63 ->
  (forall cs, exists m' s',
      user_commands runtime Render call_then_read cs m s = Some (m', s')
      /\ quests m' = quests m
      /\ currentQuestIdx m <= currentQuestIdx m')
  /\ (forall c, exists m' s',
         user_command runtime Render call_then_read c m s = Some (m', s')
         /\ (currentQuestIdx m' = currentQuestIdx m
             \/ currentQuestIdx m' = currentQuestIdx m + 1))
  /\ (forall out err, exists m' c,
         Update runtime Render call_then_read m (commandResultMsg out err) s = Some ((m', c), s)
         /\ currentQuestIdx m' = currentQuestIdx m
         /\ (c = CmdNil
             \/ exists q,
                  nth_error (quests m) (Z.to_nat (currentQuestIdx m)) = Some q
                  /\ c = CmdCheck q m'))
  /\ Update runtime Render call_then_read m (questCheckMsg (currentQuestIdx m) false) s
     = Some ((m, CmdNil), s)
  /\ (currentQuestIdx m < len (quests m) ->
      exists m' c s',
        Update runtime Render call_then_read m (questCheckMsg (currentQuestIdx m) true) s
        = Some ((m', c), s')
        /\ currentQuestIdx m' = currentQuestIdx m + 1
        /\ (writable s = true ->
            saved s' = Some {| CurrentQuestID := currentQuestIdx m + 1;
                               MsgLog := [] |}))
  /\ (forall qs sv,
         saved s = Some sv ->
         exists m0,
           main_NewModel qs 0 s = Some (m0, s)
           /\ (0 <= CurrentQuestID sv < len qs ->
               currentQuestIdx m0 = CurrentQuestID sv)
           /\ (0 < len qs <= CurrentQuestID sv ->
               currentQuestIdx m0 = len qs - 1)).
Proof.
  intros Hpos Hlen. repeat split.
  - intros cs. apply user_commands_monotone; assumption.
  - intros c.
    destruct (user_command_step c m s Hpos Hlen) as (m' & s' & E & _ & I).
    eauto.
  - intros out err.
    destruct (commandResult_then_check m out err s Hpos)
      as (m' & c & U & _ & I & _ & C).
    exists m', c. split; [assumption|]. split; [assumption|].
    destruct C as [(_ & ->)|(_ & q & Hq & ->)]; eauto.
  - intros Hlt.
    destruct (questCheck_true m (currentQuestIdx m) s)
      as (m' & c & s' & U & I & _ & _ & Sv & _); [lia|assumption|].
    exists m', c, s'. split; [assumption|]. split; [assumption|].
    intros W. rewrite Sv, W. reflexivity.
  - intros qs sv Hs.
    destruct (main_NewModel_cursor qs sv s Hs) as (m0 & E & _ & I).
    exists m0. split; [assumption|]. cbv zeta in I. split; intros Hr.
    + rewrite I.
      destruct (Z.ltb_spec (CurrentQuestID sv) 0); [lia|].
      destruct (Z.leb_spec (len qs) (CurrentQuestID sv)); lia.
    + rewrite I.
      destruct (Z.ltb_spec (CurrentQuestID sv) 0); [lia|].
      destruct (Z.leb_spec (len qs) (CurrentQuestID sv)); lia.
Qed.

End Properties.

(** C1 as stated fails.  Typing [cd /tmp #] makes the probe
    [cd /home/player && cd /tmp # && pwd]; bash reads [# && pwd] as a
    comment, so the probe exits with status 0 and prints nothing.  The
    guard [newDir != ""] then keeps the tracked directory: it is not
    replaced by what the probe printed. *)
Lemma cd_success_without_output_keeps_directory :
  let rt := scripted [("cd /home/player && cd /tmp # && pwd",
                       ok_result EmptyString)] in
  let s := fresh tt None in
  let r := fst (spawn rt (plain_exec (mgr s)
                            (cd_probe "/home/player" "/tmp #")) tt) in
  is_cd (TrimSpace "cd /tmp #") = true
  /\ run_err r = None
  /\ exists s',
       ExecuteCommand rt "cd /tmp #" s = Some ((EmptyString, None), s')
       /\ CurrentDir (mgr s') = "/home/player"
       /\ CurrentDir (mgr s') <> TrimSpace (stdout r).
Proof.
  cbv zeta. split; [reflexivity|]. split; [reflexivity|].
  eexists. split; [vm_compute; reflexivity|]. split; [reflexivity|].
  vm_compute. discriminate.
Qed.

(** [cd hut] from the home directory, in a container where [hut] exists. *)
Lemma cd_tracks_probe_output_witness :
  let rt := scripted [("cd /home/player && cd hut && pwd",
                       ok_result ("/home/player/hut" ++ LF))] in
  let s := fresh tt None in
  let call := plain_exec (mgr s) (cd_probe "/home/player" "hut") in
  let r := fst (spawn rt call (world s)) in
  is_cd (TrimSpace "cd hut") = true
  /\ exists err s',
       ExecuteCommand rt "cd hut" s = Some ((EmptyString, err), s')
       /\ calls s' = (calls s ++ [call])%list
       /\ (run_err r = None ->
           err = None /\
           CurrentDir (mgr s') =
             if String.eqb (TrimSpace (stdout r)) EmptyString
             then "/home/player" else TrimSpace (stdout r))
       /\ (run_err r <> None ->
           CurrentDir (mgr s') = "/home/player" /\
           err = Some (if String.eqb (stderr r) EmptyString
                       then "No such file or directory" else stderr r)).
Proof.
  cbv zeta. split; [reflexivity|].
  exact (cd_tracks_probe_output
           (scripted [("cd /home/player && cd hut && pwd",
                       ok_result ("/home/player/hut" ++ LF))])
           "cd hut" (fresh tt None) eq_refl).
Defined.


(** C8 as stated fails when "trailing separators" are all of them: for the
    target [hut//] and the tracked directory [/home/player/hut] the two
    sides are equal once every trailing [/] is stripped, yet
    [strings.TrimSuffix] removes one [/] only and the condition does not
    pass. *)
Lemma CurrentDirMatch_strips_one_separator :
  let s := relocate "/home/player/hut" (fresh tt None) in
  spec_CurrentDirMatches (Target (WinCondition_ quest_enter_hut_slashes))
    (CurrentDir (mgr s)) = true
  /\ checkPassed (scripted []) quest_enter_hut_slashes
       (NewModel [quest_enter_hut_slashes] 0) s = Some (false, s).
Proof. split; vm_compute; reflexivity. Qed.

(** The target [hut] against the tracked directory [/home/player/hut]. *)
Lemma CurrentDirMatch_verdict_witness :
  let s := relocate "/home/player/hut" (fresh tt None) in
  Type_ (WinCondition_ quest_enter_hut) = CurrentDirMatch
  /\ exists passed,
       checkPassed (scripted []) quest_enter_hut (NewModel [quest_enter_hut] 0) s
       = Some (passed, s)
       /\ (passed = true <->
           TrimSuffix (absolute_target (Target (WinCondition_ quest_enter_hut))) "/"
           = TrimSuffix (CurrentDir (mgr s)) "/").
Proof.
  cbv zeta. split; [reflexivity|].
  exact (CurrentDirMatch_verdict (scripted []) quest_enter_hut
           (NewModel [quest_enter_hut] 0)
           (relocate "/home/player/hut" (fresh tt None)) eq_refl).
Defined.

(** [DirExists hut] judged from the home directory and from [/tmp]. *)
Lemma verdict_ignores_tracked_directory_witness :
  let rt := scripted [("test -d hut && echo yes", ok_result ("yes" ++ LF))] in
  let q := quest_build_hut in
  let m := NewModel [q] 0 in
  let s := fresh tt None in
  (Type_ (WinCondition_ q) <> CurrentDirMatch
   /\ Type_ (WinCondition_ q) <> UserOutputMatch
   /\ Type_ (WinCondition_ q) <> UserOutputContains)
  /\ exists passed s',
       checkPassed rt q m s = Some (passed, s')
       /\ checkPassed rt q m (relocate "/tmp" s) = Some (passed, relocate "/tmp" s')
       /\ runCmd rt (CmdCheck q m) s
          = Some (Some (questCheckMsg (currentQuestIdx m) passed), s')
       /\ runCmd rt (CmdCheck q m) (relocate "/tmp" s)
          = Some (Some (questCheckMsg (currentQuestIdx m) passed), relocate "/tmp" s')
       /\ world (relocate "/tmp" s') = world s'.
Proof.
  cbv zeta.
  assert (N1 : Type_ (WinCondition_ quest_build_hut) <> CurrentDirMatch)
    by (vm_compute; discriminate).
  assert (N2 : Type_ (WinCondition_ quest_build_hut) <> UserOutputMatch)
    by (vm_compute; discriminate).
  assert (N3 : Type_ (WinCondition_ quest_build_hut) <> UserOutputContains)
    by (vm_compute; discriminate).
  split; [auto|].
  exact (verdict_ignores_tracked_directory
           (scripted [("test -d hut && echo yes", ok_result ("yes" ++ LF))])
           quest_build_hut (NewModel [quest_build_hut] 0) (fresh tt None) "/tmp"
           N1 N2 N3).
Defined.

(** C3 as stated fails: a probe that exits with a non-zero status does not
    make the verdict false.  [grep -c goblin notes.txt] prints [0] and exits
    with status 1 when nothing matches; [ExecuteValidation] hands the [0]
    on, and a [CommandOut] quest that expects [0] passes. *)
Lemma failed_probe_can_pass :
  let rt := scripted [("grep -c goblin notes.txt",
                       failed_result "exit status 1" ("0" ++ LF) EmptyString)] in
  let s := fresh tt None in
  let probe := spawn rt (home_exec (mgr s) (Command (WinCondition_ quest_count))) tt in
  run_err (fst probe) = Some "exit status 1"
  /\ exists s', checkPassed rt quest_count (NewModel [quest_count] 0) s
                = Some (true, s').
Proof.
  cbv zeta. split; [reflexivity|]. eexists. vm_compute. reflexivity.
Qed.

(** [DirExists hut] in a container whose every probe fails without output. *)
Lemma validation_never_errors_witness :
  let rt := scripted [] in
  let q := quest_build_hut in
  let s := fresh tt None in
  (Type_ (WinCondition_ q) = DirExists
   /\ forall c, TrimSpace (stdout (fst (spawn rt (home_exec (mgr s) c) (world s))))
                = EmptyString)
  /\ exists s', checkPassed rt q (NewModel [q] 0) s = Some (false, s').
Proof.
  cbv zeta.
  assert (B : forall c,
             TrimSpace (stdout (fst (spawn (scripted [])
                                       (home_exec (mgr (fresh tt None)) c)
                                       (world (fresh tt None)))))
             = EmptyString) by (intro c; reflexivity).
  split; [split; [reflexivity|exact B]|].
  exact (proj2 (proj2 (proj2 (validation_never_errors (scripted []))))
           quest_build_hut (NewModel [quest_build_hut] 0) (fresh tt None)
           (or_introl eq_refl) B).
Defined.

(** C7: the code at a failing input.  Quest 1 asks for the file [map.txt],
    quest 2 for the user list on the screen.  [cat /etc/passwd] succeeds
    while quest 1 is current: quest 1 passes (the file is there) and
    [lastOutput] holds the user list.  The next command, [cd nowhere],
    fails and prints nothing to stdout; the handler leaves [lastOutput]
    alone, the evaluator compares quest 2 with the output of the command
    before, and quest 2 passes. *)
Theorem failed_command_judged_on_stale_output :
  let m0 := NewModel map_then_passwd 0 in
  exists m1 s1 e s1' m2 s2,
    user_command passwd_world plain true "cat /etc/passwd" m0 (fresh tt None)
    = Some (m1, s1)
    /\ currentQuestIdx m1 = 1
    /\ lastOutput m1 = passwd_line
    /\ ExecuteCommand passwd_world "cd nowhere" s1
       = Some ((EmptyString, Some e), s1')
    /\ Contains EmptyString (Expected (WinCondition_ quest_passwd)) = false
    /\ user_command passwd_world plain true "cd nowhere" m1 s1 = Some (m2, s2)
    /\ lastOutput m2 = passwd_line
    /\ currentQuestIdx m2 = 2.
Proof.
  cbv zeta. do 6 eexists.
  split; [vm_compute; reflexivity|].
  split; [reflexivity|]. split; [reflexivity|].
  split; [vm_compute; reflexivity|].
  split; [reflexivity|].
  split; [vm_compute; reflexivity|].
  split; reflexivity.
Qed.

(** C4 as stated fails across a restart.  Completing the only quest of a
    one-quest game moves the cursor to 1 and saves 1; the next process
    reads 1 from the save file, [NewModel] clamps it to the last index 0,
    and the quest that was passed is the current quest again: the next
    command evaluates it again. *)
Lemma completed_game_resumes_at_last_quest :
  let qs := [quest_map] in
  exists m1 s1 m2,
    user_command passwd_world plain true "cat /etc/passwd" (NewModel qs 0)
      (fresh tt None) = Some (m1, s1)
    /\ currentQuestIdx m1 = 1
    /\ saved s1 = save_at 1
    /\ main_NewModel qs 0 s1 = Some (m2, s1)
    /\ currentQuestIdx m2 = 0
    /\ checkWinCondition m2 s1 = Some (CmdCheck quest_map m2, s1).
Proof.
  cbv zeta. do 3 eexists.
  split; [vm_compute; reflexivity|].
  split; [reflexivity|]. split; [reflexivity|].
  split; [vm_compute; reflexivity|].
  split; reflexivity.
Qed.

(** The two-quest game at its start, with a save file that holds cursor 1. *)
Lemma quest_cursor_monotonic_witness :
  let m := NewModel map_then_passwd 0 in
  let s := fresh tt (save_at 1) in
  (0 <= currentQuestIdx m /\ len (quests m) < 2 ^ 63)
  /\ (forall cs, exists m' s',
         user_commands passwd_world plain true cs m s = Some (m', s')
         /\ quests m' = quests m
         /\ currentQuestIdx m <= currentQuestIdx m')
  /\ (exists m0,
         main_NewModel map_then_passwd 0 s = Some (m0, s)
         /\ currentQuestIdx m0 = 1).
Proof.
  cbv zeta.
  assert (H0 : 0 <= currentQuestIdx (NewModel map_then_passwd 0))
    by (vm_compute; discriminate).
  assert (H1 : len (quests (NewModel map_then_passwd 0)) < 2 ^ 63)
    by reflexivity.
  pose proof (quest_cursor_monotonic passwd_world plain true
                (NewModel map_then_passwd 0) (fresh tt (save_at 1)) H0 H1)
    as (A & _ & _ & _ & _ & R).
  split; [split; assumption|]. split; [exact A|].
  destruct (R map_then_passwd {| CurrentQuestID := 1; MsgLog := [] |} eq_refl)
    as (m0 & E & I & _).
  exists m0. split; [exact E|]. apply I. vm_compute.
  split; [discriminate|reflexivity].
Defined.

(** C5.  The code misses the quest-12 change at cursor 12.  The quest file
    numbers the quests from 1 and the cursor counts from 0: with the save
    file at 12 the player has done the quests with the IDs 1 to 12 (the
    [chown] of quest 11 and the [chmod] of quest 12 among them) and the
    process resumes at the quest with the ID 13, as it says itself.  The
    container came back without the owner and the mode those quests had
    set.  Whatever the order in which Go reads the model and starts the
    quest, the start of the process checks the user, runs the [chown] and no
    [chmod]: the directory is not at mode 700 when quest 13 is announced.
    One quest later (save file at 13, resuming at the ID 14) the same start
    does run the [chown] and then the [chmod]. *)
Theorem chmod_not_restored_at_cursor_12 (read_after_call : bool) :
  let id := root_exec the_manager "id glitch" in
  let test := home_exec the_manager "test -d /home/player/.safe_house" in
  let chown := root_exec the_manager "chown glitch /home/player/.safe_house" in
  let chmod := root_exec the_manager "chmod 700 /home/player/.safe_house" in
  (exists m' c s',
     resume sim plain read_after_call (numbered 13) 0
       (fresh restarted (save_at 12)) = Some ((m', c), s')
     /\ currentQuestIdx m' = 12
     /\ option_map ID (nth_error (quests m') 12) = Some 13
     /\ In "Resuming from Quest 13..." (output m')
     /\ calls s' = [id; test; chown]
     /\ safe_house_owned (world s') = true
     /\ safe_house_700 (world s') = false)
  /\ (exists m' c s',
        resume sim plain read_after_call (numbered 14) 0
          (fresh restarted (save_at 13)) = Some ((m', c), s')
        /\ currentQuestIdx m' = 13
        /\ option_map ID (nth_error (quests m') 13) = Some 14
        /\ In "Resuming from Quest 14..." (output m')
        /\ calls s' = [id; test; chown; test; chmod]
        /\ safe_house_owned (world s') = true
        /\ safe_house_700 (world s') = true).
Proof.
  cbv zeta. destruct read_after_call.
  - split; do 3 eexists; (split; [vm_compute; reflexivity|]);
      cbn [currentQuestIdx quests output calls world];
      repeat split; try reflexivity; cbn; auto 20.
  - split; do 3 eexists; (split; [vm_compute; reflexivity|]);
      cbn [currentQuestIdx quests output calls world];
      repeat split; try reflexivity; cbn; auto 20.
Qed.

(** C6 as stated fails.  In a container in which [useradd] fails, the first
    run of [RestoreEnvironment] returns an error and changes nothing; run
    again on the unchanged container it attempts [useradd] again and returns
    the error again.  And in the simulated container, where both runs
    succeed, the second run at cursor 13 runs the [chown] and the [chmod]
    again although the first run had applied both. *)
Lemma second_run_errs_and_repeats_useradd :
  let s := fresh tt None in
  let id := root_exec the_manager "id glitch" in
  let useradd := root_exec the_manager "useradd glitch" in
  let chown := root_exec the_manager "chown glitch /home/player/.safe_house" in
  let chmod := root_exec the_manager "chmod 700 /home/player/.safe_house" in
  (exists e1 s1 e2 s2,
     RestoreEnvironment locked_passwd 11 s = Some (Some e1, s1)
     /\ world s1 = world s
     /\ RestoreEnvironment locked_passwd 11 s1 = Some (Some e2, s2)
     /\ calls s2 = (calls s1 ++ [id; useradd])%list)
  /\ (exists s1 s2,
        RestoreEnvironment sim 13 (fresh restarted None) = Some (None, s1)
        /\ safe_house_owned (world s1) = true
        /\ safe_house_700 (world s1) = true
        /\ RestoreEnvironment sim 13 s1 = Some (None, s2)
        /\ In chown (skipn (List.length (calls s1)) (calls s2))
        /\ In chmod (skipn (List.length (calls s1)) (calls s2))).
Proof.
  cbv zeta. split.
  - do 4 eexists. split; [vm_compute; reflexivity|].
    split; [reflexivity|]. split; [vm_compute; reflexivity|reflexivity].
  - do 2 eexists. split; [vm_compute; reflexivity|].
    split; [reflexivity|]. split; [reflexivity|].
    split; [vm_compute; reflexivity|]. split; cbn; auto 10.
Qed.

(** The simulated container behaves as [HealthyContainer] asks. *)
Lemma sim_is_healthy : HealthyContainer sim the_manager.
Proof.
  constructor.
  - intros [[] [] [] [] []]; reflexivity.
  - intros [[] [] [] [] []]; reflexivity.
  - intros [[] [] [] [] []]; reflexivity.
  - intros [[] [] [] [] []] G; try discriminate G; split; reflexivity.
  - intros [[] [] [] [] []] G; try discriminate G; repeat split; reflexivity.
  - intros [[] [] [] [] []]; reflexivity.
  - intros [[] [] [] [] []]; reflexivity.
  - intros [[] [] [] [] []]; reflexivity.
  - intros [[] [] [] [] []]; reflexivity.
  - intros [[] [] [] [] []]; reflexivity.
  - intros [[] [] [] [] []]; reflexivity.
  - intros [[] [] [] [] []]; reflexivity.
Qed.

(** Cursor 17 in a simulated container without the user [glitch]. *)
Lemma RestoreEnvironment_idempotent_witness :
  let s := fresh pristine (save_at 17) in
  HealthyContainer sim (mgr s)
  /\ exists s1 s2,
       RestoreEnvironment sim 17 s = Some (None, s1)
       /\ RestoreEnvironment sim 17 s1 = Some (None, s2)
       /\ world s2 = world s1
       /\ calls s2 = (calls s1 ++ second_run (mgr s) 17)%list
       /\ ~ In (root_exec (mgr s) "useradd glitch") (second_run (mgr s) 17)
       /\ ~ In (root_exec (mgr s) "usermod -aG sudo glitch")
               (second_run (mgr s) 17)
       /\ Forall (fun call => snd (spawn sim call (world s1)) = world s1)
            (second_run (mgr s) 17).
Proof.
  cbv zeta. split; [exact sim_is_healthy|].
  exact (RestoreEnvironment_idempotent sim 17 (fresh pristine (save_at 17))
           sim_is_healthy).
Defined.

(** The same two runs, computed: the first creates the user, adds it to the
    group and fixes the directory; the second only looks and repeats the
    [chown] and the [chmod]. *)
Example two_runs_in_the_simulated_container :
  exists s1 s2,
    RestoreEnvironment sim 17 (fresh pristine None) = Some (None, s1)
    /\ world s1 = {| glitch := true; glitch_sudo := true; safe_house := true;
                     safe_house_owned := true; safe_house_700 := true |}
    /\ In (root_exec the_manager "useradd glitch") (calls s1)
    /\ RestoreEnvironment sim 17 s1 = Some (None, s2)
    /\ world s2 = world s1.
Proof.
  do 2 eexists. split; [vm_compute; reflexivity|].
  split; [reflexivity|]. split; [cbn; auto|].
  split; [vm_compute; reflexivity|reflexivity].
Qed.

(* ================================================================= *)
(** ** Strings *)

Lemma leading_space_eq (s : string) : leading_space s = leading_space_tests s.
Proof.
  destruct s as [|c1 t1]; [reflexivity|].
  destruct c1 as [[] [] [] [] [] [] [] []];
    try reflexivity;
    destruct t1 as [|c2 [|c3 t3]]; reflexivity.
Qed.

Lemma leading_space_bound (s : string) :
  (leading_space s <= String.length s)%nat.
Proof.
  rewrite leading_space_eq.
  destruct s as [|c1 [|c2 [|c3 t3]]]; cbn [leading_space_tests String.length];
    repeat match goal with
           | |- context [if ?b then _ else _] => destruct b
           end; lia.
Qed.

Lemma leading_space_take (j : nat) (t : string) :
  leading_space t = 0%nat -> leading_space (take j t) = 0%nat.
Proof.
  rewrite !leading_space_eq.
  destruct t as [|c1 [|c2 [|c3 t3]]]; destruct j as [|[|[|j3]]];
    cbn [leading_space_tests take]; try reflexivity;
    repeat match goal with
           | |- context [if ?b then _ else _] => destruct b
           end; auto.
Qed.

Lemma append_assoc (a b c : string) : (a ++ b) ++ c = a ++ (b ++ c).
Proof. induction a as [|x t IH]; cbn; [reflexivity|now rewrite IH]. Qed.

Lemma rev_append_app (s acc : string) : rev_append s acc = rev s ++ acc.
Proof.
  unfold rev. revert acc. induction s as [|c t IH]; intros acc; cbn [rev_append].
  - reflexivity.
  - rewrite (IH (String c acc)), (IH (String c EmptyString)).
    rewrite append_assoc. reflexivity.
Qed.

Lemma rev_cons (c : ascii) (t : string) :
  rev (String c t) = rev t ++ String c EmptyString.
Proof. unfold rev at 1. cbn [rev_append]. apply rev_append_app. Qed.

Lemma app_empty_r (s : string) : s ++ EmptyString = s.
Proof. induction s as [|c t IH]; cbn; [reflexivity|now rewrite IH]. Qed.

Lemma rev_app (a b : string) : rev (a ++ b) = rev b ++ rev a.
Proof.
  induction a as [|c t IH]; cbn [String.append].
  - rewrite app_empty_r. reflexivity.
  - rewrite !rev_cons, IH, append_assoc. reflexivity.
Qed.

Lemma rev_rev (s : string) : rev (rev s) = s.
Proof.
  induction s as [|c t IH]; [reflexivity|].
  rewrite rev_cons, rev_app, IH. reflexivity.
Qed.

Lemma length_app (a b : string) :
  String.length (a ++ b) = (String.length a + String.length b)%nat.
Proof. induction a as [|c t IH]; cbn; [reflexivity|now rewrite IH]. Qed.

Lemma length_rev (s : string) : String.length (rev s) = String.length s.
Proof.
  induction s as [|c t IH]; [reflexivity|].
  rewrite rev_cons, length_app, IH. cbn. lia.
Qed.

Lemma length_take (n : nat) (s : string) :
  String.length (take n s) = Nat.min n (String.length s).
Proof.
  revert s. induction n as [|k IH]; intros [|c t]; cbn; auto.
Qed.

Lemma length_drop (n : nat) (s : string) :
  String.length (drop n s) = (String.length s - n)%nat.
Proof.
  revert s. induction n as [|k IH]; intros [|c t]; cbn; auto.
Qed.

Lemma take_drop (n : nat) (s : string) : take n s ++ drop n s = s.
Proof.
  revert s. induction n as [|k IH]; intros [|c t]; cbn; auto.
  now rewrite IH.
Qed.

Lemma take_app_exact (a b : string) : take (String.length a) (a ++ b) = a.
Proof. induction a as [|c t IH]; cbn; [destruct b; reflexivity|now rewrite IH]. Qed.

Lemma drop_drop (a b : nat) (s : string) : drop a (drop b s) = drop (b + a) s.
Proof.
  revert s. induction b as [|k IH]; intros s; cbn [drop Nat.add].
  - reflexivity.
  - destruct s as [|c t]; [destruct a; reflexivity|apply IH].
Qed.

(** Dropping from the front of the reversed string is cutting the end. *)
Lemma rev_drop_rev (k : nat) (t : string) :
  rev (drop k (rev t)) = take (String.length t - k) t.
Proof.
  assert (H : forall s, rev (drop k s) = take (String.length s - k) (rev s)).
  { intros s.
    rewrite <- (take_drop k s) at 3. rewrite rev_app.
    replace (String.length s - k)%nat with (String.length (rev (drop k s)))
      by (rewrite length_rev, length_drop; reflexivity).
    rewrite take_app_exact. reflexivity. }
  rewrite H, length_rev, rev_rev. reflexivity.
Qed.

Lemma trailing_space_bound (r : string) :
  (trailing_space r <= String.length r)%nat.
Proof.
  destruct r as [|c1 t1]; [apply Nat.le_refl|].
  unfold trailing_space.
  destruct (asciiSpace c1); [cbn; lia|].
  destruct (Nat.eqb_spec (leading_space (rev (take 2 (String c1 t1)))) 2) as [E|_].
  - pose proof (leading_space_bound (rev (take 2 (String c1 t1)))) as B.
    rewrite length_rev, length_take in B. lia.
  - destruct (Nat.eqb_spec (leading_space (rev (take 3 (String c1 t1)))) 3) as [E|_].
    + pose proof (leading_space_bound (rev (take 3 (String c1 t1)))) as B.
      rewrite length_rev, length_take in B. lia.
    + lia.
Qed.

Lemma trim_with_fixed (tok : string -> nat) (fuel : nat) (s : string) :
  tok s = 0%nat -> trim_with tok fuel s = s.
Proof. intros H. destruct fuel; cbn [trim_with]; [|rewrite H]; reflexivity. Qed.

Lemma trim_with_drop (tok : string -> nat) (fuel : nat) (s : string) :
  exists k, trim_with tok fuel s = drop k s.
Proof.
  revert s. induction fuel as [|f IH]; intros s; cbn [trim_with].
  - exists 0%nat. reflexivity.
  - destruct (tok s) as [|n] eqn:E; [exists 0%nat; reflexivity|].
    destruct (IH (drop (S n) s)) as (k & Hk).
    exists (S n + k)%nat. rewrite Hk. apply drop_drop.
Qed.

Lemma trim_with_stops (tok : string -> nat) (fuel : nat) (s : string) :
  (forall x, tok x <= String.length x)%nat ->
  (String.length s <= fuel)%nat ->
  tok (trim_with tok fuel s) = 0%nat.
Proof.
  intros B. revert s. induction fuel as [|f IH]; intros s Hl; cbn [trim_with].
  - pose proof (B s). lia.
  - destruct (tok s) as [|n] eqn:E; [exact E|].
    apply IH. rewrite length_drop. pose proof (B s). lia.
Qed.

(** [TrimSpace] leaves nothing to trim at either end. *)
Lemma TrimSpace_trimmed (s : string) :
  leading_space (TrimSpace s) = 0%nat
  /\ trailing_space (rev (TrimSpace s)) = 0%nat.
Proof.
  unfold TrimSpace, TrimRight.
  set (t := TrimLeft s).
  assert (Lt : leading_space t = 0%nat)
    by (apply trim_with_stops; [apply leading_space_bound|apply Nat.le_refl]).
  destruct (trim_with_drop trailing_space (String.length t) (rev t)) as (k & Hk).
  split.
  - rewrite Hk, rev_drop_rev. apply leading_space_take. exact Lt.
  - rewrite rev_rev. apply trim_with_stops; [apply trailing_space_bound|].
    rewrite length_rev. apply Nat.le_refl.
Qed.

Lemma TrimSpace_twice (s : string) : TrimSpace (TrimSpace s) = TrimSpace s.
Proof.
  destruct (TrimSpace_trimmed s) as [L R].
  set (u := TrimSpace s) in *.
  unfold TrimSpace at 1, TrimRight, TrimLeft.
  rewrite (trim_with_fixed leading_space _ u L).
  rewrite (trim_with_fixed trailing_space _ (rev u) R).
  apply rev_rev.
Qed.

(** What [strings.TrimSpace] returns has no white space left at either
    end, multi-byte white space included, so [strings.TrimSpace] is
    idempotent: trimming again changes nothing. *)
Lemma TrimSpace_idempotent (s : string) :
  leading_space (TrimSpace s) = 0%nat
  /\ trailing_space (rev (TrimSpace s)) = 0%nat
  /\ TrimSpace (TrimSpace s) = TrimSpace s.
Proof.
  destruct (TrimSpace_trimmed s) as [L R].
  split; [exact L|]. split; [exact R|]. apply TrimSpace_twice.
Qed.

(** *** Splitting and joining *)

Lemma prefix_split (p s : string) :
  String.prefix p s = true -> s = p ++ drop (String.length p) s.
Proof.
  revert s. induction p as [|a p IH]; intros s H; cbn [String.length drop].
  - reflexivity.
  - destruct s as [|c t]; cbn [String.prefix] in H; [discriminate|].
    destruct (ascii_dec a c) as [->|_]; [|discriminate].
    cbn [String.append drop]. f_equal. apply IH. exact H.
Qed.

Lemma prefix_length (p s : string) :
  String.prefix p s = true -> (String.length p <= String.length s)%nat.
Proof.
  intros H. rewrite (prefix_split p s H), length_app. lia.
Qed.

Lemma split_aux_nonempty (sep : string) (skip : nat) (cur s : string) :
  split_aux sep skip cur s <> [].
Proof.
  revert skip cur. induction s as [|c t IH]; intros skip cur;
    cbn [split_aux]; [discriminate|].
  destruct skip; [|apply IH].
  destruct (String.prefix sep (String c t)); [discriminate|apply IH].
Qed.

Lemma Join_cons (x : string) (l : list string) (sep : string) :
  l <> [] -> Join (x :: l) sep = x ++ sep ++ Join l sep.
Proof. destruct l; [congruence|reflexivity]. Qed.

Lemma Join_snoc (l : list string) (x sep : string) :
  l <> [] -> Join (l ++ [x]) sep = Join l sep ++ sep ++ x.
Proof.
  induction l as [|a l IH]; intros H; [congruence|].
  destruct l as [|b l].
  - reflexivity.
  - change ((a :: b :: l) ++ [x])%list with (a :: ((b :: l) ++ [x]))%list.
    rewrite Join_cons by (cbn; discriminate).
    rewrite IH by discriminate.
    rewrite (Join_cons a (b :: l)) by discriminate.
    rewrite !append_assoc. reflexivity.
Qed.

(** Joining the pieces with the separator gives the string back. *)
Lemma Join_split_aux (sep : string) (s : string) :
  sep <> EmptyString ->
  forall (skip : nat) (cur : string),
    (skip <= String.length s)%nat ->
    Join (split_aux sep skip cur s) sep = rev cur ++ drop skip s.
Proof.
  intros Hsep. induction s as [|c t IH]; intros skip cur Hs.
  - cbn [String.length] in Hs. assert (skip = 0%nat) by lia. subst skip.
    cbn. rewrite app_empty_r. reflexivity.
  - cbn [split_aux]. destruct skip as [|k].
    + destruct (String.prefix sep (String c t)) eqn:P.
      * rewrite Join_cons by apply split_aux_nonempty.
        pose proof (prefix_length _ _ P) as L. cbn [String.length] in L.
        assert (0 < String.length sep)%nat
          by (destruct sep; [congruence|cbn; lia]).
        rewrite IH by lia.
        cbn [drop]. f_equal.
        change (rev EmptyString) with EmptyString. cbn [String.append].
        transitivity (sep ++ drop (String.length sep) (String c t));
          [|symmetry; apply prefix_split; exact P].
        f_equal. destruct sep as [|a sep']; [congruence|].
        cbn [String.length drop].
        replace (S (String.length sep') - 1)%nat with (String.length sep')
          by lia.
        reflexivity.
      * rewrite IH by lia. rewrite rev_cons, append_assoc. reflexivity.
    + cbn [String.length] in Hs. rewrite IH by lia. reflexivity.
Qed.

Lemma Join_Split (s sep : string) :
  sep <> EmptyString -> Join (Split s sep) sep = s.
Proof.
  intros H. unfold Split. rewrite Join_split_aux by (assumption || apply Nat.le_0_l).
  reflexivity.
Qed.

Lemma last_cons_nonempty {A : Type} (x : A) (l : list A) (d : A) :
  l <> [] -> List.last (x :: l) d = List.last l d.
Proof. destruct l; [congruence|reflexivity]. Qed.

(** A string that ends with a line feed splits into lines of which the last
    is empty. *)
Lemma split_ends_empty (a cur d : string) :
  List.last (split_aux LF 0 cur (a ++ LF)) d = EmptyString.
Proof.
  revert cur. induction a as [|c t IH]; intros cur.
  - reflexivity.
  - cbn [String.append split_aux].
    destruct (String.prefix LF (String c (t ++ LF))).
    + rewrite last_cons_nonempty by apply split_aux_nonempty. apply IH.
    + apply IH.
Qed.

Lemma drop_app_exact (a b : string) : drop (String.length a) (a ++ b) = b.
Proof. induction a as [|c t IH]; cbn; [reflexivity|exact IH]. Qed.

Lemma HasSuffix_app (a b : string) : HasSuffix (a ++ b) b = true.
Proof.
  unfold HasSuffix. rewrite length_app.
  replace (String.length a + String.length b - String.length b)%nat
    with (String.length a) by lia.
  rewrite drop_app_exact, String.eqb_refl.
  destruct (Nat.leb_spec (String.length b) (String.length a + String.length b));
    [reflexivity|lia].
Qed.

Lemma TrimSuffix_app (a b : string) : TrimSuffix (a ++ b) b = a.
Proof.
  unfold TrimSuffix. rewrite HasSuffix_app, length_app.
  replace (String.length a + String.length b - String.length b)%nat
    with (String.length a) by lia.
  apply take_app_exact.
Qed.

Lemma HasSuffix_split (s suf : string) :
  HasSuffix s suf = true ->
  s = take (String.length s - String.length suf) s ++ suf.
Proof.
  unfold HasSuffix. intros H. apply andb_true_iff in H. destruct H as [_ H].
  apply String.eqb_eq in H.
  transitivity (take (String.length s - String.length suf) s
                ++ drop (String.length s - String.length suf) s);
    [symmetry; apply take_drop|f_equal; exact H].
Qed.

(** X13.  The transcript shows a command's output line by line, without
    its final line feed and nothing else lost: the lines [Update] appends,
    joined by line feeds, are the output with one trailing line feed
    removed.  An empty output adds no line. *)
Theorem display_lines_keep_the_output (out : string) :
  Join (display_lines out) LF = TrimSuffix out LF
  /\ (out = EmptyString -> display_lines out = []).
Proof.
  split; [|intros ->; reflexivity].
  assert (Hsep : LF <> EmptyString) by discriminate.
  pose proof (Join_Split out LF Hsep) as J.
  unfold display_lines. cbv zeta.
  assert (Hn : Split out LF <> []) by apply split_aux_nonempty.
  set (l := Split out LF) in *.
  replace (0 <? len l) with true
    by (symmetry; apply Z.ltb_lt; unfold len;
        destruct l; [congruence|cbn [List.length]; lia]).
  cbn [andb].
  destruct (String.eqb_spec (List.last l "x") EmptyString) as [E|N].
  - rewrite (app_removelast_last "x" Hn) in J. rewrite E in J.
    destruct (removelast l) as [|a l'] eqn:R.
    + cbn in J. subst out. reflexivity.
    + rewrite Join_snoc in J by discriminate.
      rewrite app_empty_r in J. rewrite <- J. symmetry. apply TrimSuffix_app.
  - rewrite J. unfold TrimSuffix.
    destruct (HasSuffix out LF) eqn:S; [|reflexivity].
    exfalso. apply N. subst l. unfold Split.
    rewrite (HasSuffix_split out LF S). apply split_ends_empty.
Qed.

(* ================================================================= *)
(** ** More of the engine *)

Section Engine_more.

Context {World : Type}.
Variable runtime : string -> list string -> World -> ExecResult * World.
Variable Render : string -> string.
Variable call_then_read : bool.

Set Default Proof Using "Type".

(** *** [ExecuteCommand], the ordinary branch *)

Lemma ExecuteCommand_plain_eq (command : string) (s : Sys World) :
  is_cd (TrimSpace command) = false ->
  let call := (Runtime (mgr s),
               ["exec"; "-w"; CurrentDir (mgr s); ContainerName (mgr s);
                "bash"; "-c"; command]) in
  let r := fst (spawn runtime call (world s)) in
  ExecuteCommand runtime command s =
  Some (match run_err r with
        | None => (stdout r, None)
        | Some e => (EmptyString,
                     Some (if String.eqb (stderr r) EmptyString
                           then e else stderr r))
        end,
        after_call runtime s call).
Proof.
  intros Hcd. unfold ExecuteCommand. rewrite Hcd. exec_simpl.
  unfold after_call, spawn. cbn [fst snd].
  destruct (runtime _ _ (world s)) as [r w']. cbn [fst snd].
  destruct (run_err r) as [e|]; [|reflexivity].
  destruct (String.eqb (stderr r) EmptyString); reflexivity.
Qed.

(** X1.  A command that is not a directory change runs as one process,
    [exec -w <tracked directory> ... bash -c <command>], with the command
    line as it was handed in (not trimmed); the manager, and with it the
    tracked directory, stays as it was.  The result is stdout when the
    process succeeded; otherwise empty output and an error that carries
    stderr, or the error of the run itself when stderr is empty. *)
Theorem plain_command_runs_as_typed (command : string) (s : Sys World) :
  is_cd (TrimSpace command) = false ->
  let call := (Runtime (mgr s),
               ["exec"; "-w"; CurrentDir (mgr s); ContainerName (mgr s);
                "bash"; "-c"; command]) in
  let r := fst (spawn runtime call (world s)) in
  exists out err s',
    ExecuteCommand runtime command s = Some ((out, err), s')
    /\ mgr s' = mgr s
    /\ calls s' = (calls s ++ [call])%list
    /\ world s' = snd (spawn runtime call (world s))
    /\ (run_err r = None -> out = stdout r /\ err = None)
    /\ (forall e, run_err r = Some e ->
          out = EmptyString
          /\ err = Some (if String.eqb (stderr r) EmptyString
                         then e else stderr r)).
Proof.
  intros Hcd. cbv zeta. rewrite (ExecuteCommand_plain_eq command s Hcd).
  cbv zeta.
  destruct (run_err (fst (spawn runtime _ (world s)))) as [e|].
  - eexists; eexists; eexists. split; [reflexivity|].
    cbn [mgr calls world after_call]. repeat split; try discriminate.
    + inversion H. reflexivity.
  - eexists; eexists; eexists. split; [reflexivity|].
    cbn [mgr calls world after_call]. repeat split; discriminate.
Qed.

(** X2.  Whatever the command, an error never comes with output and never
    moves the tracked directory: when [ExecuteCommand] returns an error,
    the output is empty and the manager is the one it started with. *)
Theorem ExecuteCommand_error_keeps_directory
  (command : string) (s s' : Sys World) (out e : string) :
  ExecuteCommand runtime command s = Some ((out, Some e), s') ->
  out = EmptyString /\ mgr s' = mgr s.
Proof.
  destruct (is_cd (TrimSpace command)) eqn:Hcd.
  - rewrite (ExecuteCommand_cd_eq runtime command s Hcd). cbv zeta.
    destruct (run_err _); intros H; inversion H; subst; auto.
  - rewrite (ExecuteCommand_plain_eq command s Hcd). cbv zeta.
    destruct (run_err _); intros H; inversion H; subst; auto.
Qed.

(** *** What a command line can change in the store *)




Lemma checkPassed_store (q : Quest) (m : Model) (s : Sys World) :
  exists passed s',
    checkPassed runtime q m s = Some (passed, s')
    /\ runCmd runtime (CmdCheck q m) s
       = Some (Some (questCheckMsg (currentQuestIdx m) passed), s')
    /\ mgr s' = mgr s /\ saved s' = saved s /\ writable s' = writable s
    /\ (s' = s \/ exists c, s' = after_call runtime s (home_exec (mgr s) c)).
Proof.
  assert (P : exists passed s',
             checkPassed runtime q m s = Some (passed, s')
             /\ (s' = s
                 \/ exists c, s' = after_call runtime s (home_exec (mgr s) c))).
  { destruct (kind_cases (Type_ (WinCondition_ q)))
      as [T|[T|[T|[T|(T1 & T2 & T3 & T4)]]]].
    1-4: eexists; eexists; split;
      [eapply checkPassed_probe; eauto 10|right; eexists; reflexivity].
    eexists; eexists; split; [apply checkPassed_pure; assumption|left; reflexivity]. }
  destruct P as (passed & s' & E & D). exists passed, s'.
  split; [assumption|]. split; [unfold runCmd, bind; rewrite E; reflexivity|].
  destruct D as [->|(c & ->)]; cbn [mgr saved writable after_call]; auto.
  repeat split; auto. right. eauto.
Qed.

Lemma run_setup_store (cmds : list string) (s : Sys World) :
  exists s',
    run_setup runtime cmds s = Some (tt, s')
    /\ mgr s' = mgr s /\ saved s' = saved s /\ writable s' = writable s
    /\ calls s' = (calls s ++ map (home_exec (mgr s)) cmds)%list.
Proof.
  revert s. induction cmds as [|c rest IH]; intros s; cbn [run_setup map].
  - unfold ret. exists s. rewrite app_nil_r. auto.
  - unfold bind. rewrite ExecuteValidation_eq.
    destruct (IH (after_call runtime s (home_exec (mgr s) c)))
      as (s' & E & M & Sv & W & C).
    exists s'. split; [exact E|].
    cbn [mgr saved writable calls after_call] in M, Sv, W, C.
    rewrite M, Sv, W, C, <- app_assoc. auto.
Qed.






(** X12.  A directory change goes by the trimmed command line alone: blanks
    typed around it make no difference to what [ExecuteCommand] does or
    returns.  (An ordinary command is handed to the shell as it is.) *)
Theorem cd_ignores_surrounding_blanks (command : string) (s : Sys World) :
  is_cd (TrimSpace command) = true ->
  ExecuteCommand runtime command s
  = ExecuteCommand runtime (TrimSpace command) s.
Proof.
  intros Hcd.
  rewrite (ExecuteCommand_cd_eq runtime command s Hcd).
  rewrite (ExecuteCommand_cd_eq runtime (TrimSpace command) s)
    by (rewrite TrimSpace_twice; exact Hcd).
  rewrite TrimSpace_twice. reflexivity.
Qed.


(** *** Evaluation and setup *)

(** X5.  A condition whose type is none of the seven the evaluator knows
    ([Custom] and any misspelt type included) never passes, and judging it
    touches nothing: no process is spawned, the store is as before. *)
Theorem unknown_condition_never_passes (q : Quest) (m : Model) (s : Sys World) :
  let t := Type_ (WinCondition_ q) in
  t <> CommandOut -> t <> DirExists -> t <> FileExists -> t <> FileContains ->
  t <> UserOutputMatch -> t <> UserOutputContains -> t <> CurrentDirMatch ->
  checkPassed runtime q m s = Some (false, s).
Proof.
  intros t N1 N2 N3 N4 N5 N6 N7.
  rewrite checkPassed_pure by assumption. fold t.
  apply String.eqb_neq in N5, N6, N7. rewrite N5, N6, N7. reflexivity.
Qed.

(** X6.  Judging a quest never moves the player and never writes the save
    file: whatever the condition, the evaluation ends with a verdict, the
    manager (tracked directory included) and the save file are as before,
    and at most one process was spawned, as the player, in
    [/home/player]. *)
Theorem evaluation_leaves_session_alone (q : Quest) (m : Model) (s : Sys World) :
  exists passed s',
    checkPassed runtime q m s = Some (passed, s')
    /\ mgr s' = mgr s /\ saved s' = saved s /\ writable s' = writable s
    /\ (calls s' = calls s
        \/ exists c, calls s' = (calls s ++ [home_exec (mgr s) c])%list).
Proof.
  destruct (checkPassed_store q m s) as (passed & s' & E & _ & M & Sv & W & D).
  exists passed, s'. repeat split; try assumption.
  destruct D as [->|(c & ->)]; [left; reflexivity|right; exists c; reflexivity].
Qed.

(** X7.  The setup of a quest runs every setup command once, in the order
    of the quest file, as the player in [/home/player]; a command that
    fails does not stop the ones after it; the closure sends no message and
    leaves the tracked directory and the save file alone.  A quest without
    setup commands gets no closure at all. *)
Theorem quest_setup_runs_every_command (q : Quest) (s : Sys World) :
  (SetupCommands q = [] <-> performQuestSetup q = CmdNil)
  /\ exists s',
       runCmd runtime (CmdSetup q) s = Some (None, s')
       /\ calls s' = (calls s ++ map (home_exec (mgr s)) (SetupCommands q))%list
       /\ mgr s' = mgr s /\ saved s' = saved s.
Proof.
  split.
  - unfold performQuestSetup, len.
    destruct (SetupCommands q) as [|c rest]; cbn [List.length].
    + split; reflexivity.
    + split; [discriminate|].
      destruct (Z.eqb_spec (Z.of_nat (S (List.length rest))) 0) as [E|_];
        [lia|discriminate].
  - destruct (run_setup_store (SetupCommands q) s) as (s' & E & M & Sv & _ & C).
    exists s'. unfold runCmd, bind. rewrite E. unfold ret. auto.
Qed.

(** *** Where a process starts *)

(** X8.  With a quest list that is not empty, the model [main] builds
    always points at a quest, whatever the save file holds and whatever
    [-quest] was given: the cursor is an index of the list.  Without a
    readable save file and without the flag it is 0. *)
Theorem start_cursor_in_range (qs : list Quest) (questFlag : Z) (s : Sys World) :
  qs <> [] ->
  exists m,
    main_NewModel qs questFlag s = Some (m, s)
    /\ quests m = qs
    /\ 0 <= currentQuestIdx m < len qs
    /\ (saved s = None -> questFlag <= 0 -> currentQuestIdx m = 0).
Proof.
  intros Hne.
  assert (Hl : 0 < len qs)
    by (unfold len; destruct qs; [congruence|cbn [List.length]; lia]).
  assert (R : forall k, 0 <= currentQuestIdx (NewModel qs k) < len qs
                        /\ (k = 0 -> currentQuestIdx (NewModel qs k) = 0)).
  { intros k. unfold NewModel. cbn [currentQuestIdx].
    destruct (Z.ltb_spec k 0);
      match goal with
      | |- context [len qs <=? ?c] => destruct (Z.leb_spec (len qs) c)
      end; lia. }
  unfold main_NewModel, bind, LoadState, ret.
  destruct (saved s) as [sv|]; cbn [fst snd];
    (eexists; split; [reflexivity|]); (split; [reflexivity|]);
    (split; [apply R|]).
  - discriminate.
  - intros _ Hf. destruct (Z.ltb_spec 0 questFlag); [lia|]. apply R. reflexivity.
Qed.

(** X9.  With an empty quest list [NewModel] puts the cursor at -1, and the
    first command result then makes [Update] panic: [checkWinCondition]
    indexes the empty list at -1. *)
Theorem empty_quest_list_panics
  (startQuestID : Z) (out : string) (err : error) (s : Sys World) :
  currentQuestIdx (NewModel [] startQuestID) = -1
  /\ Update runtime Render call_then_read (NewModel [] startQuestID)
       (commandResultMsg out err) s = None.
Proof.
  assert (I : currentQuestIdx (NewModel [] startQuestID) = -1).
  { unfold NewModel. cbn [currentQuestIdx]. change (len (@nil Quest)) with 0.
    destruct (Z.ltb_spec startQuestID 0);
      match goal with
      | |- context [0 <=? ?c] => destruct (Z.leb_spec 0 c)
      end; lia. }
  split; [exact I|].
  unfold Update, bind, checkWinCondition.
  destruct err; cbn [quests currentQuestIdx append_output set_lastOutput];
    change (quests (NewModel [] startQuestID)) with (@nil Quest);
    rewrite I; reflexivity.
Qed.

(** X10.  The handler of a verdict goes by the index the verdict carries,
    not by the cursor: a [true] verdict for quest [idx] puts the cursor at
    [idx + 1] and saves [idx + 1], wherever the cursor was, so a verdict
    that arrives late moves the cursor back; a [true] verdict whose index
    is not an index of the quest list makes [Update] panic. *)
Theorem verdict_index_decides_cursor (m : Model) (idx : Z) (s : Sys World) :
  len (quests m) < 2 ^ 63 ->
  (0 <= idx < len (quests m) ->
   exists m' c s',
     Update runtime Render call_then_read m (questCheckMsg idx true) s
     = Some ((m', c), s')
     /\ currentQuestIdx m' = idx + 1
     /\ (writable s = true -> saved_cursor s' = Some (idx + 1)))
  /\ (idx < 0 \/ len (quests m) <= idx ->
      Update runtime Render call_then_read m (questCheckMsg idx true) s = None).
Proof.
  intros Hlen. split.
  - intros Hr.
    destruct (questCheck_true runtime Render call_then_read m idx s Hr Hlen)
      as (m' & c & s' & U & I & _ & _ & Sv & _).
    exists m', c, s'. split; [assumption|]. split; [assumption|].
    intros W. unfold saved_cursor. rewrite Sv, W. reflexivity.
  - intros Hr. unfold Update, bind, index, panic.
    destruct (Z.ltb_spec idx 0) as [_|Hge]; [reflexivity|].
    destruct (nth_error (quests m) (Z.to_nat idx)) eqn:E; [|reflexivity].
    exfalso. assert (N : nth_error (quests m) (Z.to_nat idx) <> None)
      by congruence.
    apply nth_error_Some in N. unfold len in Hr. lia.
Qed.

End Engine_more.

(* ================================================================= *)
(** ** Runtime binding and topology *)

Section Topology_properties.

Context {World : Type}.
Variable runtime : string -> list string -> World -> ExecResult * World.
Variable LookPath : string -> World -> bool.
Variable UserHomeDir : World -> string * error.
Variable MkdirAll : string -> Z -> World -> error * World.
Variable Chmod : string -> Z -> World -> error * World.
Variable Stat_IsNotExist : string -> World -> bool.
Variable RemoveAll : string -> World -> error * World.
Variable PathJoin : list string -> string.

Set Default Proof Using "Type".

Lemma StopContainer_eq (s : Sys World) :
  StopContainer runtime s =
  Some (None, after_call runtime (after_call runtime s (rm_player_call (mgr s)))
                (rm_gateway_call (mgr s))).
Proof. reflexivity. Qed.

Lemma EnsureNetwork_eq (s : Sys World) :
  let r := fst (spawn runtime (inspect_call (mgr s)) (world s)) in
  let s1 := after_call runtime s (inspect_call (mgr s)) in
  let r' := fst (spawn runtime (create_call (mgr s)) (world s1)) in
  EnsureNetwork runtime s =
  match run_err r with
  | None => Some (None, s1)
  | Some _ =>
      Some (match run_err r' with
            | Some e => Some ("failed to create network: " ++ e ++ LF
                              ++ "Output: " ++ combined r')
            | None => None
            end,
            after_call runtime s1 (create_call (mgr s)))
  end.
Proof.
  cbv zeta.
  unfold EnsureNetwork, after_call, inspect_call, create_call, spawn, bind,
    get_mgr, exec_Command, ret.
  cbn [fst snd mgr world calls saved writable].
  destruct (runtime (Runtime (mgr s)) ["network"; "inspect"; NetworkName (mgr s)]
              (world s)) as [r w1].
  cbn [fst snd mgr world calls saved writable].
  destruct (run_err r); [|reflexivity].
  cbn [fst snd mgr world calls saved writable].
  destruct (runtime (Runtime (mgr s))
              ["network"; "create"; "--subnet=10.10.10.0/24"; NetworkName (mgr s)]
              w1) as [r' w2].
  cbn [fst snd mgr world calls saved writable].
  destruct (run_err r'); reflexivity.
Qed.

(** X14.  [EnsureNetwork] creates the network only when inspecting it
    failed.  With a runtime in which inspecting changes nothing and a
    network that was created can be inspected, a call that follows a
    successful call returns no error, spawns the inspection alone and leaves
    the outside world as it was: the network is not created twice. *)
Theorem EnsureNetwork_twice (s s1 : Sys World) :
  (forall w, snd (spawn runtime (inspect_call (mgr s)) w) = w) ->
  (forall w,
      run_err (fst (spawn runtime (create_call (mgr s)) w)) = None ->
      run_err (fst (spawn runtime (inspect_call (mgr s))
                      (snd (spawn runtime (create_call (mgr s)) w)))) = None) ->
  EnsureNetwork runtime s = Some (None, s1) ->
  (calls s1 = (calls s ++ [inspect_call (mgr s)])%list
   \/ (run_err (fst (spawn runtime (inspect_call (mgr s)) (world s))) <> None
       /\ calls s1 = (calls s ++ [inspect_call (mgr s); create_call (mgr s)])%list))
  /\ exists s2,
       EnsureNetwork runtime s1 = Some (None, s2)
       /\ world s2 = world s1
       /\ calls s2 = (calls s1 ++ [inspect_call (mgr s)])%list.
Proof.
  intros Hro Hcr E.
  rewrite EnsureNetwork_eq in E. cbv zeta in E.
  assert (A : mgr s1 = mgr s
              /\ run_err (fst (spawn runtime (inspect_call (mgr s)) (world s1)))
                 = None
              /\ (calls s1 = (calls s ++ [inspect_call (mgr s)])%list
                  \/ (run_err (fst (spawn runtime (inspect_call (mgr s))
                                      (world s))) <> None
                      /\ calls s1 = (calls s ++ [inspect_call (mgr s);
                                                 create_call (mgr s)])%list))).
  { destruct (run_err (fst (spawn runtime (inspect_call (mgr s)) (world s))))
      as [e|] eqn:Ei.
    - destruct (run_err (fst (spawn runtime (create_call (mgr s))
                                (world (after_call runtime s
                                          (inspect_call (mgr s))))))) eqn:Ec;
        inversion E; subst s1.
      cbn [mgr world calls after_call] in *. rewrite Hro in *.
      split; [reflexivity|]. split; [apply Hcr; exact Ec|].
      right. split; [discriminate|]. rewrite <- app_assoc. reflexivity.
    - inversion E; subst s1. cbn [mgr world calls after_call].
      rewrite Hro. split; [reflexivity|]. split; [exact Ei|]. left. reflexivity. }
  destruct A as (M & Ok & C). split; [exact C|].
  rewrite EnsureNetwork_eq. cbv zeta. rewrite M, Ok.
  eexists. split; [reflexivity|]. cbn [world calls after_call].
  rewrite Hro. split; reflexivity.
Qed.

Lemma StartContainer_cases (s : Sys World) :
  exists e s' rest,
    StartContainer runtime UserHomeDir MkdirAll Chmod PathJoin s = Some (e, s')
    /\ calls s' = (calls s ++ [rm_player_call (mgr s); rm_gateway_call (mgr s);
                               inspect_call (mgr s)] ++ rest)%list
    /\ (e = None ->
        CurrentDir (mgr s') = "/home/player"
        /\ same_binding (mgr s) (mgr s')
        /\ exists front homeDir,
             rest = (front ++ [(Runtime (mgr s), gateway_args (mgr s));
                               (Runtime (mgr s),
                                player_args (mgr s)
                                  (PathJoin [homeDir; ".local"; "share";
                                             "goblin-terminal"; "fs"]))])%list
             /\ (front = [] \/ front = [create_call (mgr s)]))
    /\ (e <> None -> mgr s' = mgr s).
Proof.
  unfold StartContainer. unfold bind at 1. rewrite StopContainer_eq.
  set (s2 := after_call runtime (after_call runtime s _) _).
  unfold bind at 1. rewrite EnsureNetwork_eq. cbv zeta.
  change (mgr s2) with (mgr s).
  set (s3 := after_call runtime s2 (inspect_call (mgr s))).
  assert (K : forall (s4 : Sys World) (front : list (string * list string)),
             mgr s4 = mgr s ->
             calls s4 = (calls s ++ [rm_player_call (mgr s);
                                     rm_gateway_call (mgr s);
                                     inspect_call (mgr s)] ++ front)%list ->
             front = [] \/ front = [create_call (mgr s)] ->
             exists e s' rest,
               (bind get_mgr
                  (fun m =>
                     bind (exec_Command runtime (Runtime m) (gateway_args m))
                       (fun g =>
                          match run_err g with
                          | Some e =>
                              ret (Some ("failed to start gateway: " ++ e ++ LF
                                         ++ "Output: " ++ combined g))
                          | None =>
                              bind (host_read UserHomeDir)
                                (fun hd =>
                                   match snd hd with
                                   | Some e =>
                                       ret (Some ("failed to get user home dir: "
                                                  ++ e))
                                   | None =>
                                       bind (host_write
                                               (MkdirAll
                                                  (storage_path PathJoin (fst hd))
                                                  493))
                                         (fun e1 =>
                                            match e1 with
                                            | Some e =>
                                                ret (Some
                                                       ("failed to create local storage directory: "
                                                        ++ e))
                                            | None =>
                                                bind (host_write
                                                        (Chmod
                                                           (storage_path PathJoin
                                                              (fst hd)) 511))
                                                  (fun e2 =>
                                                     match e2 with
                                                     | Some e =>
                                                         ret (Some
                                                                ("failed to chmod local storage directory: "
                                                                 ++ e))
                                                     | None =>
                                                         bind
                                                           (exec_Command runtime
                                                              (Runtime m)
                                                              (player_args m
                                                                 (storage_path
                                                                    PathJoin
                                                                    (fst hd))))
                                                           (fun p =>
                                                              match run_err p with
                                                              | Some e =>
                                                                  ret
                                                                    (Some
                                                                       ("failed to start container: "
                                                                        ++ e ++ LF
                                                                        ++ "Output: "
                                                                        ++ combined p))
                                                              | None =>
                                                                  bind
                                                                    (set_CurrentDir
                                                                       "/home/player")
                                                                    (fun _ =>
                                                                       ret None)
                                                              end)
                                                     end)
                                            end)
                                   end)
                          end))) s4 = Some (e, s')
               /\ calls s' = (calls s ++ [rm_player_call (mgr s);
                                          rm_gateway_call (mgr s);
                                          inspect_call (mgr s)] ++ rest)%list
               /\ (e = None ->
                   CurrentDir (mgr s') = "/home/player"
                   /\ same_binding (mgr s) (mgr s')
                   /\ exists front' homeDir,
                        rest = (front' ++ [(Runtime (mgr s), gateway_args (mgr s));
                                           (Runtime (mgr s),
                                            player_args (mgr s)
                                              (PathJoin [homeDir; ".local"; "share";
                                                         "goblin-terminal"; "fs"]))])%list
                        /\ (front' = [] \/ front' = [create_call (mgr s)]))
               /\ (e <> None -> mgr s' = mgr s)).
  { intros s4 front M4 C4 F.
    unfold bind, get_mgr, exec_Command, host_read, host_write, ret,
      set_CurrentDir, storage_path, moved.
    cbn [fst snd mgr world calls saved writable].
    destruct (runtime (Runtime (mgr s4)) (gateway_args (mgr s4)) (world s4))
      as [g w5]. cbn [fst snd mgr world calls saved writable].
    destruct (run_err g); cbn [fst snd mgr world calls saved writable].
    { eexists; eexists; eexists. split; [reflexivity|].
      cbn [calls mgr]. rewrite C4.
      split; [rewrite <- !app_assoc; reflexivity|].
      split; [discriminate|intros _; exact M4]. }
    destruct (UserHomeDir w5) as [hd he].
    cbn [fst snd mgr world calls saved writable].
    destruct he; cbn [fst snd mgr world calls saved writable].
    { eexists; eexists; eexists. split; [reflexivity|].
      cbn [calls mgr]. rewrite C4.
      split; [rewrite <- !app_assoc; reflexivity|].
      split; [discriminate|intros _; exact M4]. }
    destruct (MkdirAll _ 493 w5) as [e1 w6].
    cbn [fst snd mgr world calls saved writable].
    destruct e1; cbn [fst snd mgr world calls saved writable].
    { eexists; eexists; eexists. split; [reflexivity|].
      cbn [calls mgr]. rewrite C4.
      split; [rewrite <- !app_assoc; reflexivity|].
      split; [discriminate|intros _; exact M4]. }
    destruct (Chmod _ 511 w6) as [e2 w7].
    cbn [fst snd mgr world calls saved writable].
    destruct e2; cbn [fst snd mgr world calls saved writable].
    { eexists; eexists; eexists. split; [reflexivity|].
      cbn [calls mgr]. rewrite C4.
      split; [rewrite <- !app_assoc; reflexivity|].
      split; [discriminate|intros _; exact M4]. }
    destruct (runtime (Runtime (mgr s4)) _ w7) as [p w8].
    cbn [fst snd mgr world calls saved writable].
    destruct (run_err p); cbn [fst snd mgr world calls saved writable].
    { eexists; eexists; eexists. split; [reflexivity|].
      cbn [calls mgr]. rewrite C4.
      split; [rewrite <- !app_assoc; reflexivity|].
      split; [discriminate|intros _; exact M4]. }
    eexists; eexists; eexists. split; [reflexivity|].
    cbn [calls mgr with_CurrentDir CurrentDir]. rewrite C4, M4.
    split; [rewrite <- !app_assoc; reflexivity|].
    split; [|intros N; congruence].
    intros _. split; [reflexivity|]. split; [repeat split|].
    exists front, hd. split; [reflexivity|exact F]. }
  destruct (run_err (fst (spawn runtime (inspect_call (mgr s)) (world s2)))).
  - destruct (run_err (fst (spawn runtime (create_call (mgr s)) (world s3))))
      eqn:Ec.
    + eexists; eexists; exists [create_call (mgr s)].
      split; [reflexivity|]. subst s3 s2. cbn [calls mgr after_call].
      split; [rewrite <- !app_assoc; reflexivity|].
      split; [discriminate|reflexivity].
    + apply (K _ [create_call (mgr s)]); [reflexivity| |auto].
      subst s3 s2. cbn [calls after_call]. rewrite <- !app_assoc. reflexivity.
  - apply (K _ []); [reflexivity| |auto].
    subst s3 s2. cbn [calls after_call]. rewrite <- !app_assoc. reflexivity.
Qed.

Lemma BuildImage_eq (s : Sys World) :
  let r := fst (spawn runtime (build_call (mgr s)) (world s)) in
  BuildImage runtime s =
  Some (match run_err r with
        | Some e => Some ("failed to build image: " ++ e ++ LF
                          ++ "Output: " ++ combined r)
        | None => None
        end, after_call runtime s (build_call (mgr s))).
Proof.
  cbv zeta.
  unfold BuildImage, after_call, build_call, spawn, bind, get_mgr,
    exec_Command, ret.
  cbn [fst snd mgr world calls saved writable].
  destruct (runtime (Runtime (mgr s)) ["build"; "-t"; ImageName (mgr s); "."]
              (world s)) as [r w1].
  cbn [fst snd mgr world calls saved writable].
  destruct (run_err r); reflexivity.
Qed.

(** X15.  [StartContainer] never panics and always begins by removing both
    containers and inspecting the network.  When it returns no error the
    tracked directory is [/home/player] whatever it was and the names and
    the runtime of the manager are as before; what it spawned after the
    inspection is the creation of the network (exactly when the inspection
    failed), then the gateway, then the player container.  The player is
    mounted on the storage directory under the home directory that
    [os.UserHomeDir] reported after the gateway was started, and it is
    started in the world that [MkdirAll] (mode 0755) and then [Chmod] (mode
    0777) of that directory have left.  When [StartContainer] returns an
    error the manager is untouched. *)
Theorem StartContainer_outcome (s : Sys World) :
  let s2 := after_call runtime (after_call runtime s (rm_player_call (mgr s)))
              (rm_gateway_call (mgr s)) in
  let s3 := after_call runtime s2 (inspect_call (mgr s)) in
  let front := match run_err (fst (spawn runtime (inspect_call (mgr s))
                                     (world s2))) with
               | None => []
               | Some _ => [create_call (mgr s)]
               end in
  let s4 := match run_err (fst (spawn runtime (inspect_call (mgr s))
                                  (world s2))) with
            | None => s3
            | Some _ => after_call runtime s3 (create_call (mgr s))
            end in
  let gateway := (Runtime (mgr s), gateway_args (mgr s)) in
  let s5 := after_call runtime s4 gateway in
  let localPath := storage_path PathJoin (fst (UserHomeDir (world s5))) in
  let player := (Runtime (mgr s), player_args (mgr s) localPath) in
  let prepared := snd (Chmod localPath 511
                         (snd (MkdirAll localPath 493 (world s5)))) in
  exists e s' rest,
    StartContainer runtime UserHomeDir MkdirAll Chmod PathJoin s = Some (e, s')
    /\ calls s' = (calls s ++ [rm_player_call (mgr s); rm_gateway_call (mgr s);
                               inspect_call (mgr s)] ++ rest)%list
    /\ (e = None ->
        CurrentDir (mgr s') = "/home/player"
        /\ same_binding (mgr s) (mgr s')
        /\ rest = (front ++ [gateway; player])%list
        /\ snd (UserHomeDir (world s5)) = None
        /\ fst (MkdirAll localPath 493 (world s5)) = None
        /\ fst (Chmod localPath 511 (snd (MkdirAll localPath 493 (world s5))))
           = None
        /\ world s' = snd (spawn runtime player prepared))
    /\ (e <> None -> mgr s' = mgr s).
Proof.
  cbv zeta.
  unfold StartContainer. unfold bind at 1. rewrite StopContainer_eq.
  unfold bind at 1. rewrite EnsureNetwork_eq. cbv zeta.
  set (s2 := after_call runtime (after_call runtime s _) _).
  change (mgr s2) with (mgr s).
  assert (C2 : calls s2 = (calls s ++ [rm_player_call (mgr s);
                                       rm_gateway_call (mgr s)])%list).
  { subst s2. cbn [calls after_call]. rewrite <- app_assoc. reflexivity. }
  assert (M2 : mgr s2 = mgr s) by reflexivity.
  clearbody s2.
  destruct (run_err (fst (spawn runtime (inspect_call (mgr s)) (world s2))))
    as [ei|].
  - destruct (run_err (fst (spawn runtime (create_call (mgr s))
                              (world (after_call runtime s2
                                        (inspect_call (mgr s)))))))
      as [ec|] eqn:Ec.
    { eexists; eexists; exists [create_call (mgr s)].
      unfold ret. split; [reflexivity|]. cbn [calls mgr after_call].
      rewrite C2. split; [rewrite <- !app_assoc; reflexivity|].
      split; [discriminate|intros _; first [exact M2|reflexivity]]. }
    unfold bind, get_mgr, exec_Command, host_read, host_write, ret,
      set_CurrentDir, moved, after_call, spawn.
    cbn [fst snd mgr world calls saved writable]. rewrite M2.
    destruct (run_err (fst (runtime (Runtime (mgr s)) (gateway_args (mgr s)) _)))
      as [eg|].
    { eexists; eexists; eexists. split; [reflexivity|].
      cbn [calls mgr]. rewrite C2.
      split; [rewrite <- !app_assoc; reflexivity|].
      split; [discriminate|intros _; first [exact M2|reflexivity]]. }
    cbn [fst snd mgr world calls saved writable].
    destruct (snd (UserHomeDir _)) as [eh|] eqn:Eh.
    { eexists; eexists; eexists. split; [reflexivity|].
      cbn [calls mgr]. rewrite C2.
      split; [rewrite <- !app_assoc; reflexivity|].
      split; [discriminate|intros _; first [exact M2|reflexivity]]. }
    cbn [fst snd mgr world calls saved writable].
    destruct (fst (MkdirAll _ 493 _)) as [e1|] eqn:E1.
    { eexists; eexists; eexists. split; [reflexivity|].
      cbn [calls mgr]. rewrite C2.
      split; [rewrite <- !app_assoc; reflexivity|].
      split; [discriminate|intros _; first [exact M2|reflexivity]]. }
    cbn [fst snd mgr world calls saved writable].
    destruct (fst (Chmod _ 511 _)) as [e2|] eqn:E2.
    { eexists; eexists; eexists. split; [reflexivity|].
      cbn [calls mgr]. rewrite C2.
      split; [rewrite <- !app_assoc; reflexivity|].
      split; [discriminate|intros _; first [exact M2|reflexivity]]. }
    cbn [fst snd mgr world calls saved writable].
    destruct (run_err (fst (runtime (Runtime (mgr s)) (player_args _ _) _)))
      as [ep|].
    { eexists; eexists; eexists. split; [reflexivity|].
      cbn [calls mgr]. rewrite C2.
      split; [rewrite <- !app_assoc; reflexivity|].
      split; [discriminate|intros _; first [exact M2|reflexivity]]. }
    cbn [fst snd mgr world calls saved writable].
    eexists; eexists; eexists. split; [reflexivity|].
    cbn [calls mgr world with_CurrentDir CurrentDir]. rewrite C2.
    split; [rewrite <- !app_assoc; reflexivity|].
    split; [|intros N; now elim N].
    intros _. split; [reflexivity|]. split; [try rewrite M2; repeat split|].
    repeat split; first [reflexivity|assumption].
  - unfold bind, get_mgr, exec_Command, host_read, host_write, ret,
      set_CurrentDir, moved, after_call, spawn.
    cbn [fst snd mgr world calls saved writable]. rewrite M2.
    destruct (run_err (fst (runtime (Runtime (mgr s)) (gateway_args (mgr s)) _)))
      as [eg|].
    { eexists; eexists; eexists. split; [reflexivity|].
      cbn [calls mgr]. rewrite C2.
      split; [rewrite <- !app_assoc; reflexivity|].
      split; [discriminate|intros _; first [exact M2|reflexivity]]. }
    cbn [fst snd mgr world calls saved writable].
    destruct (snd (UserHomeDir _)) as [eh|] eqn:Eh.
    { eexists; eexists; eexists. split; [reflexivity|].
      cbn [calls mgr]. rewrite C2.
      split; [rewrite <- !app_assoc; reflexivity|].
      split; [discriminate|intros _; first [exact M2|reflexivity]]. }
    cbn [fst snd mgr world calls saved writable].
    destruct (fst (MkdirAll _ 493 _)) as [e1|] eqn:E1.
    { eexists; eexists; eexists. split; [reflexivity|].
      cbn [calls mgr]. rewrite C2.
      split; [rewrite <- !app_assoc; reflexivity|].
      split; [discriminate|intros _; first [exact M2|reflexivity]]. }
    cbn [fst snd mgr world calls saved writable].
    destruct (fst (Chmod _ 511 _)) as [e2|] eqn:E2.
    { eexists; eexists; eexists. split; [reflexivity|].
      cbn [calls mgr]. rewrite C2.
      split; [rewrite <- !app_assoc; reflexivity|].
      split; [discriminate|intros _; first [exact M2|reflexivity]]. }
    cbn [fst snd mgr world calls saved writable].
    destruct (run_err (fst (runtime (Runtime (mgr s)) (player_args _ _) _)))
      as [ep|].
    { eexists; eexists; eexists. split; [reflexivity|].
      cbn [calls mgr]. rewrite C2.
      split; [rewrite <- !app_assoc; reflexivity|].
      split; [discriminate|intros _; first [exact M2|reflexivity]]. }
    cbn [fst snd mgr world calls saved writable].
    eexists; eexists; eexists. split; [reflexivity|].
    cbn [calls mgr world with_CurrentDir CurrentDir]. rewrite C2.
    split; [rewrite <- !app_assoc; reflexivity|].
    split; [|intros N; now elim N].
    intros _. split; [reflexivity|]. split; [try rewrite M2; repeat split|].
    repeat split; first [reflexivity|assumption].
Qed.

(** X16.  [ResetStorage] never panics and never touches the manager.  It
    removes both containers first.  If the home directory is not known or
    the storage directory under the home directory that [os.UserHomeDir]
    reports does not exist, it spawns nothing more, prints nothing and
    removes nothing on the host.  Otherwise it spawns exactly one more
    process, the root container that makes that same directory deletable,
    and then removes that same directory: the host is left as
    [os.RemoveAll] of it leaves it, and the error is nil exactly when
    [os.RemoveAll] succeeded. *)
Theorem ResetStorage_outcome (s : Sys World) :
  let s2 := after_call runtime (after_call runtime s (rm_player_call (mgr s)))
              (rm_gateway_call (mgr s)) in
  let localPath := storage_path PathJoin (fst (UserHomeDir (world s2))) in
  let cleaner := (Runtime (mgr s), cleaner_args (mgr s) localPath) in
  let cleaned := snd (spawn runtime cleaner (world s2)) in
  exists e printed s' rest,
    ResetStorage runtime UserHomeDir Stat_IsNotExist RemoveAll PathJoin s
    = Some ((e, printed), s')
    /\ mgr s' = mgr s
    /\ calls s' = (calls s ++ [rm_player_call (mgr s); rm_gateway_call (mgr s)]
                   ++ rest)%list
    /\ rest = match snd (UserHomeDir (world s2)) with
              | Some _ => []
              | None => if Stat_IsNotExist localPath (world s2) then []
                        else [cleaner]
              end
    /\ (rest = [] -> printed = [] /\ world s' = world s2)
    /\ (rest <> [] ->
        world s' = snd (RemoveAll localPath cleaned)
        /\ (e = None <-> fst (RemoveAll localPath cleaned) = None)
        /\ (printed = []
            <-> run_err (fst (spawn runtime cleaner (world s2))) = None)).
Proof.
  cbv zeta.
  unfold ResetStorage. unfold bind at 1. rewrite StopContainer_eq.
  set (s2 := after_call runtime (after_call runtime s _) _).
  assert (C2 : calls s2 = (calls s ++ [rm_player_call (mgr s);
                                       rm_gateway_call (mgr s)])%list).
  { subst s2. cbn [calls after_call]. rewrite <- app_assoc. reflexivity. }
  assert (M2 : mgr s2 = mgr s) by reflexivity.
  clearbody s2.
  unfold bind, get_mgr, exec_Command, host_read, host_write, ret, moved, spawn.
  cbn [fst snd mgr world calls saved writable].
  destruct (snd (UserHomeDir (world s2))) as [eh|].
  { eexists; eexists; eexists; exists []. split; [reflexivity|].
    split; [exact M2|]. split; [rewrite C2; reflexivity|].
    split; [reflexivity|]. split; [intros _; split; reflexivity|].
    intros N; now elim N. }
  destruct (Stat_IsNotExist _ (world s2)).
  { eexists; eexists; eexists; exists []. split; [reflexivity|].
    split; [exact M2|]. split; [rewrite C2; reflexivity|].
    split; [reflexivity|]. split; [intros _; split; reflexivity|].
    intros N; now elim N. }
  cbn [fst snd mgr world calls saved writable]. rewrite ?M2.
  destruct (fst (RemoveAll _ _)) as [e3|] eqn:E3;
    cbn [fst snd mgr world calls saved writable].
  - eexists; eexists; eexists; eexists. split; [reflexivity|].
    cbn [mgr calls world]. split; [first [exact M2|reflexivity]|].
    split; [rewrite C2, <- app_assoc; reflexivity|].
    split; [reflexivity|]. split; [discriminate|].
    intros _. split; [reflexivity|].
    split; [split; discriminate|].
    destruct (run_err _); split; try discriminate; reflexivity.
  - eexists; eexists; eexists; eexists. split; [reflexivity|].
    cbn [mgr calls world]. split; [first [exact M2|reflexivity]|].
    split; [rewrite C2, <- app_assoc; reflexivity|].
    split; [reflexivity|]. split; [discriminate|].
    intros _. split; [reflexivity|].
    split; [split; reflexivity|].
    destruct (run_err _); split; try discriminate; reflexivity.
Qed.

(** X17.  On a host that knows the home directory and on which removing a
    tree succeeds, [ResetStorage] returns no error whatever the container
    runtime answers: a failed permission fix is printed as a warning and the
    removal goes ahead. *)
Theorem ResetStorage_survives_failed_cleanup (s : Sys World) :
  (forall w, snd (UserHomeDir w) = None) ->
  (forall path w, fst (RemoveAll path w) = None) ->
  exists printed s',
    ResetStorage runtime UserHomeDir Stat_IsNotExist RemoveAll PathJoin s
    = Some ((None, printed), s').
Proof.
  intros Hh Hr.
  unfold ResetStorage. unfold bind at 1. rewrite StopContainer_eq.
  set (s2 := after_call runtime (after_call runtime s _) _). clearbody s2.
  unfold bind, get_mgr, exec_Command, host_read, host_write, ret, moved.
  cbn [fst snd mgr world calls saved writable].
  rewrite Hh.
  destruct (Stat_IsNotExist _ (world s2)).
  { eexists; eexists; reflexivity. }
  cbn [fst snd mgr world calls saved writable].
  rewrite Hr.
  eexists; eexists; reflexivity.
Qed.

(** X18.  [NewManager] fails exactly when neither [podman] nor [docker] is
    on the path, and then returns no manager.  Otherwise it returns no error
    and a manager bound to [podman] whenever [podman] is found, also when
    [docker] is there too, with the tracked directory at [/home/player] and
    the gateway named after the container. *)
Theorem NewManager_binding (imageName containerName : string) (w : World) :
  let r := fst (NewManager LookPath imageName containerName w) in
  (snd r <> None <-> (LookPath "podman" w = false /\ LookPath "docker" w = false))
  /\ (snd r <> None <-> fst r = None)
  /\ (forall m, fst r = Some m ->
        Runtime m = (if LookPath "podman" w then "podman" else "docker")
        /\ CurrentDir m = "/home/player"
        /\ ImageName m = imageName
        /\ ContainerName m = containerName
        /\ GatewayName m = containerName ++ "_gateway"
        /\ NetworkName m = "goblin_net").
Proof.
  cbv zeta. unfold NewManager.
  destruct (LookPath "podman" w); [|destruct (LookPath "docker" w)];
    cbn [negb fst snd].
  - split; [split; [intros H; now elim H|intros [H _]; discriminate]|].
    split; [split; [intros H; now elim H|discriminate]|].
    intros m E. inversion E. cbn. repeat split.
  - split; [split; [intros H; now elim H|intros [_ H]; discriminate]|].
    split; [split; [intros H; now elim H|discriminate]|].
    intros m E. inversion E. cbn. repeat split.
  - split; [split; [auto|discriminate]|].
    split; [split; [reflexivity|discriminate]|].
    intros m E. discriminate.
Qed.

(** X19.  The closure of [Model.Init] never panics and always answers with a
    [containerReadyMsg].  It builds the image first; if the build fails it
    spawns nothing else and reports the error.  It reports no error only
    with the tracked directory at [/home/player]; when it reports an error
    the manager is as it was. *)
Theorem Init_run_outcome (s : Sys World) :
  exists e s' rest,
    Init_run runtime UserHomeDir MkdirAll Chmod PathJoin s
    = Some (containerReadyMsg e, s')
    /\ calls s' = (calls s ++ build_call (mgr s) :: rest)%list
    /\ (run_err (fst (spawn runtime (build_call (mgr s)) (world s))) <> None ->
        rest = [] /\ e <> None)
    /\ (e = None -> CurrentDir (mgr s') = "/home/player")
    /\ (e <> None -> mgr s' = mgr s).
Proof.
  unfold Init_run. unfold bind at 1. rewrite BuildImage_eq. cbv zeta.
  destruct (run_err (fst (spawn runtime (build_call (mgr s)) (world s)))) eqn:Eb.
  - eexists; eexists; exists []. unfold ret. split; [reflexivity|].
    cbn [calls mgr after_call]. split; [reflexivity|].
    split; [intros _; split; [reflexivity|discriminate]|].
    split; [discriminate|reflexivity].
  - unfold bind.
    destruct (StartContainer_cases (after_call runtime s (build_call (mgr s))))
      as (e & s' & rest & E & C & Ok & Ko).
    rewrite E. cbn [calls mgr after_call] in C, Ko.
    destruct e as [e|]; unfold ret.
    + eexists; eexists; eexists. split; [reflexivity|].
      split; [rewrite C, <- app_assoc; reflexivity|].
      split; [intros N; now elim N|].
      split; [discriminate|intros _; apply Ko; discriminate].
    + eexists; eexists; eexists. split; [reflexivity|].
      split; [rewrite C, <- app_assoc; reflexivity|].
      split; [intros N; now elim N|].
      split; [intros _; apply Ok; reflexivity|intros N; now elim N].
Qed.

End Topology_properties.

(* ================================================================= *)
(** ** The keyboard *)

Lemma prefix_app (a b : string) : String.prefix a (a ++ b) = true.
Proof.
  induction a as [|c t IH]; cbn; [destruct b; reflexivity|].
  destruct (ascii_dec c c) as [_|N]; [exact IH|now elim N].
Qed.

Lemma Replace1_prefix (old new rest : string) :
  Replace1 (old ++ rest) old new = new ++ rest.
Proof.
  assert (E : forall x, Replace1 x old new =
                        if String.prefix old x
                        then new ++ drop (String.length old) x
                        else match x with
                             | EmptyString => EmptyString
                             | String c t => String c (Replace1 t old new)
                             end) by (intros [|c t]; reflexivity).
  rewrite E, prefix_app, drop_app_exact. reflexivity.
Qed.

(** X20.  The prompt shows a tracked directory that begins with
    [/home/player] with that prefix replaced by a tilde and the rest as it
    is, also when the prefix ends inside a name; any other directory is
    shown unchanged. *)
Theorem displayPath_home :
  (forall rest, displayPath ("/home/player" ++ rest) = "~" ++ rest)
  /\ (forall d, HasPrefix d "/home/player" = false -> displayPath d = d).
Proof.
  split.
  - intros rest. unfold displayPath, HasPrefix.
    rewrite prefix_app. apply Replace1_prefix.
  - intros d H. unfold displayPath. rewrite H. reflexivity.
Qed.

Lemma take_all (s : string) : take (String.length s) s = s.
Proof. induction s as [|c t IH]; cbn; [reflexivity|now rewrite IH]. Qed.

Lemma take_take (a b : nat) (s : string) :
  (a <= b)%nat -> take a (take b s) = take a s.
Proof.
  revert b s. induction a as [|k IH]; intros b s H.
  - destruct (take b s); destruct s; reflexivity.
  - destruct b as [|b]; [lia|]. destruct s as [|c t]; [reflexivity|].
    cbn. rewrite IH by lia. reflexivity.
Qed.

Lemma len_snoc {A : Type} (l : list A) (x : A) : len (l ++ [x]) = len l + 1.
Proof. unfold len. rewrite List.length_app. cbn. lia. Qed.

Section Keyboard_properties.

Context {World : Type}.
Variable runtime : string -> list string -> World -> ExecResult * World.

Set Default Proof Using "Type".

Lemma with_input_same (t : Terminal) : with_input (input t) t = t.
Proof. destruct t; reflexivity. Qed.

Lemma index_state {A : Type} (l : list A) (i : Z) (a : A) (s s' : Sys World) :
  index l i s = Some (a, s') -> s' = s.
Proof.
  unfold index, panic, ret. destruct (i <? 0); [discriminate|].
  destruct (nth_error l (Z.to_nat i)); inversion 1; reflexivity.
Qed.

(** X21.  A key press reaches the container runtime only to quit: every key
    leaves the store as it is, except Ctrl-C and Esc once the containers are
    up, which remove both containers, leave the terminal as it is and return
    the quit command.  Before the containers are up no key changes the
    terminal. *)
Theorem keys_reach_the_runtime_only_to_quit
  (t t' : Terminal) (k : Key) (c : KeyCmd) (s s' : Sys World) :
  UpdateKey runtime t k s = Some ((t', c), s') ->
  (ready (model t) = false -> t' = t /\ s' = s)
  /\ (s' = s
      \/ (ready (model t) = true /\ (k = KeyCtrlC \/ k = KeyEsc)
          /\ c = Run CmdQuit /\ t' = t
          /\ s' = after_call runtime
                    (after_call runtime s (rm_player_call (mgr s)))
                    (rm_gateway_call (mgr s)))).
Proof.
  unfold UpdateKey. intros E.
  destruct (ready (model t)); cbn [negb] in E.
  - split; [discriminate|].
    destruct k.
    + right. unfold bind in E. rewrite StopContainer_eq in E.
      inversion E. auto 7.
    + right. unfold bind in E. rewrite StopContainer_eq in E.
      inversion E. auto 7.
    + left. cbv zeta in E. unfold bind, get_mgr, ret in E.
      repeat match type of E with
             | context [if ?b then _ else _] => destruct b
             end; inversion E; reflexivity.
    + left. destruct (0 <? historyIdx t); [|inversion E; reflexivity].
      cbv zeta in E.
      destruct ((0 <=? add_int (historyIdx t) (-1))
                && (add_int (historyIdx t) (-1) <? len (history t)));
        [|inversion E; reflexivity].
      unfold bind in E.
      destruct (index (history t) (add_int (historyIdx t) (-1)) s)
        as [[h s1]|] eqn:Ei; [|discriminate].
      apply index_state in Ei. inversion E. congruence.
    + left. destruct (historyIdx t <? len (history t));
        [|inversion E; reflexivity].
      cbv zeta in E.
      destruct (add_int (historyIdx t) 1 =? len (history t));
        [inversion E; reflexivity|].
      unfold bind in E.
      destruct (index (history t) (add_int (historyIdx t) 1) s)
        as [[h s1]|] eqn:Ei; [|discriminate].
      apply index_state in Ei. inversion E. congruence.
    + left. unfold ret in E.
      destruct (0 <? String.length (input t))%nat; inversion E; reflexivity.
    + left. inversion E; reflexivity.
    + left. inversion E; reflexivity.
    + left. inversion E; reflexivity.
  - split; [|left]; destruct k; inversion E; auto.
Qed.

(** X22.  The only key that starts a command in the container is Enter, with
    the containers up.  The command is the input line trimmed of white
    space; it is not empty and not one of the built-ins [exit], [help] and
    [history]; it is the last entry of the history, and the input line is
    empty afterwards. *)
Theorem only_Enter_starts_a_command
  (t t' : Terminal) (k : Key) (cmd : string) (s s' : Sys World) :
  UpdateKey runtime t k s = Some ((t', Run (CmdExec cmd)), s') ->
  k = KeyEnter /\ ready (model t) = true
  /\ cmd = TrimSpace (input t)
  /\ cmd <> EmptyString /\ cmd <> "exit" /\ cmd <> "help" /\ cmd <> "history"
  /\ history t' = (history t ++ [cmd])%list
  /\ historyIdx t' = len (history t')
  /\ input t' = EmptyString.
Proof.
  unfold UpdateKey. intros E.
  destruct (ready (model t)); cbn [negb] in E;
    [|destruct k; inversion E].
  destruct k.
  - unfold bind in E. rewrite StopContainer_eq in E. inversion E.
  - unfold bind in E. rewrite StopContainer_eq in E. inversion E.
  - cbv zeta in E. unfold bind, get_mgr, ret in E.
    destruct (String.eqb_spec (TrimSpace (input t)) "exit") as [|N1];
      [inversion E|].
    destruct (String.eqb_spec (TrimSpace (input t)) EmptyString) as [|N2];
      [inversion E|].
    destruct (String.eqb_spec (TrimSpace (input t)) "help") as [|N3];
      [inversion E|].
    destruct (String.eqb_spec (TrimSpace (input t)) "history") as [|N4];
      [inversion E|].
    cbn [negb] in E. inversion E. cbn [history historyIdx input].
    repeat split; auto.
  - destruct (0 <? historyIdx t); [|inversion E].
    cbv zeta in E.
    destruct ((0 <=? add_int (historyIdx t) (-1))
              && (add_int (historyIdx t) (-1) <? len (history t)));
      [|inversion E].
    unfold bind in E.
    destruct (index (history t) (add_int (historyIdx t) (-1)) s)
      as [[h s1]|]; inversion E.
  - destruct (historyIdx t <? len (history t)); [|inversion E].
    cbv zeta in E.
    destruct (add_int (historyIdx t) 1 =? len (history t)); [inversion E|].
    unfold bind in E.
    destruct (index (history t) (add_int (historyIdx t) 1) s)
      as [[h s1]|]; inversion E.
  - unfold ret in E.
    destruct (0 <? String.length (input t))%nat; inversion E.
  - inversion E.
  - inversion E.
  - inversion E.
Qed.

Lemma UpdateKey_step (t : Terminal) (k : Key) (s : Sys World) :
  0 <= historyIdx t <= len (history t) ->
  len (history t) < 2 ^ 63 ->
  exists t' c s' more,
    UpdateKey runtime t k s = Some ((t', c), s')
    /\ 0 <= historyIdx t' <= len (history t')
    /\ history t' = (history t ++ more)%list
    /\ (List.length more <= 1)%nat
    /\ Forall (fun h => h <> EmptyString /\ TrimSpace h = h) more.
Proof.
  intros I B.
  assert (Same : forall (c : KeyCmd) (s' : Sys World),
             exists t' c' s'' more,
               Some ((t, c), s') = Some ((t', c'), s'')
               /\ 0 <= historyIdx t' <= len (history t')
               /\ history t' = (history t ++ more)%list
               /\ (List.length more <= 1)%nat
               /\ Forall (fun h => h <> EmptyString /\ TrimSpace h = h) more).
  { intros c s'. exists t, c, s', []. rewrite app_nil_r.
    repeat split; auto; try lia. }
  assert (Edit : forall i (c : KeyCmd) (s' : Sys World),
             exists t' c' s'' more,
               Some ((with_input i t, c), s') = Some ((t', c'), s'')
               /\ 0 <= historyIdx t' <= len (history t')
               /\ history t' = (history t ++ more)%list
               /\ (List.length more <= 1)%nat
               /\ Forall (fun h => h <> EmptyString /\ TrimSpace h = h) more).
  { intros i c s'. exists (with_input i t), c, s', []. rewrite app_nil_r.
    cbn [with_input history historyIdx].
    repeat split; auto; try lia. }
  assert (Move : forall m i j (c : KeyCmd) (s' : Sys World),
             0 <= j <= len (history t) ->
             exists t' c' s'' more,
               Some (({| model := m; input := i; history := history t;
                         historyIdx := j |}, c), s') = Some ((t', c'), s'')
               /\ 0 <= historyIdx t' <= len (history t')
               /\ history t' = (history t ++ more)%list
               /\ (List.length more <= 1)%nat
               /\ Forall (fun h => h <> EmptyString /\ TrimSpace h = h) more).
  { intros m i j c s' J. eexists; eexists; eexists; exists [].
    split; [reflexivity|]. rewrite app_nil_r. cbn [history historyIdx].
    repeat split; auto; try lia. }
  unfold UpdateKey.
  destruct (ready (model t)); cbn [negb]; [|destruct k; apply Same].
  destruct k.
  - unfold bind. rewrite StopContainer_eq. apply Same.
  - unfold bind. rewrite StopContainer_eq. apply Same.
  - cbv zeta. unfold bind, get_mgr, ret.
    set (cmd := TrimSpace (input t)).
    destruct (String.eqb_spec cmd EmptyString) as [E0|N0]; cbn [negb].
    + assert (Q : forall m (c : KeyCmd) (s' : Sys World),
                 exists t' c' s'' more,
                   Some (({| model := m; input := EmptyString;
                             history := history t;
                             historyIdx := historyIdx t |}, c), s')
                   = Some ((t', c'), s'')
                   /\ 0 <= historyIdx t' <= len (history t')
                   /\ history t' = (history t ++ more)%list
                   /\ (List.length more <= 1)%nat
                   /\ Forall (fun h => h <> EmptyString /\ TrimSpace h = h) more)
        by (intros; apply Move; exact I).
      destruct (String.eqb cmd "exit"); [apply Q|].
      destruct (String.eqb cmd "help"); [apply Q|].
      destruct (String.eqb cmd "history"); apply Q.
    + assert (Q : forall m (c : KeyCmd) (s' : Sys World),
                 exists t' c' s'' more,
                   Some (({| model := m; input := EmptyString;
                             history := (history t ++ [cmd])%list;
                             historyIdx := len (history t ++ [cmd]) |}, c), s')
                   = Some ((t', c'), s'')
                   /\ 0 <= historyIdx t' <= len (history t')
                   /\ history t' = (history t ++ more)%list
                   /\ (List.length more <= 1)%nat
                   /\ Forall (fun h => h <> EmptyString /\ TrimSpace h = h) more).
      { intros m c s'. eexists; eexists; eexists; exists [cmd].
        split; [reflexivity|]. cbn [history historyIdx].
        split; [rewrite len_snoc; unfold len; lia|].
        split; [reflexivity|]. split; [cbn; lia|].
        constructor; [|constructor].
        split; [exact N0|apply TrimSpace_twice]. }
      destruct (String.eqb cmd "exit"); [apply Q|].
      destruct (String.eqb cmd "help"); [apply Q|].
      destruct (String.eqb cmd "history"); apply Q.
  - destruct (Z.ltb_spec 0 (historyIdx t)) as [P|_]; [|apply Same].
    cbv zeta. rewrite add_int_small by lia.
    destruct (Z.leb_spec 0 (historyIdx t + -1)) as [_|]; [|lia].
    destruct (Z.ltb_spec (historyIdx t + -1) (len (history t))) as [_|]; [|lia].
    cbn [andb].
    destruct (index_in_range (history t) (historyIdx t + -1) s) as (h & _ & Ei);
      [lia|].
    unfold bind. rewrite Ei. apply Move. lia.
  - destruct (Z.ltb_spec (historyIdx t) (len (history t))) as [P|_];
      [|apply Same].
    cbv zeta. rewrite add_int_small by lia.
    destruct (Z.eqb_spec (historyIdx t + 1) (len (history t))) as [_|N].
    + apply Move. lia.
    + destruct (index_in_range (history t) (historyIdx t + 1) s) as (h & _ & Ei);
        [lia|].
      unfold bind. rewrite Ei. apply Move. lia.
  - destruct (0 <? String.length (input t))%nat; [apply Edit|apply Same].
  - apply Edit.
  - apply Edit.
  - apply Same.
Qed.

(** X23.  The history index never leaves the history.  From a terminal with
    [0 <= historyIdx <= len(history)], any run of key presses is handled
    without a panic and ends in a terminal with the index in that range
    again; the history only grows, by at most one entry a key, and each new
    entry is a non-empty command without surrounding white space. *)
Theorem history_index_stays_in_range
  (ks : list Key) (t : Terminal) (s : Sys World) :
  0 <= historyIdx t <= len (history t) ->
  len (history t) + len ks < 2 ^ 63 ->
  exists t' s' more,
    press runtime ks t s = Some (t', s')
    /\ 0 <= historyIdx t' <= len (history t')
    /\ history t' = (history t ++ more)%list
    /\ (List.length more <= List.length ks)%nat
    /\ Forall (fun h => h <> EmptyString /\ TrimSpace h = h) more.
Proof.
  revert t s. induction ks as [|k rest IH]; intros t s I B.
  - exists t, s, []. rewrite app_nil_r. cbn.
    repeat split; auto; lia.
  - assert (L : len (k :: rest) = len rest + 1) by (unfold len; cbn [List.length]; lia).
    destruct (UpdateKey_step t k s I) as (t1 & c & s1 & m1 & E1 & I1 & H1 & L1 & F1);
      [unfold len in *; lia|].
    destruct (IH t1 s1 I1) as (t2 & s2 & m2 & E2 & I2 & H2 & L2 & F2).
    { rewrite H1. unfold len in *. rewrite List.length_app. lia. }
    exists t2, s2, (m1 ++ m2)%list.
    cbn [press]. unfold bind. rewrite E1. cbn [fst].
    split; [exact E2|]. split; [exact I2|].
    split; [rewrite H2, H1, <- app_assoc; reflexivity|].
    split; [rewrite List.length_app; cbn [List.length]; lia|].
    apply Forall_app. split; assumption.
Qed.

(** X24.  With the containers up, Enter followed by Up brings the command
    back: the input line is then the command that Enter recorded, that is
    the line that was typed with its surrounding white space removed.  No
    process is spawned by the two keys. *)
Theorem Up_recalls_the_last_command (t : Terminal) (s : Sys World) :
  ready (model t) = true ->
  TrimSpace (input t) <> EmptyString ->
  len (history t) + 1 < 2 ^ 63 ->
  exists t',
    press runtime [KeyEnter; KeyUp] t s = Some (t', s)
    /\ input t' = TrimSpace (input t)
    /\ history t' = (history t ++ [TrimSpace (input t)])%list
    /\ historyIdx t' = len (history t).
Proof.
  intros R N B.
  assert (Up : forall m,
             ready m = true ->
             UpdateKey runtime
               {| model := m; input := EmptyString;
                  history := (history t ++ [TrimSpace (input t)])%list;
                  historyIdx := len (history t ++ [TrimSpace (input t)]) |}
               KeyUp s
             = Some (({| model := m; input := TrimSpace (input t);
                         history := (history t ++ [TrimSpace (input t)])%list;
                         historyIdx := len (history t) |}, Run CmdNil), s)).
  { intros m Rm. unfold UpdateKey. cbn [model input history historyIdx].
    rewrite Rm. cbn [negb]. rewrite len_snoc.
    assert (P : 0 <= len (history t)) by (unfold len; lia).
    destruct (Z.ltb_spec 0 (len (history t) + 1)) as [_|]; [|lia].
    cbv zeta. rewrite add_int_small by lia.
    replace (len (history t) + 1 + -1) with (len (history t)) by lia.
    destruct (Z.leb_spec 0 (len (history t))) as [_|]; [|lia].
    destruct (Z.ltb_spec (len (history t)) (len (history t) + 1)) as [_|]; [|lia].
    cbn [andb]. unfold bind, index.
    destruct (Z.ltb_spec (len (history t)) 0) as [|_]; [lia|].
    unfold len. rewrite Nat2Z.id, nth_error_app2 by lia.
    rewrite Nat.sub_diag. reflexivity. }
  cbn [press]. unfold bind at 1.
  unfold UpdateKey at 1. rewrite R. cbn [negb]. cbv zeta.
  unfold bind at 1. unfold get_mgr at 1.
  destruct (String.eqb_spec (TrimSpace (input t)) EmptyString) as [E|_];
    [contradiction|].
  cbn [negb].
  destruct (String.eqb (TrimSpace (input t)) "exit").
  { unfold ret at 1, with_model. cbn [fst model input history historyIdx].
    unfold bind. rewrite Up by (cbn [append_output ready]; exact R).
    eexists. split; [reflexivity|]. cbn [input history historyIdx]. auto. }
  destruct (String.eqb (TrimSpace (input t)) "help").
  { unfold ret at 1, with_model. cbn [fst model input history historyIdx].
    unfold bind. rewrite Up by (cbn [append_output ready]; exact R).
    eexists. split; [reflexivity|]. cbn [input history historyIdx]. auto. }
  destruct (String.eqb (TrimSpace (input t)) "history").
  { unfold ret at 1, with_model. cbn [fst model input history historyIdx].
    unfold bind. rewrite Up by (cbn [append_output ready]; exact R).
    eexists. split; [reflexivity|]. cbn [input history historyIdx]. auto. }
  unfold ret at 1. cbn [fst model input history historyIdx].
  unfold bind. rewrite Up by (cbn [append_output ready]; exact R).
  eexists. split; [reflexivity|]. cbn [input history historyIdx]. auto.
Qed.

Lemma press_backspaces (n : nat) (t : Terminal) (s : Sys World) :
  ready (model t) = true ->
  (n <= String.length (input t))%nat ->
  press runtime (List.repeat KeyBackspace n) t s
  = Some (with_input (take (String.length (input t) - n) (input t)) t, s).
Proof.
  revert t. induction n as [|k IH]; intros t R L.
  - cbn [List.repeat press]. rewrite Nat.sub_0_r, take_all, with_input_same.
    reflexivity.
  - cbn [List.repeat press]. unfold bind, UpdateKey. rewrite R. cbn [negb].
    destruct (Nat.ltb_spec 0 (String.length (input t))) as [_|]; [|lia].
    unfold ret. cbn [fst].
    rewrite IH.
    + cbn [with_input input model history historyIdx].
      rewrite length_take, take_take.
      * replace (Nat.min (String.length (input t) - 1) (String.length (input t))
                 - k)%nat with (String.length (input t) - S k)%nat by lia.
        reflexivity.
      * lia.
    + exact R.
    + cbn [with_input input]. rewrite length_take. lia.
Qed.

(** X25.  Backspace removes one byte of the input line, so with the
    containers up, typing a text and pressing Backspace once for each of its
    bytes gives back the terminal as it was, and spawns nothing. *)
Theorem Backspace_undoes_typing (text : string) (t : Terminal) (s : Sys World) :
  ready (model t) = true ->
  press runtime (KeyRunes text :: List.repeat KeyBackspace (String.length text))
    t s = Some (t, s).
Proof.
  intros R. cbn [press]. unfold bind. unfold UpdateKey at 1.
  rewrite R. cbn [negb]. unfold ret. cbn [fst].
  rewrite press_backspaces.
  - unfold with_input. cbn [input model history historyIdx].
    rewrite length_app.
    replace (String.length (input t) + String.length text
             - String.length text)%nat with (String.length (input t)) by lia.
    rewrite take_app_exact. destruct t; reflexivity.
  - exact R.
  - unfold with_input. cbn [input]. rewrite length_app. lia.
Qed.

End Keyboard_properties.

(* ================================================================= *)
(** ** Worked examples *)

Lemma plain_command_runs_as_typed_witness :
  let rt := scripted [("ls", ok_result ("map.txt" ++ LF))] in
  let s := fresh tt None in
  let call := (Runtime (mgr s),
               ["exec"; "-w"; CurrentDir (mgr s); ContainerName (mgr s);
                "bash"; "-c"; " ls"]) in
  let r := fst (spawn rt call (world s)) in
  is_cd (TrimSpace " ls") = false
  /\ exists out err s',
       ExecuteCommand rt " ls" s = Some ((out, err), s')
       /\ mgr s' = mgr s
       /\ calls s' = (calls s ++ [call])%list
       /\ world s' = snd (spawn rt call (world s))
       /\ (run_err r = None -> out = stdout r /\ err = None)
       /\ (forall e, run_err r = Some e ->
             out = EmptyString
             /\ err = Some (if String.eqb (stderr r) EmptyString
                            then e else stderr r)).
Proof.
  cbv zeta. split; [reflexivity|].
  exact (plain_command_runs_as_typed
           (scripted [("ls", ok_result ("map.txt" ++ LF))]) " ls"
           (fresh tt None) eq_refl).
Defined.

Lemma ExecuteCommand_error_keeps_directory_witness :
  let rt := scripted [] in
  let s := relocate "/home/player/hut" (fresh tt None) in
  let s' := after_call rt s
              (plain_exec (mgr s) (cd_probe "/home/player/hut" "nowhere")) in
  ExecuteCommand rt "cd nowhere" s
  = Some ((EmptyString, Some "bash: command not found"), s')
  /\ EmptyString = EmptyString /\ mgr s' = mgr s.
Proof.
  cbv zeta. split; [reflexivity|].
  exact (ExecuteCommand_error_keeps_directory (scripted []) "cd nowhere"
           (relocate "/home/player/hut" (fresh tt None)) _ _ _ eq_refl).
Defined.



Lemma unknown_condition_never_passes_witness :
  let q := quest_custom in
  let t := Type_ (WinCondition_ q) in
  let s := fresh tt None in
  (t <> CommandOut /\ t <> DirExists /\ t <> FileExists /\ t <> FileContains
   /\ t <> UserOutputMatch /\ t <> UserOutputContains /\ t <> CurrentDirMatch)
  /\ checkPassed passwd_world q (NewModel [q] 0) s = Some (false, s).
Proof.
  cbv zeta.
  assert (N1 : Type_ (WinCondition_ quest_custom) <> CommandOut) by discriminate.
  assert (N2 : Type_ (WinCondition_ quest_custom) <> DirExists) by discriminate.
  assert (N3 : Type_ (WinCondition_ quest_custom) <> FileExists) by discriminate.
  assert (N4 : Type_ (WinCondition_ quest_custom) <> FileContains) by discriminate.
  assert (N5 : Type_ (WinCondition_ quest_custom) <> UserOutputMatch)
    by discriminate.
  assert (N6 : Type_ (WinCondition_ quest_custom) <> UserOutputContains)
    by discriminate.
  assert (N7 : Type_ (WinCondition_ quest_custom) <> CurrentDirMatch)
    by discriminate.
  split; [repeat split; assumption|].
  exact (unknown_condition_never_passes passwd_world quest_custom
           (NewModel [quest_custom] 0) (fresh tt None) N1 N2 N3 N4 N5 N6 N7).
Defined.

Lemma start_cursor_in_range_witness :
  let qs := map_then_passwd in
  let s := fresh tt (save_at 7) in
  qs <> []
  /\ exists m,
       main_NewModel qs (-3) s = Some (m, s)
       /\ quests m = qs
       /\ 0 <= currentQuestIdx m < len qs
       /\ (saved s = None -> -3 <= 0 -> currentQuestIdx m = 0).
Proof.
  cbv zeta.
  assert (N : map_then_passwd <> []) by discriminate.
  split; [exact N|].
  exact (start_cursor_in_range map_then_passwd (-3) (fresh tt (save_at 7)) N).
Defined.

Lemma verdict_index_decides_cursor_witness :
  let m := NewModel map_then_passwd 1 in
  let s := fresh tt (save_at 1) in
  len (quests m) < 2 ^ 63
  /\ (0 <= 0 < len (quests m) ->
      exists m' c s',
        Update passwd_world plain true m (questCheckMsg 0 true) s
        = Some ((m', c), s')
        /\ currentQuestIdx m' = 0 + 1
        /\ (writable s = true -> saved_cursor s' = Some (0 + 1)))
  /\ (0 < 0 \/ len (quests m) <= 0 ->
      Update passwd_world plain true m (questCheckMsg 0 true) s = None).
Proof.
  cbv zeta.
  assert (H : len (quests (NewModel map_then_passwd 1)) < 2 ^ 63)
    by reflexivity.
  split; [exact H|].
  exact (verdict_index_decides_cursor passwd_world plain true
           (NewModel map_then_passwd 1) 0 (fresh tt (save_at 1)) H).
Defined.


Lemma cd_ignores_surrounding_blanks_witness :
  let rt := scripted [("cd /home/player && cd hut && pwd",
                       ok_result ("/home/player/hut" ++ LF))] in
  let s := fresh tt None in
  is_cd (TrimSpace "  cd hut ") = true
  /\ ExecuteCommand rt "  cd hut " s
     = ExecuteCommand rt (TrimSpace "  cd hut ") s.
Proof.
  cbv zeta. split; [reflexivity|].
  exact (cd_ignores_surrounding_blanks
           (scripted [("cd /home/player && cd hut && pwd",
                       ok_result ("/home/player/hut" ++ LF))])
           "  cd hut " (fresh tt None) eq_refl).
Defined.

Lemma EnsureNetwork_twice_witness :
  let s := fresh false None in
  let s1 := after_call network_sim
              (after_call network_sim s (inspect_call (mgr s)))
              (create_call (mgr s)) in
  ((forall w, snd (spawn network_sim (inspect_call (mgr s)) w) = w)
   /\ (forall w,
         run_err (fst (spawn network_sim (create_call (mgr s)) w)) = None ->
         run_err (fst (spawn network_sim (inspect_call (mgr s))
                         (snd (spawn network_sim (create_call (mgr s)) w))))
         = None)
   /\ EnsureNetwork network_sim s = Some (None, s1))
  /\ (calls s1 = (calls s ++ [inspect_call (mgr s)])%list
      \/ (run_err (fst (spawn network_sim (inspect_call (mgr s)) (world s)))
          <> None
          /\ calls s1 = (calls s ++ [inspect_call (mgr s);
                                     create_call (mgr s)])%list))
  /\ exists s2,
       EnsureNetwork network_sim s1 = Some (None, s2)
       /\ world s2 = world s1
       /\ calls s2 = (calls s1 ++ [inspect_call (mgr s)])%list.
Proof.
  cbv zeta.
  assert (H1 : forall w,
             snd (spawn network_sim (inspect_call (mgr (fresh false None))) w)
             = w) by (intros [|]; reflexivity).
  assert (H2 : forall w,
             run_err (fst (spawn network_sim
                             (create_call (mgr (fresh false None))) w)) = None ->
             run_err (fst (spawn network_sim
                             (inspect_call (mgr (fresh false None)))
                             (snd (spawn network_sim
                                     (create_call (mgr (fresh false None))) w))))
             = None) by (intros [|]; [discriminate|reflexivity]).
  split; [split; [exact H1|split; [exact H2|reflexivity]]|].
  exact (EnsureNetwork_twice network_sim (fresh false None) _ H1 H2 eq_refl).
Defined.

Lemma ResetStorage_survives_failed_cleanup_witness :
  ((forall w, snd (host_home w) = None)
   /\ (forall path w, fst (host_remove path w) = None))
  /\ exists printed s',
       ResetStorage (scripted []) host_home host_missing host_remove host_join
         (fresh tt None)
       = Some ((None, printed), s').
Proof.
  assert (H1 : forall w, snd (host_home w) = None) by reflexivity.
  assert (H2 : forall path w, fst (host_remove path w) = None) by reflexivity.
  split; [split; assumption|].
  exact (ResetStorage_survives_failed_cleanup (scripted []) host_home
           host_missing host_remove host_join (fresh tt None) H1 H2).
Defined.

Lemma keys_reach_the_runtime_only_to_quit_witness :
  let t := ready_terminal "ls" ["pwd"] in
  let s := fresh tt None in
  let s' := after_call (scripted [])
              (after_call (scripted []) s (rm_player_call (mgr s)))
              (rm_gateway_call (mgr s)) in
  UpdateKey (scripted []) t KeyCtrlC s = Some ((t, Run CmdQuit), s')
  /\ (ready (model t) = false -> t = t /\ s' = s)
  /\ (s' = s
      \/ (ready (model t) = true /\ (KeyCtrlC = KeyCtrlC \/ KeyCtrlC = KeyEsc)
          /\ Run CmdQuit = Run CmdQuit /\ t = t
          /\ s' = after_call (scripted [])
                    (after_call (scripted []) s (rm_player_call (mgr s)))
                    (rm_gateway_call (mgr s)))).
Proof.
  cbv zeta. split; [reflexivity|].
  exact (keys_reach_the_runtime_only_to_quit (scripted [])
           (ready_terminal "ls" ["pwd"]) _ KeyCtrlC _ (fresh tt None) _ eq_refl).
Defined.

Lemma only_Enter_starts_a_command_witness :
  let t := ready_terminal "  ls -la " ["pwd"] in
  let s := fresh tt None in
  let t' := {| model := append_output ["player@goblin:~$ ls -la"] (model t);
               input := EmptyString; history := ["pwd"; "ls -la"];
               historyIdx := 2 |} in
  UpdateKey (scripted []) t KeyEnter s = Some ((t', Run (CmdExec "ls -la")), s)
  /\ KeyEnter = KeyEnter /\ ready (model t) = true
  /\ "ls -la" = TrimSpace (input t)
  /\ "ls -la" <> EmptyString /\ "ls -la" <> "exit" /\ "ls -la" <> "help"
  /\ "ls -la" <> "history"
  /\ history t' = (history t ++ ["ls -la"])%list
  /\ historyIdx t' = len (history t')
  /\ input t' = EmptyString.
Proof.
  cbv zeta. split; [reflexivity|].
  exact (only_Enter_starts_a_command (scripted [])
           (ready_terminal "  ls -la " ["pwd"]) _ KeyEnter "ls -la"
           (fresh tt None) _ eq_refl).
Defined.

Lemma history_index_stays_in_range_witness :
  let t := ready_terminal EmptyString ["pwd"] in
  let s := fresh tt None in
  let ks := [KeyUp; KeyUp; KeyDown; KeyRunes "ls"; KeyEnter; KeyDown; KeyUp] in
  (0 <= historyIdx t <= len (history t)
   /\ len (history t) + len ks < 2 ^ 63)
  /\ exists t' s' more,
       press (scripted []) ks t s = Some (t', s')
       /\ 0 <= historyIdx t' <= len (history t')
       /\ history t' = (history t ++ more)%list
       /\ (List.length more <= List.length ks)%nat
       /\ Forall (fun h => h <> EmptyString /\ TrimSpace h = h) more.
Proof.
  cbv zeta.
  assert (H0 : 0 <= historyIdx (ready_terminal EmptyString ["pwd"])
               <= len (history (ready_terminal EmptyString ["pwd"])))
    by (split; vm_compute; discriminate).
  assert (H1 : len (history (ready_terminal EmptyString ["pwd"]))
               + len [KeyUp; KeyUp; KeyDown; KeyRunes "ls"; KeyEnter; KeyDown;
                      KeyUp] < 2 ^ 63) by reflexivity.
  split; [split; assumption|].
  exact (history_index_stays_in_range (scripted [])
           [KeyUp; KeyUp; KeyDown; KeyRunes "ls"; KeyEnter; KeyDown; KeyUp]
           (ready_terminal EmptyString ["pwd"]) (fresh tt None) H0 H1).
Defined.

Lemma Up_recalls_the_last_command_witness :
  let t := ready_terminal " cat map.txt  " ["pwd"] in
  let s := fresh tt None in
  (ready (model t) = true /\ TrimSpace (input t) <> EmptyString
   /\ len (history t) + 1 < 2 ^ 63)
  /\ exists t',
       press (scripted []) [KeyEnter; KeyUp] t s = Some (t', s)
       /\ input t' = TrimSpace (input t)
       /\ history t' = (history t ++ [TrimSpace (input t)])%list
       /\ historyIdx t' = len (history t).
Proof.
  cbv zeta.
  assert (H1 : TrimSpace (input (ready_terminal " cat map.txt  " ["pwd"]))
               <> EmptyString) by (vm_compute; discriminate).
  assert (H2 : len (history (ready_terminal " cat map.txt  " ["pwd"])) + 1
               < 2 ^ 63) by reflexivity.
  split; [split; [reflexivity|split; assumption]|].
  exact (Up_recalls_the_last_command (scripted [])
           (ready_terminal " cat map.txt  " ["pwd"]) (fresh tt None)
           eq_refl H1 H2).
Defined.

Lemma Backspace_undoes_typing_witness :
  let t := ready_terminal "cat " ["pwd"] in
  let s := fresh tt None in
  ready (model t) = true
  /\ press (scripted [])
       (KeyRunes "map" :: List.repeat KeyBackspace (String.length "map")) t s
     = Some (t, s).
Proof.
  cbv zeta. split; [reflexivity|].
  exact (Backspace_undoes_typing (scripted []) "map"
           (ready_terminal "cat " ["pwd"]) (fresh tt None) eq_refl).
Defined.

